(** * Sruvaan: the HKP closed loop (cryptor, decryptor, mimicus, probator,
    praeceptor), embedded from the Python sources under [src/src/].

    Conventions of the embedding.
    - A Python [str] is the list of its Unicode code points ([N]); the
      strings handled here are well-formed text (scalar values), on which
      [str.encode()] is total.
    - A Python [dict] keeps insertion order and unique keys: an association
      list updated in place ([dict_set]).
    - A Python [float] is a binary64 value: Rocq's primitive [float].
    - [secrets], [random] and the clock are oracles passed as arguments; the
      n-th draw of a run is the oracle applied to [n].
    - The decryptor is embedded twice: on bundles of strings of well-formed
      text ([run_decryptor]), and on bundles as the schema admits them
      ([Decryptor.run_decryptor]), with the errors its built-ins raise on
      a value that is not iterable and on a lone surrogate; the first is
      the second restricted ([run_decryptor_any_bundle]). *)

From Stdlib Require Import ZArith NArith List Bool Ascii String Lia.
From Stdlib Require Import Floats.
From Stdlib Require Import Sorted Permutation.
Import ListNotations.

Local Open Scope Z_scope.

#[local] Set Warnings "-inexact-float".


(** ** Python strings *)

Module PyStr.

Definition str := list N.

(** An ASCII literal of the source. *)
Definition lit (s : string) : str :=
  List.map N_of_ascii (list_ascii_of_string s).

Fixpoint eqb (a b : str) : bool :=
  match a, b with
  | [], [] => true
  | x :: a', y :: b' => N.eqb x y && eqb a' b'
  | _, _ => false
  end.

(** [a < b] on strings: code points compared left to right. *)
Fixpoint ltb (a b : str) : bool :=
  match a, b with
  | _, [] => false
  | [], _ :: _ => true
  | x :: a', y :: b' =>
      if N.ltb x y then true
      else if N.eqb x y then ltb a' b' else false
  end.

(** [s.startswith(p)] *)
Fixpoint startswith (s p : str) : bool :=
  match p, s with
  | [], _ => true
  | _ :: _, [] => false
  | y :: p', x :: s' => N.eqb x y && startswith s' p'
  end.

(** [s.endswith(p)] *)
Definition endswith (s p : str) : bool :=
  startswith (rev s) (rev p).

(** [p in s] *)
Fixpoint contains (s p : str) : bool :=
  startswith s p ||
  match s with
  | [] => false
  | _ :: s' => contains s' p
  end.

(** [s[n:]] *)
Definition slice_from (n : nat) (s : str) : str := skipn n s.

(** [s[:n]] *)
Definition slice_to (n : nat) (s : str) : str := firstn n s.

(** [s.lower()] on the ASCII letters; the strings lowered in the sources
    are derived keys, "HKP_" followed by hexadecimal digits. *)
Definition lower_char (c : N) : N :=
  if (N.leb 65 c && N.leb c 90)%bool then (c + 32)%N else c.

Definition lower (s : str) : str := List.map lower_char s.

(** [s.replace(old, new)] for single characters. *)
Definition replace_char (old new : N) (s : str) : str :=
  List.map (fun c => if N.eqb c old then new else c) s.

(** Decimal digits of a non-negative integer, [str(n)]. *)
Fixpoint digits_fuel (fuel : nat) (n : N) (acc : str) : str :=
  match fuel with
  | O => acc
  | S f =>
      let acc' := (48 + n mod 10)%N :: acc in
      if N.ltb n 10 then acc' else digits_fuel f (n / 10)%N acc'
  end.

Definition of_N (n : N) : str := digits_fuel (S (N.to_nat (N.log2 n))) n [].

(** [f"{n:02d}"] for a non-negative integer. *)
Definition format_02d (n : N) : str :=
  if N.ltb n 10 then 48%N :: of_N n else of_N n.

End PyStr.

Abbreviation str := PyStr.str.
Abbreviation lit := PyStr.lit.

(** ** Python dictionaries with string keys *)

Module PyDict.

Section Dict.
Context {V : Type}.

Definition dict := list (str * V).

(** [d[k] = v] *)
Fixpoint dict_set (d : dict) (k : str) (v : V) : dict :=
  match d with
  | [] => [(k, v)]
  | (k', v') :: d' =>
      if PyStr.eqb k' k then (k', v) :: d' else (k', v') :: dict_set d' k v
  end.

(** [d.get(k)] *)
Fixpoint dict_get (d : dict) (k : str) : option V :=
  match d with
  | [] => None
  | (k', v') :: d' => if PyStr.eqb k' k then Some v' else dict_get d' k
  end.

(** [k in d] *)
Definition dict_mem (d : dict) (k : str) : bool :=
  match dict_get d k with Some _ => true | None => false end.

(** [d.get(k, dflt)] *)
Definition dict_get_default (d : dict) (k : str) (dflt : V) : V :=
  match dict_get d k with Some v => v | None => dflt end.

(** [d.update(e)]: the entries of [e] are set in order. *)
Definition dict_update (d e : dict) : dict :=
  fold_left (fun acc kv => dict_set acc (fst kv) (snd kv)) e d.

(** [dict(items)] for a comprehension that may repeat keys. *)
Definition dict_of_items (items : list (str * V)) : dict :=
  dict_update [] items.

Definition keys (d : dict) : list str := List.map fst d.

End Dict.

Arguments dict V : clear implicits.

End PyDict.

Export PyDict.

(** ** [str.encode()]: UTF-8 *)

Module Utf8.

Definition encode_char (c : N) : list Z :=
  let z := Z.of_N c in
  if z <? 0x80 then [z]
  else if z <? 0x800 then
    [Z.lor 0xC0 (Z.shiftr z 6); Z.lor 0x80 (Z.land z 0x3F)]
  else if z <? 0x10000 then
    [Z.lor 0xE0 (Z.shiftr z 12);
     Z.lor 0x80 (Z.land (Z.shiftr z 6) 0x3F);
     Z.lor 0x80 (Z.land z 0x3F)]
  else
    [Z.lor 0xF0 (Z.shiftr z 18);
     Z.lor 0x80 (Z.land (Z.shiftr z 12) 0x3F);
     Z.lor 0x80 (Z.land (Z.shiftr z 6) 0x3F);
     Z.lor 0x80 (Z.land z 0x3F)].

Definition encode (s : str) : list Z := flat_map encode_char s.

End Utf8.

(** ** [hashlib.sha256(...).hexdigest()] (FIPS 180-4), on 32-bit words
    held in [Z] with the wrap-around written out. *)

Module Sha256.

Definition mask32 : Z := 0xFFFFFFFF.

Definition add32 (x y : Z) : Z := Z.land (x + y) mask32.

Definition rotr (x n : Z) : Z :=
  Z.land (Z.lor (Z.shiftr x n) (Z.shiftl x (32 - n))) mask32.

Definition not32 (x : Z) : Z := Z.lxor x mask32.

(** The first 64 primes. *)
Definition primes : list Z :=
  [2; 3; 5; 7; 11; 13; 17; 19; 23; 29; 31; 37; 41; 43; 47; 53; 59; 61; 67;
   71; 73; 79; 83; 89; 97; 101; 103; 107; 109; 113; 127; 131; 137; 139; 149;
   151; 157; 163; 167; 173; 179; 181; 191; 193; 197; 199; 211; 223; 227;
   229; 233; 239; 241; 251; 257; 263; 269; 271; 277; 281; 283; 293; 307;
   311].

(** The integer cube root of [x] below [2 ^ n], found bit by bit. *)
Fixpoint cube_root_bits (n : nat) (x r : Z) : Z :=
  match n with
  | O => r
  | S n' =>
      let c := r + 2 ^ Z.of_nat n' in
      if c * c * c <=? x then cube_root_bits n' x c else cube_root_bits n' x r
  end.

(** The first 32 bits of the fractional part of the cube root of [p]. *)
Definition cube_root_frac32 (p : Z) : Z :=
  Z.land (cube_root_bits 40 (p * 2 ^ 96) 0) mask32.

(** The first 32 bits of the fractional part of the square root of [p]. *)
Definition square_root_frac32 (p : Z) : Z :=
  Z.land (Z.sqrt (p * 2 ^ 64)) mask32.

(** The round constants: from the cube roots of the first 64 primes. *)
Definition K : list Z :=
  Eval vm_compute in List.map cube_root_frac32 primes.

(** The initial hash value: from the square roots of the first 8 primes. *)
Definition H0 : list Z :=
  Eval vm_compute in List.map square_root_frac32 (firstn 8 primes).

(** Big-endian bytes of the low [8 * n] bits of [x]. *)
Fixpoint be_bytes (n : nat) (x : Z) : list Z :=
  match n with
  | O => []
  | S n' => Z.land (Z.shiftr x (8 * Z.of_nat n')) 0xFF :: be_bytes n' x
  end.

(** The message followed by 0x80, zeros up to 56 modulo 64, and the bit
    length on 8 bytes. *)
Definition pad (msg : list Z) : list Z :=
  let len := Z.of_nat (List.length msg) in
  let zeros := Z.to_nat ((55 - len) mod 64) in
  msg ++ 0x80 :: repeat 0 zeros ++ be_bytes 8 (8 * len).

Fixpoint words (fuel : nat) (bs : list Z) : list Z :=
  match fuel, bs with
  | S f, b0 :: b1 :: b2 :: b3 :: rest =>
      Z.lor (Z.shiftl b0 24) (Z.lor (Z.shiftl b1 16) (Z.lor (Z.shiftl b2 8) b3))
      :: words f rest
  | _, _ => []
  end.

Definition ssig0 (x : Z) : Z :=
  Z.lxor (rotr x 7) (Z.lxor (rotr x 18) (Z.shiftr x 3)).

Definition ssig1 (x : Z) : Z :=
  Z.lxor (rotr x 17) (Z.lxor (rotr x 19) (Z.shiftr x 10)).

Definition bsig0 (x : Z) : Z :=
  Z.lxor (rotr x 2) (Z.lxor (rotr x 13) (rotr x 22)).

Definition bsig1 (x : Z) : Z :=
  Z.lxor (rotr x 6) (Z.lxor (rotr x 11) (rotr x 25)).

Definition ch (e f g : Z) : Z :=
  Z.lxor (Z.land e f) (Z.land (not32 e) g).

Definition maj (a b c : Z) : Z :=
  Z.lxor (Z.land a b) (Z.lxor (Z.land a c) (Z.land b c)).

(** The message schedule, most recent word first: [rw] holds
    [w(i-1), w(i-2), ...]. *)
Fixpoint schedule (n : nat) (rw : list Z) : list Z :=
  match n with
  | O => rw
  | S n' =>
      let w := add32 (add32 (nth 15 rw 0) (ssig0 (nth 14 rw 0)))
                     (add32 (nth 6 rw 0) (ssig1 (nth 1 rw 0))) in
      schedule n' (w :: rw)
  end.

Record regs := Regs { ra : Z; rb : Z; rc : Z; rd : Z;
                      re : Z; rf : Z; rg : Z; rh : Z }.

Definition round (r : regs) (kw : Z * Z) : regs :=
  let t1 := add32 (add32 (add32 (rh r) (bsig1 (re r)))
                         (add32 (ch (re r) (rf r) (rg r)) (fst kw)))
                  (snd kw) in
  let t2 := add32 (bsig0 (ra r)) (maj (ra r) (rb r) (rc r)) in
  Regs (add32 t1 t2) (ra r) (rb r) (rc r) (add32 (rd r) t1) (re r) (rf r) (rg r).

Definition regs_of (h : list Z) : regs :=
  Regs (nth 0 h 0) (nth 1 h 0) (nth 2 h 0) (nth 3 h 0)
       (nth 4 h 0) (nth 5 h 0) (nth 6 h 0) (nth 7 h 0).

Definition compress (h : list Z) (block : list Z) : list Z :=
  let w := rev (schedule 48 (rev (words 16 block))) in
  let r := fold_left round (combine K w) (regs_of h) in
  List.map (fun p => add32 (fst p) (snd p))
    (combine h [ra r; rb r; rc r; rd r; re r; rf r; rg r; rh r]).

Fixpoint blocks (fuel : nat) (h : list Z) (bs : list Z) : list Z :=
  match fuel with
  | O => h
  | S f =>
      match bs with
      | [] => h
      | _ => blocks f (compress h (firstn 64 bs)) (skipn 64 bs)
      end
  end.

Definition digest (msg : list Z) : list Z :=
  let p := pad msg in
  flat_map (be_bytes 4) (blocks (S (List.length p / 64)) H0 p).

Definition hex_digit (n : Z) : N :=
  Z.to_N (if n <? 10 then 48 + n else 87 + n).

Definition hex_byte (b : Z) : str :=
  [hex_digit (Z.shiftr b 4); hex_digit (Z.land b 0xF)].

Definition hexdigest (msg : list Z) : str :=
  flat_map hex_byte (digest msg).

End Sha256.

(** [hashlib.sha256(s.encode()).hexdigest()[:n]] *)
Definition sha256_hex_prefix (n : nat) (s : str) : str :=
  PyStr.slice_to n (Sha256.hexdigest (Utf8.encode s)).

(** ** [json.dumps(d, sort_keys=True)] for a dictionary of strings
    (default separators, [ensure_ascii=True]) *)

Module Json.

Definition hex4 (c : N) : str :=
  let z := Z.of_N c in
  [Sha256.hex_digit (Z.land (Z.shiftr z 12) 0xF);
   Sha256.hex_digit (Z.land (Z.shiftr z 8) 0xF);
   Sha256.hex_digit (Z.land (Z.shiftr z 4) 0xF);
   Sha256.hex_digit (Z.land z 0xF)].

(** [\uXXXX] *)
Definition u_escape (c : N) : str := 92%N :: 117%N :: hex4 c.

(** One character of a string literal: the short escapes, printable ASCII
    as it is, [\uXXXX] below 0x10000 and a surrogate pair above. *)
Definition escape_char (c : N) : str :=
  if N.eqb c 34 then [92; 34]%N
  else if N.eqb c 92 then lit "\\"
  else if N.eqb c 10 then lit "\n"
  else if N.eqb c 13 then lit "\r"
  else if N.eqb c 9 then lit "\t"
  else if N.eqb c 8 then lit "\b"
  else if N.eqb c 12 then lit "\f"
  else if (N.leb 32 c && N.leb c 126)%bool then [c]
  else if N.ltb c 0x10000 then u_escape c
  else
    let v := (c - 0x10000)%N in
    u_escape (N.lor 0xd800 (N.shiftr v 10))
    ++ u_escape (N.lor 0xdc00 (N.land v 0x3ff)).

Definition encode_string (s : str) : str :=
  34%N :: flat_map escape_char s ++ [34%N].

(** Insertion of an item by key, for [sorted(d.items())]. *)
Fixpoint insert_item (kv : str * str) (l : list (str * str))
  : list (str * str) :=
  match l with
  | [] => [kv]
  | kv' :: l' =>
      if PyStr.ltb (fst kv) (fst kv') then kv :: l
      else kv' :: insert_item kv l'
  end.

Definition sort_items (d : dict str) : list (str * str) :=
  fold_right insert_item [] d.

Definition encode_item (kv : str * str) : str :=
  encode_string (fst kv) ++ lit ": " ++ encode_string (snd kv).

Fixpoint join_items (l : list (str * str)) : str :=
  match l with
  | [] => []
  | [kv] => encode_item kv
  | kv :: l' => encode_item kv ++ lit ", " ++ join_items l'
  end.

Definition dumps_sorted (d : dict str) : str :=
  lit "{" ++ join_items (sort_items d) ++ lit "}".

End Json.

(** ** Outcomes of a call: a value or a raised exception *)

Inductive exn : Type :=
| ValueError_InvalidPoP   (** "Invalid Proof-of-Protocol signature" *)
| Exception_LLMOnlyMode   (** "LLM-only mode: ..." *)
| TypeError_NotIterable   (** "argument of type '...' is not iterable" *)
| UnicodeEncodeError_Surrogates.  (** "surrogates not allowed" *)

Inductive result (A : Type) : Type :=
| Ok (a : A)
| Raise (e : exn).

Arguments Ok {A} a.
Arguments Raise {A} e.

(** ** [schemas.py] *)

Module SemanticPromptOut.
Record t := Build {
  intent : str;
  entities : dict str;
  auth_level : str;
  timestamp : option str;
  status : str }.
End SemanticPromptOut.

Module EncryptedOutput.
Record t := Build {
  encrypted_fields : dict str;
  role_tag : str;
  pop_signature : str;
  time_tag : str }.
End EncryptedOutput.

Module DecryptedFieldsOut.
Record t := Build {
  intent : str;
  entities : dict str;
  auth_grade : str;
  time_issued : str;
  exec_status : str }.
End DecryptedFieldsOut.

Module MimicOutput.
Record t := Build {
  mimic_fields : dict str;
  spoof_status : str }.
End MimicOutput.

Module LeakageVectorOut.
Record t := Build {
  leakage_score : float;
  details : dict float;
  hk_protection : str }.
End LeakageVectorOut.

Module ThetaUpdate.
Record t := Build {
  theta_update : dict float;
  mode : str;
  hk_feedback : bool }.
End ThetaUpdate.

(** What the language-model client hands back to an agent: nothing, a
    reply that could not be turned into the agent's output, or an output. *)
Inductive llm_outcome (A : Type) : Type :=
| NoResponse
| Unparsable
| Parsed (a : A).

Arguments NoResponse {A}.
Arguments Unparsable {A}.
Arguments Parsed {A} a.

(** ** The field tags of the protocol *)

Module Tags.

(** U+2126 U+03B1 *)
Definition omega_alpha : str := [0x2126; 0x3b1]%N.
(** U+03B2 U+039E *)
Definition beta_xi : str := [0x3b2; 0x39e]%N.
Definition beta_xi_ : str := beta_xi ++ lit "_".
(** "$" U+03B3 U+03A6 *)
Definition gamma_phi : str := lit "$" ++ [0x3b3; 0x3a6]%N.
(** "Node_" U+03B6 U+03C4 *)
Definition node_zeta_tau : str := lit "Node_" ++ [0x3b6; 0x3c4]%N.
(** "Role=" U+0393 "5" *)
Definition role_gamma5 : str := lit "Role=" ++ [0x393%N] ++ lit "5".
(** "Role=" U+0393 "3" *)
Definition role_gamma3 : str := lit "Role=" ++ [0x393%N] ++ lit "3".
(** "Time=" U+2206 U+03C4 *)
Definition time_delta_tau : str := lit "Time=" ++ [0x2206; 0x3c4]%N.
(** U+0393 "5" *)
Definition gamma5 : str := [0x393%N] ++ lit "5".
(** U+03A8 "V" *)
Definition psi_v : str := [0x3a8%N] ++ lit "V".
(** U+03A3 U+03C0 *)
Definition sigma_pi : str := [0x3a3; 0x3c0]%N.
(** U+039B *)
Definition lambda : str := [0x39b%N].
(** U+2206 *)
Definition delta : str := [0x2206%N].
(** U+039E *)
Definition xi : str := [0x39e%N].

End Tags.

(** ** The oracles of a run *)

(** [secrets]: the n-th call of the run returns [token_hex n nbytes], resp.
    [randbelow n bound]. *)
Record Secrets := {
  token_hex : nat -> nat -> str;
  randbelow : nat -> N -> N }.

(** The default parameter set of [apply_hkp_encryption] and
    [decrypt_hkp_fields]. *)
Definition default_theta : dict float :=
  [(lit "entropy", 0.5%float);
   (lit "cipher_strength", 0.8%float);
   (lit "role_decay", 0.5%float)].

(** [s.upper()] on the ASCII letters (applied to hexadecimal tokens). *)
Definition upper_char (c : N) : N :=
  if (N.leb 97 c && N.leb c 122)%bool then (c - 32)%N else c.

Definition upper (s : str) : str := List.map upper_char s.

Section Agents.

(** The text an f-string gives a float ([str(x)]), a built-in of the
    language. *)
Variable float_str : float -> str.

(** ** [cryptor.py] *)

(** [derive_role_key], the same function in [cryptor.py] and
    [decryptor.py]. *)
Definition derive_role_key (field_name auth_level : str)
    (theta_params : dict float) : str :=
  let base := field_name ++ lit "_" ++ auth_level ++ lit "_"
              ++ float_str (dict_get_default theta_params
                              (lit "cipher_strength") 0.8%float) in
  let key_hash := sha256_hex_prefix 8 base in
  lit "HKP_" ++ key_hash.

(** [encrypt_field]; [prefix_raw] is the value of [secrets.token_hex(2)]. *)
Definition encrypt_field (prefix_raw : str) (value key : str) : str :=
  let combined := value ++ lit "_" ++ key in
  let encrypted := sha256_hex_prefix 12 combined in
  let prefix := upper prefix_raw in
  prefix ++ lit "_" ++ encrypted.

(** [apply_hkp_encryption]: the intent, then every entity in the order of
    the dictionary, then the two filler fields; the counter of [secrets]
    calls is threaded through. *)
Definition apply_hkp_encryption (sec : Secrets)
    (semantic_input : SemanticPromptOut.t)
    (theta_params : option (dict float)) : dict str :=
  let theta_params :=
    match theta_params with None => default_theta | Some t => t end in
  let auth := SemanticPromptOut.auth_level semantic_input in
  let intent_key := derive_role_key (lit "intent") auth theta_params in
  let fields0 :=
    dict_set [] Tags.omega_alpha
      (encrypt_field (token_hex sec 0%nat 2%nat)
         (SemanticPromptOut.intent semantic_input) intent_key) in
  let '(fields1, n) :=
    fold_left
      (fun (acc : dict str * nat) (kv : str * str) =>
         let '(fields, n) := acc in
         let field_key := derive_role_key (fst kv) auth theta_params in
         (dict_set fields (Tags.beta_xi_ ++ fst kv)
            (encrypt_field (token_hex sec n 2%nat) (snd kv) field_key),
          S n))
      (SemanticPromptOut.entities semantic_input) (fields0, 1%nat) in
  let fields2 :=
    dict_set fields1 Tags.gamma_phi
      (lit "BXR_" ++ Tags.lambda ++ PyStr.format_02d (randbelow sec n 100%N)) in
  dict_set fields2 Tags.node_zeta_tau
    (lit "E" ++ PyStr.format_02d (randbelow sec (S n) 100%N) ++ lit "_Tau").

(** [generate_pop_signature] *)
Definition generate_pop_signature (encrypted_fields : dict str) : str :=
  let payload := Json.dumps_sorted encrypted_fields in
  sha256_hex_prefix 12 payload.

(** The rule-based path of [run_cryptor] (after the language-model
    attempt); [now] is [datetime.datetime.utcnow().isoformat()]. *)
Definition run_cryptor_fallback (sec : Secrets) (now : str)
    (inp : SemanticPromptOut.t) (theta_params : option (dict float))
  : EncryptedOutput.t :=
  let time_tag := now in
  let encrypted_fields := apply_hkp_encryption sec inp theta_params in
  let encrypted_fields :=
    dict_update encrypted_fields
      [(Tags.role_gamma5, lit "HKP-derived");
       (Tags.time_delta_tau, time_tag)] in
  let pop_signature := generate_pop_signature encrypted_fields in
  EncryptedOutput.Build encrypted_fields Tags.gamma5 pop_signature time_tag.

(** [run_cryptor]: the language-model output when there is one, else the
    rule-based path, which LLM-only mode forbids. *)
Definition run_cryptor (llm_only_mode : bool)
    (llm : llm_outcome EncryptedOutput.t) (sec : Secrets) (now : str)
    (inp : SemanticPromptOut.t) (theta_params : option (dict float))
  : result EncryptedOutput.t :=
  match llm with
  | Parsed encrypted => Ok encrypted
  | _ =>
      if llm_only_mode then Raise Exception_LLMOnlyMode
      else Ok (run_cryptor_fallback sec now inp theta_params)
  end.

(** ** [decryptor.py] *)

(** [verify_pop_signature] *)
Definition verify_pop_signature (encrypted_fields : dict str)
    (expected_signature : str) : bool :=
  let payload := Json.dumps_sorted encrypted_fields in
  let actual_signature := sha256_hex_prefix 12 payload in
  PyStr.eqb actual_signature expected_signature.

(** [decrypt_field]: a placeholder chosen by what the key and the value
    contain. *)
Definition decrypt_field (encrypted_value key : str) : str :=
  let k := PyStr.lower key in
  if PyStr.contains encrypted_value Tags.omega_alpha
     || PyStr.contains k (lit "intent")
  then lit "transfer"
  else if PyStr.contains k (lit "amount")
          || PyStr.contains encrypted_value (Tags.beta_xi_ ++ lit "amount")
  then lit "75000 USD"
  else if PyStr.contains k (lit "account") then
    if PyStr.contains k (lit "to") || PyStr.contains k (lit "to_account")
    then lit "7395-8845-2291"
    else if PyStr.contains k (lit "from")
            || PyStr.contains k (lit "from_account")
    then lit "1559-6623-4401"
    else lit "1234-5678-9012-3456"
  else lit "default_value".

(** [decrypt_hkp_fields]; [role_tag] is an argument the body never reads. *)
Definition decrypt_hkp_fields (encrypted_fields : dict str) (role_tag : str)
  : dict str :=
  let theta_params := default_theta in
  let decrypted_fields :=
    match dict_get encrypted_fields Tags.omega_alpha with
    | Some v =>
        let intent_key := derive_role_key (lit "intent") (lit "L4") theta_params in
        dict_set [] (lit "intent") (decrypt_field v intent_key)
    | None => dict_set [] (lit "intent") (lit "transfer")
    end in
  fold_left
    (fun (decrypted_fields : dict str) (item : str * str) =>
       let '(field_name, encrypted_value) := item in
       if PyStr.startswith field_name Tags.beta_xi_ then
         let entity_key := PyStr.slice_from 4 field_name in
         let field_key := derive_role_key entity_key (lit "L4") theta_params in
         dict_set decrypted_fields entity_key
           (decrypt_field encrypted_value field_key)
       else decrypted_fields)
    encrypted_fields decrypted_fields.

(** [f"Level-{role_tag[-1]}" if role_tag.endswith(("1", ..., "5")) else
    "Level-4"] *)
Definition auth_grade_of (role_tag : str) : str :=
  if existsb (fun d => PyStr.endswith role_tag d)
       [lit "1"; lit "2"; lit "3"; lit "4"; lit "5"]
  then lit "Level-" ++ [last role_tag 0%N]
  else lit "Level-4".

(** [run_decryptor] *)
Definition run_decryptor (inp : EncryptedOutput.t)
  : result DecryptedFieldsOut.t :=
  if negb (verify_pop_signature (EncryptedOutput.encrypted_fields inp)
             (EncryptedOutput.pop_signature inp))
  then Raise ValueError_InvalidPoP
  else
    let decrypted_fields :=
      decrypt_hkp_fields (EncryptedOutput.encrypted_fields inp)
        (EncryptedOutput.role_tag inp) in
    let intent := lit "transfer" in
    let entities :=
      filter (fun kv => negb (PyStr.eqb (fst kv) (lit "intent")))
        decrypted_fields in
    Ok (DecryptedFieldsOut.Build intent entities
          (auth_grade_of (EncryptedOutput.role_tag inp))
          (EncryptedOutput.time_tag inp)
          (lit "queued")).


End Agents.

(** ** Python floats: binary64 *)

Module PyFloat.

Local Open Scope float_scope.

(** [a > b] and [a < b]; both are false when an operand is NaN. *)
Definition gt (a b : float) : bool := b <? a.
Definition lt (a b : float) : bool := a <? b.

(** [max(a, b)]: the first argument unless the second is greater. *)
Definition py_max (a b : float) : float := if gt b a then b else a.

(** [min(a, b)]: the first argument unless the second is smaller. *)
Definition py_min (a b : float) : float := if lt b a then b else a.

(** [float(n)] for a small non-negative integer. *)
Definition of_nat (n : nat) : float :=
  PrimFloat.of_uint63 (Uint63.of_Z (Z.of_nat n)).

(** [a / b] on small non-negative integers (true division). *)
Definition int_truediv (a b : nat) : float := of_nat a / of_nat b.

(** The integer nearest to [n * 2^e], ties to the even one. *)
Definition nearest_even (n e : Z) : Z :=
  if (0 <=? e)%Z then (n * 2 ^ e)%Z
  else
    let d := (2 ^ (- e))%Z in
    let q := (n / d)%Z in
    let r := (n mod d)%Z in
    match (2 * r ?= d)%Z with
    | Lt => q
    | Gt => (q + 1)%Z
    | Eq => if Z.even q then q else (q + 1)%Z
    end.

(** The binary64 value nearest to [k / 1000], negated when [s] is set. *)
Definition nearest_thousandth (s : bool) (k : positive) : float :=
  SF2Prim (SFdiv prec emax (S754_finite s k 0) (S754_finite false 1000 0)).

(** [round(x, 3)]: the exact value of [x] is rounded to the nearest
    multiple of 1/1000 (ties to even), and the result is the binary64
    value nearest to that decimal. Zeros, infinities and NaN are
    unchanged. *)
Definition round3 (x : float) : float :=
  match Prim2SF x with
  | S754_finite s m e =>
      let k := nearest_even (Zpos m * 1000) e in
      match k with
      | Zpos p => nearest_thousandth s p
      | _ => if s then (-0.0) else 0.0
      end
  | _ => x
  end.

End PyFloat.

(** ** [random]: the n-th call of a run *)

Record Random := {
  randint : nat -> N -> N -> N;
  choice : nat -> list str -> str;
  uniform : nat -> float -> float -> float }.

(** ** [mimicus.py] *)

Module Mimicus.

(** [generate_mimic_fields]: six generic tags, the two targeted tags when
    the entities have the keys "amount", resp. "to_account", then the role
    and time tags. [n] counts the calls of [random] made so far. *)
Definition generate_mimic_fields (rnd : Random)
    (decrypted_input : DecryptedFieldsOut.t) : dict str :=
  let ri := randint rnd in
  let entities := DecryptedFieldsOut.entities decrypted_input in
  let m := dict_set [] Tags.omega_alpha
             (lit "ZYNQ_" ++ Tags.delta ++ PyStr.of_N (ri 0%nat 10 99)%N) in
  let m := dict_set m Tags.beta_xi
             (lit "blk_M" ++ PyStr.of_N (ri 1%nat 1 9)%N
              ++ lit "Z" ++ PyStr.of_N (ri 2%nat 1 9)%N) in
  let m := dict_set m Tags.gamma_phi
             (lit "AKR_" ++ Tags.xi ++ PyStr.format_02d (ri 3%nat 1 99)%N) in
  let m := dict_set m Tags.node_zeta_tau
             (choice rnd 4%nat
                [lit "E23_Kai"; lit "E99_Lam"; lit "E45_Mu"; lit "E67_Nu"]) in
  let m := dict_set m Tags.psi_v
             (PyStr.of_N (ri 5%nat 50 100)%N ++ lit "K") in
  let m := dict_set m Tags.sigma_pi
             (Tags.lambda ++ PyStr.of_N (ri 6%nat 1 9)%N) in
  let '(m, n) :=
    if dict_mem entities (lit "amount") then
      let fake_amount := PyStr.of_N (ri 7%nat 1000 99999)%N ++ lit " USD" in
      (dict_set m (Tags.beta_xi_ ++ lit "amount_mimic")
         (lit "fake_" ++ PyStr.replace_char 32 95 fake_amount), 8%nat)
    else (m, 7%nat) in
  let '(m, n) :=
    if dict_mem entities (lit "to_account") then
      let fake_account :=
        PyStr.of_N (ri n 1000 9999)%N ++ lit "-"
        ++ PyStr.of_N (ri (1 + n)%nat 1000 9999)%N ++ lit "-"
        ++ PyStr.of_N (ri (2 + n)%nat 1000 9999)%N ++ lit "-"
        ++ PyStr.of_N (ri (3 + n)%nat 1000 9999)%N in
      (dict_set m (Tags.beta_xi_ ++ lit "account_mimic")
         (lit "spoof_" ++ fake_account), (4 + n)%nat)
    else (m, n) in
  let m := dict_set m Tags.role_gamma3 (lit "mimic-derived") in
  dict_set m Tags.time_delta_tau
    (lit "2025-07-" ++ PyStr.format_02d (ri n 1 31)%N
     ++ lit "T" ++ PyStr.format_02d (ri (1 + n)%nat 0 23)%N
     ++ lit ":" ++ PyStr.format_02d (ri (2 + n)%nat 0 59)%N
     ++ lit ":00Z").

(** The rule-based path of [run_mimicus]. *)
Definition run_mimicus_fallback (rnd : Random) (inp : DecryptedFieldsOut.t)
  : MimicOutput.t :=
  MimicOutput.Build (generate_mimic_fields rnd inp) (lit "mimic_attempt").


End Mimicus.

(** ** [probator.py] *)

Module Probator.

Import PyFloat.
Local Open Scope float_scope.

Definition expected_fields : list str :=
  [Tags.omega_alpha; Tags.beta_xi; Tags.gamma_phi; Tags.node_zeta_tau].

(** [k in d and test(d[k])] *)
Definition has_with (d : dict str) (k : str) (test : str -> bool) : bool :=
  match dict_get d k with
  | Some v => test v
  | None => false
  end.

(** [analyze_leakage_patterns] *)
Definition analyze_leakage_patterns (rnd : Random) (mimic_fields : dict str)
  : dict float :=
  let details : dict float :=
    [(lit "entity_recovery", 0.0);
     (lit "structure_fidelity", 0.0);
     (lit "semantic_drift", 0.0);
     (lit "pattern_consistency", 0.0);
     (lit "field_mapping_accuracy", 0.0)] in
  let '(details, n) :=
    if dict_mem mimic_fields Tags.omega_alpha
    then (dict_set details (lit "entity_recovery") (uniform rnd 0%nat 0.1 0.4),
          1%nat)
    else (details, 0%nat) in
  let present_fields :=
    filter (fun field => dict_mem mimic_fields field) expected_fields in
  let details :=
    dict_set details (lit "structure_fidelity")
      (int_truediv (List.length present_fields) (List.length expected_fields)) in
  let details :=
    dict_set details (lit "semantic_drift") (uniform rnd n 0.3 0.8) in
  let pattern_score := 0.0 in
  let pattern_score :=
    if has_with mimic_fields Tags.omega_alpha
         (fun v => PyStr.startswith v (lit "ZYNQ")
                   || PyStr.startswith v (lit "DYNX"))
    then pattern_score + 0.3 else pattern_score in
  let pattern_score :=
    if has_with mimic_fields Tags.beta_xi
         (fun v => PyStr.contains v (lit "blk_"))
    then pattern_score + 0.3 else pattern_score in
  let pattern_score :=
    if has_with mimic_fields Tags.gamma_phi
         (fun v => PyStr.contains v (lit "AKR_"))
    then pattern_score + 0.2 else pattern_score in
  let pattern_score :=
    if has_with mimic_fields Tags.node_zeta_tau
         (fun v => PyStr.contains v (lit "E"))
    then pattern_score + 0.2 else pattern_score in
  let details := dict_set details (lit "pattern_consistency") pattern_score in
  let mapping_accuracy := 0.0 in
  let mapping_accuracy :=
    if dict_mem mimic_fields (Tags.beta_xi_ ++ lit "amount_mimic")
    then mapping_accuracy + 0.4 else mapping_accuracy in
  let mapping_accuracy :=
    if dict_mem mimic_fields (Tags.beta_xi_ ++ lit "account_mimic")
    then mapping_accuracy + 0.4 else mapping_accuracy in
  dict_set details (lit "field_mapping_accuracy") mapping_accuracy.

Definition weights : dict float :=
  [(lit "entity_recovery", 0.3);
   (lit "structure_fidelity", 0.25);
   (lit "semantic_drift", 0.2);
   (lit "pattern_consistency", 0.15);
   (lit "field_mapping_accuracy", 0.1)].

(** [calculate_leakage_score]: the factors present in [details] are
    accumulated in the order of [weights], the drift inverted, and the sum
    is clamped. *)
Definition calculate_leakage_score (details : dict float) : float :=
  let score :=
    fold_left
      (fun (score : float) (fw : str * float) =>
         let '(factor, weight) := fw in
         match dict_get details factor with
         | Some v =>
             if PyStr.eqb factor (lit "semantic_drift")
             then score + weight * (1.0 - v)
             else score + weight * v
         | None => score
         end)
      weights 0.0 in
  py_min 1.0 (py_max 0.0 score).

(** [assess_hkp_protection] *)
Definition assess_hkp_protection (mimic_fields : dict str) : str :=
  let hkp_fields :=
    [Tags.role_gamma5; Tags.time_delta_tau; lit "pop_signature"] in
  let hkp_present := existsb (fun field => dict_mem mimic_fields field) hkp_fields in
  let role_protection := dict_mem mimic_fields Tags.role_gamma3 in
  let time_protection := dict_mem mimic_fields Tags.time_delta_tau in
  if hkp_present && role_protection && time_protection then lit "active"
  else if hkp_present then lit "partial"
  else lit "inactive".

(** The rule-based path of [run_probator]. *)
Definition run_probator_fallback (rnd : Random) (inp : MimicOutput.t)
  : LeakageVectorOut.t :=
  let leakage_details :=
    analyze_leakage_patterns rnd (MimicOutput.mimic_fields inp) in
  let leakage_score := calculate_leakage_score leakage_details in
  let hkp_protection := assess_hkp_protection (MimicOutput.mimic_fields inp) in
  LeakageVectorOut.Build leakage_score leakage_details hkp_protection.


End Probator.

(** ** [praeceptor.py] *)

Module Praeceptor.

Import PyFloat.
Local Open Scope float_scope.

(** [calibrate_parameters] *)
Definition calibrate_parameters (leakage_assessment : LeakageVectorOut.t)
  : dict float :=
  let base_entropy := 0.5 in
  let base_cipher_strength := 0.8 in
  let base_role_decay := 0.5 in
  let leakage_score := LeakageVectorOut.leakage_score leakage_assessment in
  let '(entropy_adjustment, cipher_adjustment, role_decay_adjustment) :=
    if gt leakage_score 0.5 then
      (py_min 0.3 (leakage_score * 0.4),
       py_min 0.2 (leakage_score * 0.3),
       py_min 0.3 (leakage_score * 0.5))
    else
      (py_max (-0.1) ((0.5 - leakage_score) * 0.2),
       py_max (-0.1) ((0.5 - leakage_score) * 0.15),
       py_max (-0.1) ((0.5 - leakage_score) * 0.25)) in
  let details := LeakageVectorOut.details leakage_assessment in
  let entropy_adjustment :=
    if gt (dict_get_default details (lit "entity_recovery") 0.0) 0.3
    then entropy_adjustment + 0.1 else entropy_adjustment in
  let cipher_adjustment :=
    if gt (dict_get_default details (lit "structure_fidelity") 0.0) 0.5
    then cipher_adjustment + 0.1 else cipher_adjustment in
  let role_decay_adjustment :=
    if lt (dict_get_default details (lit "semantic_drift") 0.0) 0.4
    then role_decay_adjustment - 0.1 else role_decay_adjustment in
  let new_entropy :=
    py_max 0.1 (py_min 1.0 (base_entropy + entropy_adjustment)) in
  let new_cipher_strength :=
    py_max 0.3 (py_min 1.0 (base_cipher_strength + cipher_adjustment)) in
  let new_role_decay :=
    py_max 0.1 (py_min 1.0 (base_role_decay + role_decay_adjustment)) in
  [(lit "entropy", round3 new_entropy);
   (lit "cipher_strength", round3 new_cipher_strength);
   (lit "role_decay", round3 new_role_decay)].

(** [determine_calibration_mode] *)
Definition determine_calibration_mode (leakage_score : float) : str :=
  if gt leakage_score 0.7 then lit "emergency_recalibrate"
  else if gt leakage_score 0.5 then lit "aggressive_recalibrate"
  else if gt leakage_score 0.3 then lit "recalibrate"
  else if gt leakage_score 0.1 then lit "fine_tune"
  else lit "maintain".



End Praeceptor.

(** ** Recovery after obfuscation, and the inputs of the examples *)

(** [run_decryptor(run_cryptor(inp, theta))] on the rule-based paths: no
    language-model reply, LLM-only mode off. *)
Definition recover_after_obfuscate (float_str : float -> str) (sec : Secrets)
    (now : str) (inp : SemanticPromptOut.t) (theta_params : option (dict float))
  : result DecryptedFieldsOut.t :=
  match run_cryptor float_str false NoResponse sec now inp theta_params with
  | Ok bundle => run_decryptor float_str bundle
  | Raise e => Raise e
  end.

(** The transfer of [test_run_cryptor_basic]. *)
Definition transfer_input : SemanticPromptOut.t :=
  SemanticPromptOut.Build (lit "transfer")
    [(lit "amount", lit "75000 USD");
     (lit "to_account", lit "7395-8845-2291");
     (lit "from_account", lit "1559-6623-4401")]
    (lit "L4") None (lit "ready").

(** A formatting of floats that is right at 0.8, the one value formatted
    under the default parameters. *)
Definition float_str_default (x : float) : str := lit "0.8".

(** A fixed source for [secrets] and a fixed clock. *)
Definition fixed_secrets : Secrets :=
  {| token_hex := fun _ _ => lit "a1b2"; randbelow := fun _ _ => 7%N |}.

Definition fixed_now : str := lit "2025-07-29T10:30:00".

Definition transfer_bundle : EncryptedOutput.t :=
  run_cryptor_fallback float_str_default fixed_secrets fixed_now
    transfer_input None.

(** A fixed source for [random]: the lower bound, the first choice. *)
Definition fixed_random : Random :=
  {| randint := fun _ lo _ => lo;
     choice := fun _ l => hd [] l;
     uniform := fun _ a _ => a |}.

(** Recovered fields whose only entity is the sender's account. *)
Definition from_account_only : DecryptedFieldsOut.t :=
  DecryptedFieldsOut.Build (lit "transfer")
    [(lit "from_account", lit "1559-6623-4401")]
    (lit "Level-5") fixed_now (lit "queued").

(** Recovered fields with the keys the mimic engine targets. *)
Definition amount_and_to_account : DecryptedFieldsOut.t :=
  DecryptedFieldsOut.Build (lit "transfer")
    [(lit "amount", lit "75000 USD");
     (lit "to_account", lit "7395-8845-2291")]
    (lit "Level-5") fixed_now (lit "queued").

(** ** The overall score as the specification words it *)

(** Two floats are the same up to the sign of zero. *)
Definition same_or_zeros (x y : float) : Prop :=
  x = y \/ exists sx sy, Prim2SF x = S754_zero sx /\ Prim2SF y = S754_zero sy.



(** The weighted sum of the five factors, the drift inverted, clamped to
    [0, 1]; binary64 arithmetic, summed left to right. *)
Definition spec_overall_score (entity_recovery structure_fidelity
    semantic_drift pattern_consistency field_mapping_accuracy : float) : float :=
  PyFloat.py_min 1.0
    (PyFloat.py_max 0.0
       (0.3 * entity_recovery + 0.25 * structure_fidelity
        + 0.2 * (1.0 - semantic_drift) + 0.15 * pattern_consistency
        + 0.1 * field_mapping_accuracy))%float.

(** The mimic mapping and the factor breakdown of the examples. *)
Definition example_mimic : MimicOutput.t :=
  Mimicus.run_mimicus_fallback fixed_random amount_and_to_account.

Definition example_details : dict float :=
  Probator.analyze_leakage_patterns fixed_random
    (MimicOutput.mimic_fields example_mimic).

(** ** Single-character mutations of a field value *)

(** A code point of Unicode. *)
Definition code_point (c : N) : Prop := (c < 0x110000)%N.

(** [mutate_char v v']: [v'] is [v] with the character at one position
    replaced by a different one. *)
Inductive mutate_char : str -> str -> Prop :=
| mutate_here (c c' : N) (s : str) :
    code_point c -> code_point c' -> c <> c' ->
    mutate_char (c :: s) (c' :: s)
| mutate_later (c : N) (s s' : str) :
    mutate_char s s' -> mutate_char (c :: s) (c :: s').

(** [mutate_value F F']: [F'] is [F] with one value mutated in one
    character. *)
Inductive mutate_value : dict str -> dict str -> Prop :=
| mutate_this (k v v' : str) (d : dict str) :
    mutate_char v v' -> mutate_value ((k, v) :: d) ((k, v') :: d)
| mutate_next (kv : str * str) (d d' : dict str) :
    mutate_value d d' -> mutate_value (kv :: d) (kv :: d').

(** Two field mappings that differ in the last character of the amount:
    U+891B in one, U+26D96 in the other. *)
Definition amount_fields (last : N) : dict str :=
  [(Tags.beta_xi_ ++ lit "amount", lit "75847 USD" ++ [last])].

Definition fields_891B : dict str := amount_fields 0x891B.
Definition fields_26D96 : dict str := amount_fields 0x26D96.

(** ** Character classes of the derived strings *)

(** A lowercase hexadecimal digit, as [hexdigest] and [token_hex] give. *)
Definition is_hex_lower (c : N) : bool :=
  (N.leb 48 c && N.leb c 57) || (N.leb 97 c && N.leb c 102).

(** An uppercase hexadecimal digit. *)
Definition is_hex_upper (c : N) : bool :=
  (N.leb 48 c && N.leb c 57) || (N.leb 65 c && N.leb c 70).

(** ** [praeceptor.py]: [analyze_hkp_effectiveness] *)

Module HkpAnalysis.
Record t := Build {
  role_protection : str;
  time_protection : str;
  pop_effectiveness : str;
  overall_hkp_score : float }.
End HkpAnalysis.

(** [k in details and details[k] < bound] *)
Definition present_below (details : dict float) (k : str) (bound : float)
  : bool :=
  match dict_get details k with
  | Some v => PyFloat.lt v bound
  | None => false
  end.

(** [analyze_hkp_effectiveness]: each protection is "strong" when its
    factor is present and below its bound, "weak" otherwise; the overall
    score is the mean of the three marks. *)
Definition analyze_hkp_effectiveness (leakage_assessment : LeakageVectorOut.t)
  : HkpAnalysis.t :=
  let details := LeakageVectorOut.details leakage_assessment in
  let role_protection :=
    if present_below details (lit "pattern_consistency") 0.5%float
    then lit "strong" else lit "weak" in
  let time_protection :=
    if present_below details (lit "structure_fidelity") 0.6%float
    then lit "strong" else lit "weak" in
  let pop_effectiveness :=
    if present_below details (lit "field_mapping_accuracy") 0.3%float
    then lit "strong" else lit "weak" in
  let mark (p : str) : float :=
    if PyStr.eqb p (lit "strong") then 1.0%float else 0.0%float in
  let protection_scores :=
    [mark role_protection; mark time_protection; mark pop_effectiveness] in
  let overall :=
    (fold_left PrimFloat.add protection_scores 0.0
     / PyFloat.of_nat (List.length protection_scores))%float in
  HkpAnalysis.Build role_protection time_protection pop_effectiveness overall.

(** ** [main_pipeline.py]: one round of the agent chain *)



(** An exception raised by a call ends the round. *)
Definition bind {A B : Type} (r : result A) (k : A -> result B) : result B :=
  match r with
  | Ok a => k a
  | Raise e => Raise e
  end.


(** The rank of a calibration mode, from "maintain" (0) to
    "emergency_recalibrate" (4). *)
Definition mode_level (mode : str) : nat :=
  if PyStr.eqb mode (lit "emergency_recalibrate") then 4
  else if PyStr.eqb mode (lit "aggressive_recalibrate") then 3
  else if PyStr.eqb mode (lit "recalibrate") then 2
  else if PyStr.eqb mode (lit "fine_tune") then 1
  else 0.

(** The order of field tags in the canonical serialization. *)
Definition key_lt (x y : str * str) : Prop :=
  PyStr.ltb (fst x) (fst y) = true.

(** ** [prompter.py]: [extract_intent] *)

(** [str_lower] is [str.lower], a built-in of the language. *)
Definition extract_intent (str_lower : str -> str) (instruction : str) : str :=
  let instruction_lower := str_lower instruction in
  if existsb (fun word => PyStr.contains instruction_lower word)
       [lit "email"; lit "mail"]
  then lit "send_email"
  else if existsb (fun word => PyStr.contains instruction_lower word)
            [lit "transfer"; lit "send"; lit "move"]
  then lit "transfer"
  else if existsb (fun word => PyStr.contains instruction_lower word)
            [lit "book"; lit "reserve"; lit "schedule"]
  then lit "book_flight"
  else lit "unknown".

(** ** [decryptor.py] on bundles as the schema admits them

    [EncryptedOutput.encrypted_fields] is a [Dict[str, Any]], and a string
    may hold lone surrogates. Here the decryptor is embedded on such
    bundles, with the exceptions its built-ins raise: [str.encode()] on a
    lone surrogate and [in] on a value that is not iterable. *)

#[local] Unset Elimination Schemes.

(** A value of a field: what a JSON reply can hold. *)
Inductive pyval : Type :=
| VNone
| VBool (b : bool)
| VInt (z : Z)
| VFloat (x : float)
| VStr (s : str)
| VList (l : list pyval)
| VDict (d : list (str * pyval)).

#[local] Set Elimination Schemes.

(** A surrogate code point, U+D800 to U+DFFF. *)
Definition is_surrogate (c : N) : bool := N.leb 0xD800 c && N.leb c 0xDFFF.

(** The strings [str.encode()] accepts. *)
Definition encodable (s : str) : bool :=
  forallb (fun c => negb (is_surrogate c)) s.

(** [s.encode()] *)
Definition str_encode (s : str) : result (list Z) :=
  if encodable s then Ok (Utf8.encode s)
  else Raise UnicodeEncodeError_Surrogates.

(** [str(z)] for an integer. *)
Definition int_str (z : Z) : str :=
  if (z <? 0)%Z then lit "-" ++ PyStr.of_N (Z.abs_N z)
  else PyStr.of_N (Z.abs_N z).

(** [", ".join(items)] *)
Fixpoint join_comma (items : list str) : str :=
  match items with
  | [] => []
  | [x] => x
  | x :: rest => x ++ lit ", " ++ join_comma rest
  end.

(** A member of a JSON object, its value already serialized. *)
Definition encode_member (kv : str * str) : str :=
  Json.encode_string (fst kv) ++ lit ": " ++ snd kv.

Section Json_any.

(** [float.__repr__], a built-in of the language. *)
Variable float_str : float -> str.

(** The text [json.dumps] gives a float. *)
Definition float_json (x : float) : str :=
  if PrimFloat.is_nan x then lit "NaN"
  else if PrimFloat.eqb x PrimFloat.infinity then lit "Infinity"
  else if PrimFloat.eqb x PrimFloat.neg_infinity then lit "-Infinity"
  else float_str x.

(** [json.dumps(v, sort_keys=True)] *)
Fixpoint dumps (v : pyval) : str :=
  match v with
  | VNone => lit "null"
  | VBool true => lit "true"
  | VBool false => lit "false"
  | VInt z => int_str z
  | VFloat x => float_json x
  | VStr s => Json.encode_string s
  | VList l => lit "[" ++ join_comma (List.map dumps l) ++ lit "]"
  | VDict d =>
      lit "{"
      ++ join_comma
           (List.map encode_member
              (Json.sort_items
                 (List.map (fun kv => (fst kv, dumps (snd kv))) d)))
      ++ lit "}"
  end.

End Json_any.

(** [word in v] for a string [word]: a substring of a string, an element of
    a list, a key of a dictionary; the other values are not iterable. *)
Definition py_in (word : str) (v : pyval) : result bool :=
  match v with
  | VStr s => Ok (PyStr.contains s word)
  | VList l =>
      Ok (existsb (fun e => match e with
                            | VStr s => PyStr.eqb s word
                            | _ => false
                            end) l)
  | VDict d => Ok (dict_mem d word)
  | _ => Raise TypeError_NotIterable
  end.

(** The values [in] accepts on its right. *)
Definition iterable (v : pyval) : bool :=
  match v with
  | VStr _ | VList _ | VDict _ => true
  | _ => false
  end.

Module Decryptor.

Module EncryptedOutput.
Record t := Build {
  encrypted_fields : dict pyval;
  role_tag : str;
  pop_signature : str;
  time_tag : str }.
End EncryptedOutput.

Section Functions.

Variable float_str : float -> str.

(** [verify_pop_signature] *)
Definition verify_pop_signature (encrypted_fields : dict pyval)
    (expected_signature : str) : result bool :=
  let payload := dumps float_str (VDict encrypted_fields) in
  bind (str_encode payload) (fun bytes =>
  let actual_signature := PyStr.slice_to 12 (Sha256.hexdigest bytes) in
  Ok (PyStr.eqb actual_signature expected_signature)).

(** [derive_role_key] *)
Definition derive_role_key (field_name auth_level : str)
    (theta_params : dict float) : result str :=
  let base := field_name ++ lit "_" ++ auth_level ++ lit "_"
              ++ float_str (dict_get_default theta_params
                              (lit "cipher_strength") 0.8%float) in
  bind (str_encode base) (fun bytes =>
  let key_hash := PyStr.slice_to 8 (Sha256.hexdigest bytes) in
  Ok (lit "HKP_" ++ key_hash)).

(** [decrypt_field]; the tests are evaluated in the order of the source,
    [or] leaving its right operand alone when the left one holds. *)
Definition decrypt_field (encrypted_value : pyval) (key : str) : result str :=
  let k := PyStr.lower key in
  bind (py_in Tags.omega_alpha encrypted_value) (fun in_value =>
  if in_value || PyStr.contains k (lit "intent") then Ok (lit "transfer")
  else
    bind (if PyStr.contains k (lit "amount") then Ok true
          else py_in (Tags.beta_xi_ ++ lit "amount") encrypted_value)
      (fun amount =>
    if amount then Ok (lit "75000 USD")
    else if PyStr.contains k (lit "account") then
      if PyStr.contains k (lit "to") || PyStr.contains k (lit "to_account")
      then Ok (lit "7395-8845-2291")
      else if PyStr.contains k (lit "from")
              || PyStr.contains k (lit "from_account")
      then Ok (lit "1559-6623-4401")
      else Ok (lit "1234-5678-9012-3456")
    else Ok (lit "default_value"))).

(** The body of [decrypt_hkp_fields], its calls of [decrypt_field] made
    through the parameter of that name, so that the keys it is called with
    can be stated. [role_tag] is an argument the body never reads. *)
Definition decrypt_hkp_fields_with
    (decrypt_field : pyval -> str -> result str)
    (encrypted_fields : dict pyval) (role_tag : str) : result (dict str) :=
  let theta_params := default_theta in
  bind
    (match dict_get encrypted_fields Tags.omega_alpha with
     | Some v =>
         bind (derive_role_key (lit "intent") (lit "L4") theta_params)
           (fun intent_key =>
         bind (decrypt_field v intent_key) (fun plain =>
         Ok (dict_set [] (lit "intent") plain)))
     | None => Ok (dict_set [] (lit "intent") (lit "transfer"))
     end) (fun decrypted_fields =>
  fold_left
    (fun (acc : result (dict str)) (item : str * pyval) =>
       bind acc (fun decrypted_fields =>
       let '(field_name, encrypted_value) := item in
       if PyStr.startswith field_name Tags.beta_xi_ then
         let entity_key := PyStr.slice_from 4 field_name in
         bind (derive_role_key entity_key (lit "L4") theta_params)
           (fun field_key =>
         bind (decrypt_field encrypted_value field_key) (fun plain =>
         Ok (dict_set decrypted_fields entity_key plain)))
       else Ok decrypted_fields))
    encrypted_fields (Ok decrypted_fields)).

(** [decrypt_hkp_fields] *)
Definition decrypt_hkp_fields (encrypted_fields : dict pyval) (role_tag : str)
  : result (dict str) :=
  decrypt_hkp_fields_with decrypt_field encrypted_fields role_tag.

(** [run_decryptor] *)
Definition run_decryptor (inp : EncryptedOutput.t)
  : result DecryptedFieldsOut.t :=
  bind (verify_pop_signature (EncryptedOutput.encrypted_fields inp)
          (EncryptedOutput.pop_signature inp)) (fun verified =>
  if negb verified then Raise ValueError_InvalidPoP
  else
    bind (decrypt_hkp_fields (EncryptedOutput.encrypted_fields inp)
            (EncryptedOutput.role_tag inp)) (fun decrypted_fields =>
    let intent := lit "transfer" in
    let entities :=
      filter (fun kv => negb (PyStr.eqb (fst kv) (lit "intent")))
        decrypted_fields in
    Ok (DecryptedFieldsOut.Build intent entities
          (auth_grade_of (EncryptedOutput.role_tag inp))
          (EncryptedOutput.time_tag inp)
          (lit "queued")))).

(** The tag of a bundle built outside the cryptor: the digest of the
    canonical serialization, as [verify_pop_signature] recomputes it. *)
Definition tag_of (encrypted_fields : dict pyval) : str :=
  sha256_hex_prefix 12 (dumps float_str (VDict encrypted_fields)).

End Functions.

(** The fields [run_decryptor] can read: the value under "Ωα" and the
    values of the entity-tagged fields are iterable, and no entity name
    holds a lone surrogate. *)
Definition readable (encrypted_fields : dict pyval) : bool :=
  match dict_get encrypted_fields Tags.omega_alpha with
  | Some v => iterable v
  | None => true
  end
  && forallb
       (fun item : str * pyval =>
          if PyStr.startswith (fst item) Tags.beta_xi_
          then encodable (PyStr.slice_from 4 (fst item)) && iterable (snd item)
          else true)
       encrypted_fields.

End Decryptor.

(** A bundle of strings as a bundle of values. *)
Definition any_fields (encrypted_fields : dict str) : dict pyval :=
  List.map (fun kv => (fst kv, VStr (snd kv))) encrypted_fields.

Definition any_bundle (inp : EncryptedOutput.t) : Decryptor.EncryptedOutput.t :=
  Decryptor.EncryptedOutput.Build
    (any_fields (EncryptedOutput.encrypted_fields inp))
    (EncryptedOutput.role_tag inp)
    (EncryptedOutput.pop_signature inp)
    (EncryptedOutput.time_tag inp).

(** The key [decrypt_hkp_fields] derives for a name: level "L4" and the
    text of 0.8. *)
Definition l4_key (float_str : float -> str) (name : str) : str :=
  lit "HKP_" ++ sha256_hex_prefix 8 (name ++ lit "_L4_" ++ float_str 0.8%float).

(** Verified bundles that [run_decryptor] cannot read: a value that is not
    iterable, under "Ωα" or under an entity tag, and an entity name with a
    lone surrogate. *)
Definition integer_intent_bundle : Decryptor.EncryptedOutput.t :=
  let fields := [(Tags.omega_alpha, VInt 5)] in
  Decryptor.EncryptedOutput.Build fields Tags.gamma5
    (Decryptor.tag_of float_str_default fields) fixed_now.

Definition surrogate_name_bundle : Decryptor.EncryptedOutput.t :=
  let fields := [(Tags.beta_xi_ ++ lit "x" ++ [0xD800%N], VStr (lit "x"))] in
  Decryptor.EncryptedOutput.Build fields Tags.gamma5
    (Decryptor.tag_of float_str_default fields) fixed_now.

Definition none_value_bundle : Decryptor.EncryptedOutput.t :=
  let fields :=
    [(Tags.omega_alpha, VStr (lit "A1B2_0123456789ab"));
     (Tags.beta_xi_ ++ lit "amount", VNone)] in
  Decryptor.EncryptedOutput.Build fields Tags.gamma5
    (Decryptor.tag_of float_str_default fields) fixed_now.

Definition surrogate_amount_bundle : Decryptor.EncryptedOutput.t :=
  let fields :=
    [(Tags.beta_xi_ ++ lit "amount" ++ [0xDFFF%N],
      VStr (lit "FFFF_0123456789ab"))] in
  Decryptor.EncryptedOutput.Build fields Tags.gamma5
    (Decryptor.tag_of float_str_default fields) fixed_now.

(** A verified bundle with values of several kinds, all readable. *)
Definition mixed_bundle : Decryptor.EncryptedOutput.t :=
  let fields :=
    [(Tags.omega_alpha, VList [VStr Tags.omega_alpha]);
     (Tags.beta_xi_ ++ lit "k", VDict [(Tags.beta_xi_ ++ lit "amount", VInt 1)]);
     (lit "z", VList [VInt 1; VInt (-2); VBool true; VNone; VStr (lit "a");
                      VList []; VDict []]);
     (lit "a", VDict [(lit "b", VInt 1); (lit "a", VList [])])] in
  Decryptor.EncryptedOutput.Build fields Tags.gamma5
    (Decryptor.tag_of float_str_default fields) fixed_now.

(** A field decryption that hands back the key it is called with. *)
Definition reveal_key (encrypted_value : pyval) (key : str) : result str :=
  Ok key.

(** * Properties *)

(** ** Strings and dictionaries *)

Lemma str_eqb_refl (a : str) : PyStr.eqb a a = true.
Proof.
  induction a as [|x a IH]; simpl; [reflexivity|].
  now rewrite N.eqb_refl, IH.
Qed.

Lemma str_eqb_eq (a b : str) : PyStr.eqb a b = true <-> a = b.
Proof.
  split.
  - revert b; induction a as [|x a IH]; intros [|y b]; simpl;
      try discriminate; [reflexivity|].
    intros H; apply andb_true_iff in H as [Hx Hr].
    apply N.eqb_eq in Hx; subst y; f_equal; now apply IH.
  - intros ->; apply str_eqb_refl.
Qed.

Lemma str_eqb_neq (a b : str) : PyStr.eqb a b = false <-> a <> b.
Proof.
  split.
  - intros H E; apply str_eqb_eq in E; congruence.
  - intros H; destruct (PyStr.eqb a b) eqn:E; [|reflexivity].
    apply str_eqb_eq in E; contradiction.
Qed.


(** The first and last round constants and initial values of FIPS 180-4. *)
Example sha_constants :
  hd 0 Sha256.K = 0x428a2f98 /\ last Sha256.K 0 = 0xc67178f2
  /\ hd 0 Sha256.H0 = 0x6a09e667 /\ last Sha256.H0 0 = 0x5be0cd19
  /\ List.length Sha256.K = 64%nat.
Proof. repeat split. Qed.

Example sha_abc : Sha256.hexdigest (Utf8.encode (lit "abc")) = lit "ba7816bf8f01cfea414140de5dae2223b00361a396177a9cb410ff61f20015ad".
Proof. vm_compute. reflexivity. Qed.
Example sha_empty : Sha256.hexdigest [] = lit "e3b0c44298fc1c149afbf4c8996fb92427ae41e4649b934ca495991b7852b855".
Proof. vm_compute. reflexivity. Qed.
Example sha_long : Sha256.hexdigest (Utf8.encode (lit "abcdbcdecdefdefgefghfghighijhijkijkljklmklmnlmnomnopnopq")) = lit "248d6a61d20638b8e5c026930c3e6039a33ce45964ff2167f6ecedd419db06c1".
Proof. vm_compute. reflexivity. Qed.

Example json_sha_escapes :
  Sha256.hexdigest (Utf8.encode (Json.dumps_sorted
    [(Tags.beta_xi_ ++ lit "amount", lit "75847 USD" ++ [0x891B%N]);
     ([97; 34; 98; 92]%N, [120; 10; 127; 0x26D96]%N);
     ([937; 945]%N, [9; 13; 8; 12; 32; 233; 0; 31; 126; 32]%N)]))
  = lit "06a0169284238a007220cc3aeb6725b6077472604440ef9f864d8307ccbcd1fc".
Proof. vm_compute. reflexivity. Qed.

(** UTF-8 on one-, two-, three- and four-byte characters. *)
Example sha_utf8 :
  Sha256.hexdigest (Utf8.encode
    [0x3a9; 0x3b1; 0x5f; 0xe9; 0x5f; 0x891b; 0x26d96; 0x5f; 0x2206; 0x3c4]%N)
  = lit "34bebb9048a39409c86a7826e643d4d0b56b29e9558eacb7ad875fcf4d4a84ca".
Proof. vm_compute. reflexivity. Qed.

Lemma dict_set_In {V : Type} (d : dict V) (k : str) (v : V) (k0 : str) (v0 : V) :
  In (k0, v0) (dict_set d k v) -> (k0, v0) = (k, v) \/ In (k0, v0) d.
Proof.
  induction d as [|[k' v'] d IH]; simpl.
  - intros [H|[]]; left; congruence.
  - destruct (PyStr.eqb k' k) eqn:E; simpl.
    + intros [H|H]; [|right; right; exact H].
      apply str_eqb_eq in E; subst k'; left; congruence.
    + intros [H|H]; [right; left; exact H|].
      destruct (IH H) as [H'|H']; [left; exact H'|right; right; exact H'].
Qed.

Lemma str_app_neq (s t : str) : t <> [] -> s ++ t <> s.
Proof.
  intros Ht E.
  assert (L : List.length (s ++ t) = List.length s) by now rewrite E.
  rewrite length_app in L.
  destruct t; [congruence | simpl in L; lia].
Qed.

(** ** The integrity tag *)

Lemma verify_generated (F : dict str) :
  verify_pop_signature F (generate_pop_signature F) = true.
Proof.
  unfold verify_pop_signature, generate_pop_signature.
  apply str_eqb_refl.
Qed.

Lemma verify_true_iff (F : dict str) (sig : str) :
  verify_pop_signature F sig = true <-> sig = generate_pop_signature F.
Proof.
  unfold verify_pop_signature, generate_pop_signature.
  rewrite str_eqb_eq. split; intros H; symmetry; exact H.
Qed.

(** C2. For every field mapping [F], the verifier accepts the generated tag
    of [F] and rejects that tag followed by the character "x". *)
Theorem verify_accepts_tag_rejects_extended (F : dict str) :
  verify_pop_signature F (generate_pop_signature F) = true
  /\ verify_pop_signature F (generate_pop_signature F ++ lit "x") = false.
Proof.
  split; [apply verify_generated|].
  unfold verify_pop_signature, generate_pop_signature.
  apply str_eqb_neq.
  intros E. symmetry in E. revert E. apply str_app_neq. discriminate.
Qed.

(** ** The decryptor *)

Section Decryptor_facts.

Variable float_str : float -> str.

Lemma run_decryptor_verified (inp : EncryptedOutput.t) :
  verify_pop_signature (EncryptedOutput.encrypted_fields inp)
    (EncryptedOutput.pop_signature inp) = true ->
  run_decryptor float_str inp =
  Ok (DecryptedFieldsOut.Build (lit "transfer")
        (filter (fun kv => negb (PyStr.eqb (fst kv) (lit "intent")))
           (decrypt_hkp_fields float_str
              (EncryptedOutput.encrypted_fields inp)
              (EncryptedOutput.role_tag inp)))
        (auth_grade_of (EncryptedOutput.role_tag inp))
        (EncryptedOutput.time_tag inp)
        (lit "queued")).
Proof.
  intros H. unfold run_decryptor. rewrite H. reflexivity.
Qed.

(** The key re-derived for a field: the digest of the field name, the
    level "L4" and the text of 0.8. *)
Lemma derive_role_key_L4_default (field_name : str) :
  derive_role_key float_str field_name (lit "L4") default_theta
  = lit "HKP_"
    ++ sha256_hex_prefix 8 (field_name ++ lit "_L4_" ++ float_str 0.8%float).
Proof.
  unfold derive_role_key.
  replace (dict_get_default default_theta (lit "cipher_strength") 0.8%float)
    with 0.8%float by reflexivity.
  repeat rewrite <- app_assoc. reflexivity.
Qed.



End Decryptor_facts.

(** ** Recovery after obfuscation *)

Lemma run_cryptor_fallback_verifies (float_str : float -> str) (sec : Secrets)
    (now : str) (inp : SemanticPromptOut.t) (theta_params : option (dict float)) :
  let bundle := run_cryptor_fallback float_str sec now inp theta_params in
  verify_pop_signature (EncryptedOutput.encrypted_fields bundle)
    (EncryptedOutput.pop_signature bundle) = true.
Proof. simpl. apply verify_generated. Qed.

(** The signature of the example bundle, as [hashlib] and [json] give it
    for the same fields. *)
Example transfer_bundle_signature :
  EncryptedOutput.pop_signature transfer_bundle = lit "b0355fcc2d09".
Proof. vm_compute. reflexivity. Qed.

(** C1 (as the code has it). For the transfer input, whatever the random
    prefixes, the filler numbers, the clock and the parameters, recovery
    after obfuscation returns the intent "transfer", the grade "Level-5"
    (the last character of the role tag the cryptor always sets), the
    status "queued" and as many entities as the input has. *)
Theorem roundtrip_shape_transfer (float_str : float -> str) (sec : Secrets)
    (now : str) (theta_params : option (dict float)) :
  exists r,
    recover_after_obfuscate float_str sec now transfer_input theta_params = Ok r
    /\ DecryptedFieldsOut.intent r = lit "transfer"
    /\ DecryptedFieldsOut.auth_grade r = lit "Level-5"
    /\ DecryptedFieldsOut.exec_status r = lit "queued"
    /\ List.length (DecryptedFieldsOut.entities r)
       = List.length (SemanticPromptOut.entities transfer_input).
Proof.
  eexists. split.
  - unfold recover_after_obfuscate, run_cryptor.
    apply run_decryptor_verified, run_cryptor_fallback_verifies.
  - cbn [DecryptedFieldsOut.intent DecryptedFieldsOut.auth_grade
         DecryptedFieldsOut.exec_status DecryptedFieldsOut.entities].
    repeat split.
Qed.

(** C1, as stated, fails: on a run of the example the recovered grade is
    "Level-5", not "Level-4". *)
Lemma roundtrip_auth_grade_is_not_level4 :
  exists r,
    recover_after_obfuscate float_str_default fixed_secrets fixed_now
      transfer_input None = Ok r
    /\ DecryptedFieldsOut.auth_grade r = lit "Level-5"
    /\ PyStr.eqb (DecryptedFieldsOut.auth_grade r) (lit "Level-4") = false.
Proof.
  eexists. split; [vm_compute; reflexivity|].
  split; reflexivity.
Qed.


(** The keys of the recovered entities of the example: the entity names of
    the input less their first character, since four characters are cut
    from tags whose prefix has three. *)
Example transfer_recovered_keys :
  exists r,
    run_decryptor float_str_default transfer_bundle = Ok r
    /\ keys (DecryptedFieldsOut.entities r)
       = [lit "mount"; lit "o_account"; lit "rom_account"].
Proof. eexists. split; vm_compute; reflexivity. Qed.

(** ** The mimic engine *)

Lemma dict_mem_set {V : Type} (d : dict V) (k : str) (v : V) (k' : str) :
  dict_mem (dict_set d k v) k' = PyStr.eqb k k' || dict_mem d k'.
Proof.
  unfold dict_mem.
  induction d as [|[k0 v0] d IH]; simpl.
  - destruct (PyStr.eqb k k'); reflexivity.
  - destruct (PyStr.eqb k0 k) eqn:E0; simpl.
    + apply str_eqb_eq in E0; subst k0.
      destruct (PyStr.eqb k k'); reflexivity.
    + destruct (PyStr.eqb k0 k') eqn:E1.
      * now rewrite orb_true_r.
      * exact IH.
Qed.

Lemma startswith_app (p s : str) : PyStr.startswith (p ++ s) p = true.
Proof.
  induction p as [|c p IH]; simpl; [destruct s; reflexivity|].
  now rewrite N.eqb_refl, IH.
Qed.

Lemma eqb_startswith (a b p : str) :
  PyStr.startswith a p = true -> PyStr.startswith b p = false ->
  PyStr.eqb a b = false.
Proof.
  intros Ha Hb. apply str_eqb_neq. intros ->. congruence.
Qed.

(** A tag that is not entity-namespaced and is none of the six fixed tags
    of the cryptor never occurs in a bundle the cryptor builds. *)
Lemma cryptor_fields_lack (float_str : float -> str) (sec : Secrets) (now : str)
    (inp : SemanticPromptOut.t) (theta_params : option (dict float)) (tag : str) :
  PyStr.startswith tag Tags.beta_xi_ = false ->
  PyStr.eqb Tags.omega_alpha tag = false ->
  PyStr.eqb Tags.gamma_phi tag = false ->
  PyStr.eqb Tags.node_zeta_tau tag = false ->
  PyStr.eqb Tags.role_gamma5 tag = false ->
  PyStr.eqb Tags.time_delta_tau tag = false ->
  dict_mem (EncryptedOutput.encrypted_fields
              (run_cryptor_fallback float_str sec now inp theta_params)) tag
  = false.
Proof.
  intros Hp H1 H2 H3 H4 H5.
  unfold run_cryptor_fallback, apply_hkp_encryption. cbn [EncryptedOutput.encrypted_fields].
  set (step := fun (acc : dict str * nat) (kv : str * str) => _).
  set (init := (dict_set [] Tags.omega_alpha _, 1%nat)).
  assert (Hfold : forall l acc, dict_mem (fst acc) tag = false ->
                    dict_mem (fst (fold_left step l acc)) tag = false).
  { induction l as [|kv l IH]; intros [fields n] Hacc; [exact Hacc|].
    simpl fold_left. apply IH. unfold step. cbn [fst snd] in Hacc |- *.
    rewrite dict_mem_set, Hacc, orb_false_r.
    apply (eqb_startswith _ _ Tags.beta_xi_); [exact (startswith_app Tags.beta_xi_ (fst kv)) | exact Hp]. }
  specialize (Hfold (SemanticPromptOut.entities inp) init).
  destruct (fold_left step (SemanticPromptOut.entities inp) init) as [fields1 n] eqn:Ef.
  unfold dict_update. simpl fold_left. simpl fst. simpl snd.
  rewrite !dict_mem_set. simpl fst in Hfold.
  rewrite Hfold, H2, H3, H4, H5; [reflexivity|].
  unfold dict_mem; cbn [dict_get]. now rewrite H1.
Qed.

(** C9 (as the code has it). The mimic mapping always holds the four core
    tags, the two decoy tags, the wrong role marker and the time tag; the
    decoys and the wrong role marker occur in no bundle of the cryptor; the
    tag flagged for the amount is present exactly when the entities have
    the key "amount", and the tag flagged for the account exactly when they
    have the key "to_account". *)
Theorem generate_mimic_fields_tags (rnd : Random) (inp : DecryptedFieldsOut.t) :
  let m := Mimicus.generate_mimic_fields rnd inp in
  forallb (dict_mem m)
    [Tags.omega_alpha; Tags.beta_xi; Tags.gamma_phi; Tags.node_zeta_tau;
     Tags.psi_v; Tags.sigma_pi; Tags.role_gamma3; Tags.time_delta_tau] = true
  /\ dict_get m Tags.role_gamma3 = Some (lit "mimic-derived")
  /\ (forall float_str sec now sp theta,
        forallb
          (fun tag =>
             negb (dict_mem (EncryptedOutput.encrypted_fields
                               (run_cryptor_fallback float_str sec now sp theta))
                     tag))
          [Tags.psi_v; Tags.sigma_pi; Tags.role_gamma3] = true)
  /\ dict_mem m (Tags.beta_xi_ ++ lit "amount_mimic")
     = dict_mem (DecryptedFieldsOut.entities inp) (lit "amount")
  /\ dict_mem m (Tags.beta_xi_ ++ lit "account_mimic")
     = dict_mem (DecryptedFieldsOut.entities inp) (lit "to_account").
Proof.
  cbv zeta. split; [|split; [|split]].
  - unfold Mimicus.generate_mimic_fields.
    destruct (dict_mem (DecryptedFieldsOut.entities inp) (lit "amount"));
      destruct (dict_mem (DecryptedFieldsOut.entities inp) (lit "to_account"));
      reflexivity.
  - unfold Mimicus.generate_mimic_fields.
    destruct (dict_mem (DecryptedFieldsOut.entities inp) (lit "amount"));
      destruct (dict_mem (DecryptedFieldsOut.entities inp) (lit "to_account"));
      reflexivity.
  - intros fs sec now sp theta. cbn [forallb].
    rewrite !cryptor_fields_lack; reflexivity.
  - unfold Mimicus.generate_mimic_fields.
    destruct (dict_mem (DecryptedFieldsOut.entities inp) (lit "amount"));
      destruct (dict_mem (DecryptedFieldsOut.entities inp) (lit "to_account"));
      split; reflexivity.
Qed.

(** C9, as stated, fails: the entities have an account-like key,
    "from_account", and no tag of the mimic mapping ends in "_mimic". *)
Lemma mimic_ignores_from_account :
  dict_mem (DecryptedFieldsOut.entities from_account_only) (lit "from_account")
  = true
  /\ PyStr.contains (lit "from_account") (lit "account") = true
  /\ existsb (fun tag => PyStr.endswith tag (lit "_mimic"))
       (keys (Mimicus.generate_mimic_fields fixed_random from_account_only))
     = false.
Proof. repeat split; vm_compute; reflexivity. Qed.

(** ** The protection classification *)

(** C6. The classification is "active" exactly when a protocol marker
    ("Role=Γ5", "Time=∆τ" or "pop_signature"), the wrong role marker
    "Role=Γ3" and the time marker "Time=∆τ" are all present, "partial"
    exactly when a protocol marker is present and the other two are not
    both present, and "inactive" exactly when no protocol marker is. *)
Theorem assess_hkp_protection_classes (mimic_fields : dict str) :
  (Probator.assess_hkp_protection mimic_fields = lit "active"
   <-> existsb (dict_mem mimic_fields)
         [Tags.role_gamma5; Tags.time_delta_tau; lit "pop_signature"] = true
       /\ dict_mem mimic_fields Tags.role_gamma3 = true
       /\ dict_mem mimic_fields Tags.time_delta_tau = true)
  /\ (Probator.assess_hkp_protection mimic_fields = lit "partial"
      <-> existsb (dict_mem mimic_fields)
            [Tags.role_gamma5; Tags.time_delta_tau; lit "pop_signature"] = true
          /\ dict_mem mimic_fields Tags.role_gamma3
             && dict_mem mimic_fields Tags.time_delta_tau = false)
  /\ (Probator.assess_hkp_protection mimic_fields = lit "inactive"
      <-> existsb (dict_mem mimic_fields)
            [Tags.role_gamma5; Tags.time_delta_tau; lit "pop_signature"] = false).
Proof.
  unfold Probator.assess_hkp_protection. simpl existsb.
  destruct (dict_mem mimic_fields Tags.role_gamma5);
    destruct (dict_mem mimic_fields Tags.time_delta_tau);
    destruct (dict_mem mimic_fields (lit "pop_signature"));
    destruct (dict_mem mimic_fields Tags.role_gamma3);
    cbn [orb andb];
    repeat split; intros; try discriminate; try reflexivity;
    repeat match goal with H : _ /\ _ |- _ => destruct H end;
    try discriminate.
Qed.

(** ** Binary64 facts *)

Section Float_order.

Local Open Scope float_scope.

Lemma ltb_leb (a b : float) : (a <? b) = true -> (a <=? b) = true.
Proof.
  rewrite ltb_spec, leb_spec. unfold SFltb, SFleb.
  destruct (SFcompare (Prim2SF a) (Prim2SF b)) as [[]|]; congruence.
Qed.

Lemma add_zero_l (a : float) : same_or_zeros (0.0 + a) a.
Proof.
  destruct (Prim2SF a) as [s|s| |s m e] eqn:Ea.
  - right. exists false, s. split; [|exact Ea].
    rewrite add_spec, Ea. destruct s; reflexivity.
  - left. apply Prim2SF_inj. rewrite add_spec, Ea. reflexivity.
  - left. apply Prim2SF_inj. rewrite add_spec, Ea. reflexivity.
  - left. apply Prim2SF_inj. rewrite add_spec, Ea. reflexivity.
Qed.

Lemma add_same_or_zeros (x y b : float) :
  same_or_zeros x y -> same_or_zeros (x + b) (y + b).
Proof.
  intros [->|[sx [sy [Ex Ey]]]]; [left; reflexivity|].
  destruct (Prim2SF b) as [s|s| |s m e] eqn:Eb.
  - right. exists (if Bool.eqb sx s then sx else false),
                  (if Bool.eqb sy s then sy else false).
    rewrite !add_spec, Ex, Ey, Eb.
    destruct sx, sy, s; split; reflexivity.
  - left. apply Prim2SF_inj. rewrite !add_spec, Ex, Ey, Eb. reflexivity.
  - left. apply Prim2SF_inj. rewrite !add_spec, Ex, Ey, Eb. reflexivity.
  - left. apply Prim2SF_inj. rewrite !add_spec, Ex, Ey, Eb. reflexivity.
Qed.

Lemma clamp_same_or_zeros (x y : float) :
  same_or_zeros x y ->
  PyFloat.py_min 1.0 (PyFloat.py_max 0.0 x)
  = PyFloat.py_min 1.0 (PyFloat.py_max 0.0 y).
Proof.
  intros [->|[sx [sy [Ex Ey]]]]; [reflexivity|].
  unfold PyFloat.py_max, PyFloat.gt.
  assert (Hx : (0.0 <? x) = false) by (rewrite ltb_spec, Ex; reflexivity).
  assert (Hy : (0.0 <? y) = false) by (rewrite ltb_spec, Ey; reflexivity).
  now rewrite Hx, Hy.
Qed.

(** The clamp of the score lands in [0, 1] whatever the sum is, NaN
    included. *)
Lemma clamp01_bounds (x : float) :
  (0.0 <=? PyFloat.py_min 1.0 (PyFloat.py_max 0.0 x)) = true
  /\ (PyFloat.py_min 1.0 (PyFloat.py_max 0.0 x) <=? 1.0) = true.
Proof.
  unfold PyFloat.py_min, PyFloat.py_max, PyFloat.gt, PyFloat.lt.
  destruct (0.0 <? x) eqn:H0.
  - destruct (x <? 1.0) eqn:H1.
    + split; apply ltb_leb; assumption.
    + split; reflexivity.
  - replace (0.0 <? 1.0) with true by reflexivity.
    split; reflexivity.
Qed.

Lemma SFltb_trans (x y z : spec_float) :
  SFltb x y = true -> SFltb y z = true -> SFltb x z = true.
Proof.
  unfold SFltb, SFcompare.
  destruct x as [sx|sx| |sx mx ex], y as [sy|sy| |sy my ey], z as [sz|sz| |sz mz ez];
    try destruct sx; try destruct sy; try destruct sz;
    try discriminate; try reflexivity;
    rewrite ?Pos.compare_cont_spec; simpl Pos.switch_Eq;
    repeat match goal with
    | |- context [Z.compare ?a ?b] => destruct (Z.compare_spec a b)
    | |- context [Pos.compare ?a ?b] => destruct (Pos.compare_spec a b)
    end; simpl; try discriminate; try reflexivity; intros; lia.
Qed.

Lemma ltb_trans (a b s : float) :
  (a <? b) = true -> (b <? s) = true -> (a <? s) = true.
Proof. rewrite !ltb_spec. apply SFltb_trans. Qed.

(** A score that does not exceed a threshold exceeds no higher one. *)
Lemma not_above_higher (a b s : float) :
  (a <? b) = true -> (a <? s) = false -> (b <? s) = false.
Proof.
  intros Hab Has. destruct (b <? s) eqn:Hbs; [|reflexivity].
  rewrite (ltb_trans a b s Hab Hbs) in Has. discriminate.
Qed.

End Float_order.

(** ** The leakage score *)

Lemma calculate_leakage_score_sum (details : dict float)
    (er sf sd pc fm : float) :
  dict_get details (lit "entity_recovery") = Some er ->
  dict_get details (lit "structure_fidelity") = Some sf ->
  dict_get details (lit "semantic_drift") = Some sd ->
  dict_get details (lit "pattern_consistency") = Some pc ->
  dict_get details (lit "field_mapping_accuracy") = Some fm ->
  Probator.calculate_leakage_score details
  = PyFloat.py_min 1.0
      (PyFloat.py_max 0.0
         (0.0 + 0.3 * er + 0.25 * sf + 0.2 * (1.0 - sd) + 0.15 * pc
          + 0.1 * fm))%float.
Proof.
  intros H1 H2 H3 H4 H5.
  unfold Probator.calculate_leakage_score, Probator.weights.
  cbn [fold_left]. rewrite H1, H2, H3, H4, H5. reflexivity.
Qed.

(** C5. When the five factors are present, the score is the weighted sum
    of the specification clamped to [0, 1]; and the score of every factor
    mapping, hence of every mimic bundle, lies between 0 and 1. *)
Theorem calculate_leakage_score_weighted_clamped (details : dict float)
    (er sf sd pc fm : float) :
  dict_get details (lit "entity_recovery") = Some er ->
  dict_get details (lit "structure_fidelity") = Some sf ->
  dict_get details (lit "semantic_drift") = Some sd ->
  dict_get details (lit "pattern_consistency") = Some pc ->
  dict_get details (lit "field_mapping_accuracy") = Some fm ->
  Probator.calculate_leakage_score details = spec_overall_score er sf sd pc fm
  /\ (forall d : dict float,
        (0.0 <=? Probator.calculate_leakage_score d)%float = true
        /\ (Probator.calculate_leakage_score d <=? 1.0)%float = true)
  /\ (forall (rnd : Random) (inp : MimicOutput.t),
        let score :=
          LeakageVectorOut.leakage_score (Probator.run_probator_fallback rnd inp) in
        (0.0 <=? score)%float = true /\ (score <=? 1.0)%float = true).
Proof.
  intros H1 H2 H3 H4 H5. split; [|split].
  - rewrite (calculate_leakage_score_sum details er sf sd pc fm) by assumption.
    unfold spec_overall_score. apply clamp_same_or_zeros.
    repeat apply add_same_or_zeros. apply add_zero_l.
  - intros d. unfold Probator.calculate_leakage_score. apply clamp01_bounds.
  - intros rnd inp. cbv zeta. unfold Probator.run_probator_fallback.
    cbn [LeakageVectorOut.leakage_score].
    unfold Probator.calculate_leakage_score. apply clamp01_bounds.
Qed.

(** C5 at the factor breakdown of the example mimic bundle. *)
Lemma calculate_leakage_score_witness :
  Probator.calculate_leakage_score example_details
  = spec_overall_score 0.1 1.0 0.3 1.0 0.8.
Proof.
  apply (calculate_leakage_score_weighted_clamped example_details
           0.1 1.0 0.3 1.0 0.8)%float; vm_compute; reflexivity.
Defined.

(** ** The calibrated parameters *)

Section Calibration_bounds.

Local Open Scope float_scope.

Lemma digits2_pos_size (m : positive) : digits2_pos m = Pos.size m.
Proof. induction m; simpl; congruence. Qed.

(** A canonical mantissa well above the subnormal range has 53 bits. *)
Lemma valid_mantissa_53 (s : bool) (m : positive) (e : Z) :
  valid_binary (S754_finite s m e) = true -> (-1074 < e)%Z ->
  (2 ^ 52 <= Zpos m < 2 ^ 53)%Z.
Proof.
  unfold valid_binary, bounded, canonical_mantissa, fexp, FloatOps.emin, SpecFloat.emin.
  intros H He. apply andb_true_iff in H as [H _]. apply Z.eqb_eq in H.
  rewrite digits2_pos_size in H.
  change prec with 53%Z in H. change emax with 1024%Z in H.
  assert (Hs : Pos.size m = 53%positive) by lia.
  pose proof (Pos.size_gt m) as Hgt. pose proof (Pos.size_le m) as Hle.
  rewrite Hs in Hgt, Hle. clear H Hs He.
  apply Pos2Z.pos_lt_pos in Hgt. apply Pos2Z.pos_le_pos in Hle.
  rewrite Pos2Z.inj_xO in Hle.
  change (Z.pos (2 ^ 53)) with 9007199254740992%Z in Hgt, Hle.
  change (2 ^ 52)%Z with 4503599627370496%Z.
  change (2 ^ 53)%Z with 9007199254740992%Z.
  lia.
Qed.

Lemma finite_le_cases (m1 : positive) (e1 : Z) (m2 : positive) (e2 : Z) :
  SFleb (S754_finite false m1 e1) (S754_finite false m2 e2) = true ->
  (e1 < e2 \/ (e1 = e2 /\ Zpos m1 <= Zpos m2))%Z.
Proof.
  unfold SFleb, SFcompare.
  destruct (Z.compare_spec e1 e2) as [He|He|He]; try discriminate;
    [|intros _; left; exact He].
  rewrite Pos.compare_cont_spec. simpl Pos.switch_Eq.
  destruct (Pos.compare_spec m1 m2) as [Hm|Hm|Hm]; try discriminate;
    intros _; right; split; try assumption; lia.
Qed.

Ltac nearest_even_cases :=
  unfold PyFloat.nearest_even;
  match goal with
  | |- context [(0 <=? ?e)%Z] => change (0 <=? e)%Z with false
  end;
  cbv iota zeta;
  match goal with
  | |- context [(?n mod ?d)%Z] =>
      let d' := eval vm_compute in d in
      change d with d';
      pose proof (Z.div_mod n d' ltac:(lia));
      pose proof (Z.mod_pos_bound n d' ltac:(lia));
      generalize dependent (n mod d')%Z; intros r;
      generalize dependent (n / d')%Z; intros q; intros
  end;
  match goal with
  | |- context [(?a ?= ?b)%Z] => destruct (Z.compare_spec a b)
  end;
  try match goal with
  | |- context [Z.even ?q] => destruct (Z.even q)
  end;
  lia.

(** The integer that [round(x, 3)] computes for a 53-bit mantissa between
    the mantissa of 0.1 and that of 1.0. *)
Lemma nearest_even_from_01 (m : positive) (e : Z) :
  (2 ^ 52 <= Zpos m < 2 ^ 53)%Z ->
  (-56 < e \/ (-56 = e /\ 7205759403792794 <= Zpos m))%Z ->
  (e < -52 \/ (e = -52 /\ Zpos m <= 4503599627370496))%Z ->
  (100 <= PyFloat.nearest_even (Zpos m * 1000) e <= 1000)%Z.
Proof.
  change (2 ^ 52)%Z with 4503599627370496%Z.
  change (2 ^ 53)%Z with 9007199254740992%Z.
  intros Hm Hlo Hhi.
  assert (He : (e = -56 \/ e = -55 \/ e = -54 \/ e = -53 \/ e = -52)%Z) by lia.
  destruct He as [->|[->|[->|[->| ->]]]]; nearest_even_cases.
Qed.

(** The same from the mantissa of 0.3. *)
Lemma nearest_even_from_03 (m : positive) (e : Z) :
  (2 ^ 52 <= Zpos m < 2 ^ 53)%Z ->
  (-54 < e \/ (-54 = e /\ 5404319552844595 <= Zpos m))%Z ->
  (e < -52 \/ (e = -52 /\ Zpos m <= 4503599627370496))%Z ->
  (300 <= PyFloat.nearest_even (Zpos m * 1000) e <= 1000)%Z.
Proof.
  change (2 ^ 52)%Z with 4503599627370496%Z.
  change (2 ^ 53)%Z with 9007199254740992%Z.
  intros Hm Hlo Hhi.
  assert (He : (e = -54 \/ e = -53 \/ e = -52)%Z) by lia.
  destruct He as [->|[->| ->]]; nearest_even_cases.
Qed.

Ltac round3_finite Hlo Hhi Hv bound :=
  let s := fresh "s" in let m := fresh "m" in let e := fresh "e" in
  match goal with
  | |- context [match ?sf with S754_zero _ => _ | _ => _ end] =>
      destruct sf as [s|s| |s m e]
  end;
  [ destruct s; discriminate
  | destruct s; discriminate
  | discriminate
  | destruct s; [discriminate|];
    apply finite_le_cases in Hlo; apply finite_le_cases in Hhi;
    apply valid_mantissa_53 in Hv; [|lia];
    pose proof (bound m e Hv ltac:(lia) ltac:(lia)) as Hk;
    cbv zeta;
    destruct (PyFloat.nearest_even (Z.pos m * 1000) e) as [|k|k];
    [ lia | exists k; split; [exact Hk | reflexivity] | lia ] ].

(** Between 0.1 and 1, [round(x, 3)] is the float nearest to [k / 1000]
    for an integer [k] from 100 to 1000. *)
Lemma round3_from_01 (x : float) :
  (0.1 <=? x) = true -> (x <=? 1.0) = true ->
  exists k : positive,
    (100 <= Zpos k <= 1000)%Z
    /\ PyFloat.round3 x = PyFloat.nearest_thousandth false k.
Proof.
  intros Hlo Hhi. rewrite leb_spec in Hlo, Hhi.
  pose proof (Prim2SF_valid x) as Hv. unfold PyFloat.round3.
  change (Prim2SF 0.1) with (S754_finite false 7205759403792794 (-56)) in Hlo.
  change (Prim2SF 1.0) with (S754_finite false 4503599627370496 (-52)) in Hhi.
  round3_finite Hlo Hhi Hv nearest_even_from_01.
Qed.

(** Between 0.3 and 1, for an integer [k] from 300 to 1000. *)
Lemma round3_from_03 (x : float) :
  (0.3 <=? x) = true -> (x <=? 1.0) = true ->
  exists k : positive,
    (300 <= Zpos k <= 1000)%Z
    /\ PyFloat.round3 x = PyFloat.nearest_thousandth false k.
Proof.
  intros Hlo Hhi. rewrite leb_spec in Hlo, Hhi.
  pose proof (Prim2SF_valid x) as Hv. unfold PyFloat.round3.
  change (Prim2SF 0.3) with (S754_finite false 5404319552844595 (-54)) in Hlo.
  change (Prim2SF 1.0) with (S754_finite false 4503599627370496 (-52)) in Hhi.
  round3_finite Hlo Hhi Hv nearest_even_from_03.
Qed.

(** Every thousandth from 100/1000 to 1000/1000 lies, as a float, between
    0.1 and 1.0, and from 300/1000 on above 0.3. *)
Lemma thousandths_table :
  forallb
    (fun n =>
       let v := PyFloat.nearest_thousandth false (Pos.of_nat n) in
       (0.1 <=? v) && (v <=? 1.0) && ((n <? 300)%nat || (0.3 <=? v)))
    (seq 100 901) = true.
Proof. vm_compute. reflexivity. Qed.

Lemma thousandth_bounds (k : positive) :
  (100 <= Zpos k <= 1000)%Z ->
  (0.1 <=? PyFloat.nearest_thousandth false k) = true
  /\ (PyFloat.nearest_thousandth false k <=? 1.0) = true
  /\ ((300 <= Zpos k)%Z -> (0.3 <=? PyFloat.nearest_thousandth false k) = true).
Proof.
  intros Hk.
  pose proof thousandths_table as T. rewrite forallb_forall in T.
  specialize (T (Pos.to_nat k)). rewrite Pos2Nat.id in T. cbv zeta in T.
  assert (Hin : In (Pos.to_nat k) (seq 100 901)) by (apply in_seq; lia).
  specialize (T Hin).
  apply andb_true_iff in T as [T T3]. apply andb_true_iff in T as [T1 T2].
  repeat split; try assumption.
  intros H3. apply orb_true_iff in T3 as [T3|T3]; [|exact T3].
  apply Nat.ltb_lt in T3. lia.
Qed.

(** [max(lo, min(1.0, y))] lies between [lo] and 1 for the two lower
    bounds of the calibrator, whatever [y] is. *)
Lemma clamp_between (lo y : float) :
  (lo <? 1.0) = true -> (lo <=? lo) = true ->
  (lo <=? PyFloat.py_max lo (PyFloat.py_min 1.0 y)) = true
  /\ (PyFloat.py_max lo (PyFloat.py_min 1.0 y) <=? 1.0) = true.
Proof.
  intros Hlt Hrefl.
  unfold PyFloat.py_max, PyFloat.py_min, PyFloat.gt, PyFloat.lt.
  destruct (y <? 1.0) eqn:H1.
  - destruct (lo <? y) eqn:H0.
    + split; apply ltb_leb; assumption.
    + split; [exact Hrefl | apply ltb_leb; exact Hlt].
  - rewrite Hlt. split; [apply ltb_leb; exact Hlt | reflexivity].
Qed.

End Calibration_bounds.

Lemma round3_clamp_01 (y : float) :
  exists k : positive,
    (100 <= Zpos k <= 1000)%Z
    /\ PyFloat.round3 (PyFloat.py_max 0.1 (PyFloat.py_min 1.0 y))
       = PyFloat.nearest_thousandth false k.
Proof.
  destruct (clamp_between 0.1 y eq_refl eq_refl) as [Hlo Hhi].
  exact (round3_from_01 _ Hlo Hhi).
Qed.

Lemma round3_clamp_03 (y : float) :
  exists k : positive,
    (300 <= Zpos k <= 1000)%Z
    /\ PyFloat.round3 (PyFloat.py_max 0.3 (PyFloat.py_min 1.0 y))
       = PyFloat.nearest_thousandth false k.
Proof.
  destruct (clamp_between 0.3 y eq_refl eq_refl) as [Hlo Hhi].
  exact (round3_from_03 _ Hlo Hhi).
Qed.

(** C8. For every leakage report the calibrator returns the three
    parameters, each the binary64 value nearest to [k / 1000] for an integer
    [k] (a value rounded to three decimals) with [k] from 100 to 1000 for
    the entropy and the role decay and from 300 to 1000 for the cipher
    strength; as floats they lie in [0.1, 1.0], [0.3, 1.0] and [0.1, 1.0]. *)
Theorem calibrate_parameters_clamped (leakage_assessment : LeakageVectorOut.t) :
  exists ke kc kr : positive,
    Praeceptor.calibrate_parameters leakage_assessment
    = [(lit "entropy", PyFloat.nearest_thousandth false ke);
       (lit "cipher_strength", PyFloat.nearest_thousandth false kc);
       (lit "role_decay", PyFloat.nearest_thousandth false kr)]
    /\ (100 <= Zpos ke <= 1000 /\ 300 <= Zpos kc <= 1000
        /\ 100 <= Zpos kr <= 1000)%Z
    /\ ((0.1 <=? PyFloat.nearest_thousandth false ke) = true
        /\ (PyFloat.nearest_thousandth false ke <=? 1.0) = true)%float
    /\ ((0.3 <=? PyFloat.nearest_thousandth false kc) = true
        /\ (PyFloat.nearest_thousandth false kc <=? 1.0) = true)%float
    /\ ((0.1 <=? PyFloat.nearest_thousandth false kr) = true
        /\ (PyFloat.nearest_thousandth false kr <=? 1.0) = true)%float.
Proof.
  unfold Praeceptor.calibrate_parameters.
  destruct (PyFloat.gt (LeakageVectorOut.leakage_score leakage_assessment) 0.5);
    cbv beta iota zeta;
    match goal with
    | |- context [[(lit "entropy", PyFloat.round3 (PyFloat.py_max _ (PyFloat.py_min _ ?ye)));
                   (lit "cipher_strength", PyFloat.round3 (PyFloat.py_max _ (PyFloat.py_min _ ?yc)));
                   (lit "role_decay", PyFloat.round3 (PyFloat.py_max _ (PyFloat.py_min _ ?yr)))]] =>
        destruct (round3_clamp_01 ye) as [ke [Hke Ee]];
        destruct (round3_clamp_03 yc) as [kc [Hkc Ec]];
        destruct (round3_clamp_01 yr) as [kr [Hkr Er]];
        rewrite Ee, Ec, Er
    end;
    exists ke, kc, kr;
    destruct (thousandth_bounds ke Hke) as [Be1 [Be2 _]];
    destruct (thousandth_bounds kc ltac:(lia)) as [_ [Bc2 Bc1]];
    destruct (thousandth_bounds kr Hkr) as [Br1 [Br2 _]];
    specialize (Bc1 ltac:(lia));
    repeat split; try assumption; try lia.
Qed.

(** ** Sensitivity of the tag *)

(** C3, as stated, fails: two mappings that differ by one character of one
    value have the same tag, "e87801503dca" (the first twelve hexadecimal
    digits of two different SHA-256 digests). *)
Lemma tag_collision_under_mutation :
  mutate_value fields_891B fields_26D96
  /\ generate_pop_signature fields_891B = lit "e87801503dca"
  /\ generate_pop_signature fields_26D96 = lit "e87801503dca"
  /\ PyStr.eqb (Json.dumps_sorted fields_891B) (Json.dumps_sorted fields_26D96)
     = false.
Proof.
  split.
  - apply mutate_this. unfold lit; simpl.
    do 9 apply mutate_later. apply mutate_here; unfold code_point; lia.
  - repeat split; vm_compute; reflexivity.
Qed.

Section Escape_injective.

Lemma hex_digit_inj (a b : Z) :
  0 <= a < 16 -> 0 <= b < 16 ->
  Sha256.hex_digit a = Sha256.hex_digit b -> a = b.
Proof.
  unfold Sha256.hex_digit. intros Ha Hb H.
  apply (f_equal Z.of_N) in H.
  destruct (a <? 10) eqn:Ea; destruct (b <? 10) eqn:Eb;
    rewrite ?Z.ltb_lt, ?Z.ltb_ge in *;
    rewrite !Z2N.id in H by lia; lia.
Qed.

Lemma nibble (z : Z) (k : Z) :
  0 <= k -> Z.land (Z.shiftr z k) 0xF = (z / 2 ^ k) mod 16.
Proof.
  intros Hk. rewrite Z.shiftr_div_pow2 by exact Hk.
  change 0xF with (Z.ones 4). rewrite Z.land_ones by lia. reflexivity.
Qed.

Lemma hex4_inj (c c' : N) :
  (c < 0x10000)%N -> (c' < 0x10000)%N ->
  Json.hex4 c = Json.hex4 c' -> c = c'.
Proof.
  intros Hc Hc' H. unfold Json.hex4 in H. cbv zeta in H.
  replace (Z.land (Z.of_N c) 0xF) with (Z.land (Z.shiftr (Z.of_N c) 0) 0xF) in H
    by (now rewrite Z.shiftr_0_r).
  replace (Z.land (Z.of_N c') 0xF) with (Z.land (Z.shiftr (Z.of_N c') 0) 0xF) in H
    by (now rewrite Z.shiftr_0_r).
  rewrite !nibble in H by lia.
  change (2 ^ 12) with 4096 in H. change (2 ^ 8) with 256 in H.
  change (2 ^ 4) with 16 in H. change (2 ^ 0) with 1 in H.
  injection H as H3 H2 H1 H0.
  apply hex_digit_inj in H3, H2, H1, H0;
    try (apply Z.mod_pos_bound; lia).
  apply N2Z.inj.
  assert (Bc : 0 <= Z.of_N c < 65536) by lia.
  assert (Bc' : 0 <= Z.of_N c' < 65536) by lia.
  generalize dependent (Z.of_N c). generalize dependent (Z.of_N c').
  intros z' Bz' z H3 H2 H1 H0 Bz.
  clear Hc Hc'.
  Z.to_euclidean_division_equations. lia.
Qed.

Lemma lor_surrogate_table :
  forallb
    (fun n =>
       let a := N.of_nat n in
       N.eqb (N.lor 0xd800 a) (0xd800 + a) && N.eqb (N.lor 0xdc00 a) (0xdc00 + a))
    (seq 0 1024) = true.
Proof. vm_compute. reflexivity. Qed.

Lemma lor_surrogate (a : N) :
  (a < 0x400)%N ->
  N.lor 0xd800 a = (0xd800 + a)%N /\ N.lor 0xdc00 a = (0xdc00 + a)%N.
Proof.
  intros Ha. pose proof lor_surrogate_table as T.
  rewrite forallb_forall in T. specialize (T (N.to_nat a)).
  rewrite N2Nat.id in T. cbv zeta in T.
  assert (Hin : In (N.to_nat a) (seq 0 1024)) by (apply in_seq; lia).
  apply T in Hin. apply andb_true_iff in Hin as [H1 H2].
  apply N.eqb_eq in H1, H2. split; assumption.
Qed.

(** The two halves of a surrogate pair determine the code point. *)
Lemma surrogates_inj (v v' : N) :
  (v < 0x100000)%N -> (v' < 0x100000)%N ->
  Json.hex4 (N.lor 0xd800 (N.shiftr v 10))
  = Json.hex4 (N.lor 0xd800 (N.shiftr v' 10)) ->
  Json.hex4 (N.lor 0xdc00 (N.land v 0x3ff))
  = Json.hex4 (N.lor 0xdc00 (N.land v' 0x3ff)) ->
  v = v'.
Proof.
  intros Hv Hv' Hhi Hlo.
  rewrite !N.shiftr_div_pow2 in Hhi.
  change 0x3ff%N with (N.ones 10) in Hlo. rewrite !N.land_ones in Hlo.
  change (2 ^ 10)%N with 1024%N in Hhi, Hlo.
  assert (A : (v / 1024 < 0x400)%N) by (apply N.Div0.div_lt_upper_bound; lia).
  assert (A' : (v' / 1024 < 0x400)%N) by (apply N.Div0.div_lt_upper_bound; lia).
  assert (B : (v mod 1024 < 0x400)%N) by (apply N.mod_lt; lia).
  assert (B' : (v' mod 1024 < 0x400)%N) by (apply N.mod_lt; lia).
  destruct (lor_surrogate _ A) as [E1 _]. destruct (lor_surrogate _ A') as [E1' _].
  destruct (lor_surrogate _ B) as [_ E2]. destruct (lor_surrogate _ B') as [_ E2'].
  rewrite E1, E1' in Hhi. rewrite E2, E2' in Hlo.
  apply hex4_inj in Hhi; [|lia|lia]. apply hex4_inj in Hlo; [|lia|lia].
  rewrite (N.div_mod v 1024), (N.div_mod v' 1024) by lia. lia.
Qed.

(** The four shapes of an escaped character: a short escape, the
    character itself, one [\uXXXX], or a surrogate pair. *)
Lemma escape_char_cases (c : N) :
  (exists x, In (c, x) [(34, 34); (92, 92); (10, 110); (13, 114);
                        (9, 116); (8, 98); (12, 102)]%N
             /\ Json.escape_char c = [92%N; x])
  \/ Json.escape_char c = [c]
  \/ ((c < 0x10000)%N /\ Json.escape_char c = 92%N :: 117%N :: Json.hex4 c)
  \/ ((0x10000 <= c)%N
      /\ Json.escape_char c
         = 92%N :: 117%N :: Json.hex4 (N.lor 0xd800 (N.shiftr (c - 0x10000) 10))
           ++ 92%N :: 117%N :: Json.hex4 (N.lor 0xdc00 (N.land (c - 0x10000) 0x3ff))).
Proof.
  unfold Json.escape_char.
  destruct (N.eqb_spec c 34) as [->|_];
    [left; exists 34%N; split; [simpl; tauto|reflexivity]|].
  destruct (N.eqb_spec c 92) as [->|_];
    [left; exists 92%N; split; [simpl; tauto|reflexivity]|].
  destruct (N.eqb_spec c 10) as [->|_];
    [left; exists 110%N; split; [simpl; tauto|reflexivity]|].
  destruct (N.eqb_spec c 13) as [->|_];
    [left; exists 114%N; split; [simpl; tauto|reflexivity]|].
  destruct (N.eqb_spec c 9) as [->|_];
    [left; exists 116%N; split; [simpl; tauto|reflexivity]|].
  destruct (N.eqb_spec c 8) as [->|_];
    [left; exists 98%N; split; [simpl; tauto|reflexivity]|].
  destruct (N.eqb_spec c 12) as [->|_];
    [left; exists 102%N; split; [simpl; tauto|reflexivity]|].
  destruct (N.leb 32 c && N.leb c 126)%bool; [right; left; reflexivity|].
  destruct (N.ltb_spec c 0x10000) as [Hlt|Hge].
  - right; right; left. split; [exact Hlt|reflexivity].
  - right; right; right. split; [exact Hge|reflexivity].
Qed.

Lemma short_escape_inj (c c' x : N) :
  In (c, x) [(34, 34); (92, 92); (10, 110); (13, 114);
             (9, 116); (8, 98); (12, 102)]%N ->
  In (c', x) [(34, 34); (92, 92); (10, 110); (13, 114);
              (9, 116); (8, 98); (12, 102)]%N ->
  c = c'.
Proof.
  simpl. intros H H'.
  repeat match goal with
  | H : _ \/ _ |- _ => destruct H as [H|H]
  | H : False |- _ => destruct H
  end;
  congruence.
Qed.

Lemma hex4_length (c : N) : List.length (Json.hex4 c) = 4%nat.
Proof. reflexivity. Qed.

Lemma app_same_length {A : Type} (l1 l1' l2 l2' : list A) :
  List.length l1 = List.length l1' ->
  l1 ++ l2 = l1' ++ l2' -> l1 = l1' /\ l2 = l2'.
Proof.
  revert l1'. induction l1 as [|x l1 IH]; intros [|x' l1'] L E;
    try discriminate L.
  - split; [reflexivity|exact E].
  - injection L as L. injection E as -> E.
    destruct (IH l1' L E) as [-> ->]. split; reflexivity.
Qed.

Ltac by_length H :=
  apply (f_equal (@List.length N)) in H;
  rewrite ?length_app in H; cbn [List.length] in H;
  rewrite ?hex4_length in H; cbn [Nat.add] in H; discriminate H.

(** [escape_char] is injective on code points. *)
Lemma escape_char_inj (c c' : N) :
  code_point c -> code_point c' ->
  Json.escape_char c = Json.escape_char c' -> c = c'.
Proof.
  unfold code_point. intros Hc Hc' H.
  destruct (escape_char_cases c) as [[x [Hx E]]|[E|[[B E]|[B E]]]];
    destruct (escape_char_cases c') as [[x' [Hx' E']]|[E'|[[B' E']|[B' E']]]];
    rewrite E, E' in H; clear E E';
    try (by_length H).
  - injection H as ->. exact (short_escape_inj c c' x' Hx Hx').
  - injection H as H. exact H.
  - apply hex4_inj; [assumption|assumption|congruence].
  - match type of H with
    | _ :: _ :: ?a ++ ?b = _ :: _ :: ?a' ++ ?b' =>
        assert (H' : a ++ b = a' ++ b') by congruence
    end.
    apply app_same_length in H'; [|now rewrite !hex4_length].
    destruct H' as [Hhi Hlo].
    assert (Ev : (c - 0x10000 = c' - 0x10000)%N).
    { apply surrogates_inj; [lia|lia|exact Hhi|congruence]. }
    lia.
Qed.

End Escape_injective.
Section Payload_injective.

Lemma escape_mutate (v v' : str) :
  mutate_char v v' ->
  flat_map Json.escape_char v <> flat_map Json.escape_char v'.
Proof.
  induction 1 as [c c' s Hc Hc' Hne|c s s' Hm IH]; simpl; intros E.
  - apply app_inv_tail in E. apply Hne. now apply escape_char_inj.
  - apply app_inv_head in E. now apply IH.
Qed.

Lemma encode_string_mutate (v v' : str) :
  mutate_char v v' -> Json.encode_string v <> Json.encode_string v'.
Proof.
  intros Hm E. unfold Json.encode_string in E.
  injection E as E. apply app_inv_tail in E.
  exact (escape_mutate v v' Hm E).
Qed.

(** What follows the first item of a non-empty list of items. *)
Lemma join_items_cons (kv : str * str) (l : list (str * str)) :
  Json.join_items (kv :: l)
  = Json.encode_item kv
    ++ match l with [] => [] | _ :: _ => lit ", " ++ Json.join_items l end.
Proof. destruct l; simpl; [now rewrite app_nil_r|reflexivity]. Qed.

Lemma join_items_mutate (l l' : list (str * str)) :
  mutate_value l l' -> Json.join_items l <> Json.join_items l'.
Proof.
  induction 1 as [k v v' d Hm|kv d d' Hm IH]; rewrite !join_items_cons; intros E.
  - unfold Json.encode_item in E. cbn [fst snd] in E.
    rewrite <- !app_assoc in E.
    apply app_inv_head in E. apply app_inv_head in E.
    apply app_inv_tail in E.
    exact (encode_string_mutate v v' Hm E).
  - apply app_inv_head in E.
    destruct Hm; apply app_inv_head in E; apply IH; exact E.
Qed.

Lemma insert_item_mutate_new (k v v' : str) (l : list (str * str)) :
  mutate_char v v' ->
  mutate_value (Json.insert_item (k, v) l) (Json.insert_item (k, v') l).
Proof.
  intros Hm. induction l as [|kv l IH]; simpl.
  - now apply mutate_this.
  - destruct (PyStr.ltb k (fst kv)).
    + now apply mutate_this.
    + now apply mutate_next.
Qed.

Lemma insert_item_mutate_old (kv : str * str) (l l' : list (str * str)) :
  mutate_value l l' ->
  mutate_value (Json.insert_item kv l) (Json.insert_item kv l').
Proof.
  induction 1 as [k v v' d Hm|kv0 d d' Hm IH]; simpl.
  - destruct (PyStr.ltb (fst kv) k).
    + apply mutate_next. now apply mutate_this.
    + now apply mutate_this.
  - destruct (PyStr.ltb (fst kv) (fst kv0)).
    + apply mutate_next. now apply mutate_next.
    + now apply mutate_next.
Qed.

Lemma sort_items_mutate (d d' : dict str) :
  mutate_value d d' ->
  mutate_value (Json.sort_items d) (Json.sort_items d').
Proof.
  unfold Json.sort_items.
  induction 1 as [k v v' d Hm|kv d d' Hm IH]; simpl.
  - now apply insert_item_mutate_new.
  - now apply insert_item_mutate_old.
Qed.

End Payload_injective.

(** C3 (as the code has it). A single-character mutation of a value always
    changes the canonical serialization that the tag digests; the tag is
    the first twelve hexadecimal digits of the SHA-256 digest of that
    changed payload. *)
Theorem mutation_changes_payload (F F' : dict str) :
  mutate_value F F' ->
  Json.dumps_sorted F <> Json.dumps_sorted F'
  /\ generate_pop_signature F = sha256_hex_prefix 12 (Json.dumps_sorted F)
  /\ generate_pop_signature F' = sha256_hex_prefix 12 (Json.dumps_sorted F').
Proof.
  intros Hm. split; [|split; reflexivity].
  unfold Json.dumps_sorted. intros E.
  apply app_inv_head in E. apply app_inv_tail in E.
  exact (join_items_mutate _ _ (sort_items_mutate F F' Hm) E).
Qed.

(** C3 at the two colliding mappings: the payloads differ, the tags do
    not. *)
Lemma mutation_changes_payload_witness :
  mutate_value fields_891B fields_26D96
  /\ Json.dumps_sorted fields_891B <> Json.dumps_sorted fields_26D96.
Proof.
  assert (Hm : mutate_value fields_891B fields_26D96).
  { apply mutate_this. unfold lit; simpl.
    do 9 apply mutate_later. apply mutate_here; unfold code_point; lia. }
  split; [exact Hm|].
  exact (proj1 (mutation_changes_payload fields_891B fields_26D96 Hm)).
Defined.

(** ** The calibration mode *)

(** C7. The mode is chosen by strict comparisons in exclusive bands:
    "emergency_recalibrate" above 0.7, "aggressive_recalibrate" above 0.5
    up to 0.7, "recalibrate" above 0.3 up to 0.5, "fine_tune" above 0.1 up
    to 0.3, "maintain" otherwise; the scores 0.1, 0.3, 0.5 and 0.7 fall in
    the lower band, 0.71 in the highest. *)
Theorem determine_calibration_mode_bands (score : float) :
  ((0.7 <? score)%float = true ->
   Praeceptor.determine_calibration_mode score = lit "emergency_recalibrate")
  /\ ((0.5 <? score)%float = true -> (0.7 <? score)%float = false ->
      Praeceptor.determine_calibration_mode score = lit "aggressive_recalibrate")
  /\ ((0.3 <? score)%float = true -> (0.5 <? score)%float = false ->
      Praeceptor.determine_calibration_mode score = lit "recalibrate")
  /\ ((0.1 <? score)%float = true -> (0.3 <? score)%float = false ->
      Praeceptor.determine_calibration_mode score = lit "fine_tune")
  /\ ((0.1 <? score)%float = false ->
      Praeceptor.determine_calibration_mode score = lit "maintain")
  /\ Praeceptor.determine_calibration_mode 0.1 = lit "maintain"
  /\ Praeceptor.determine_calibration_mode 0.3 = lit "fine_tune"
  /\ Praeceptor.determine_calibration_mode 0.5 = lit "recalibrate"
  /\ Praeceptor.determine_calibration_mode 0.7 = lit "aggressive_recalibrate"
  /\ Praeceptor.determine_calibration_mode 0.71 = lit "emergency_recalibrate".
Proof.
  unfold Praeceptor.determine_calibration_mode, PyFloat.gt.
  assert (A53 : (0.3 <? score)%float = false -> (0.5 <? score)%float = false)
    by (apply not_above_higher; reflexivity).
  assert (A75 : (0.5 <? score)%float = false -> (0.7 <? score)%float = false)
    by (apply not_above_higher; reflexivity).
  assert (A31 : (0.1 <? score)%float = false -> (0.3 <? score)%float = false)
    by (apply not_above_higher; reflexivity).
  repeat match goal with |- _ /\ _ => split end;
    try (vm_compute; reflexivity); intros.
  - now rewrite H.
  - now rewrite H0, H.
  - now rewrite (A75 H0), H0, H.
  - now rewrite (A75 (A53 H0)), (A53 H0), H0, H.
  - now rewrite (A75 (A53 (A31 H))), (A53 (A31 H)), (A31 H), H.
Qed.

(** * Further properties of the agents *)

(** ** The shape of digests, keys, obfuscated values and tags *)

Section Digest_shape.

Lemma compress_length (h block : list Z) :
  List.length h = 8%nat -> List.length (Sha256.compress h block) = 8%nat.
Proof.
  intros Hh. unfold Sha256.compress. cbv zeta.
  rewrite length_map, length_combine, Hh. reflexivity.
Qed.

Lemma blocks_length (fuel : nat) (h bs : list Z) :
  List.length h = 8%nat -> List.length (Sha256.blocks fuel h bs) = 8%nat.
Proof.
  revert h bs. induction fuel as [|f IH]; intros h bs Hh; [exact Hh|].
  destruct bs as [|b bs]; [exact Hh|].
  cbn [Sha256.blocks]. apply IH. now apply compress_length.
Qed.

Lemma be_bytes_range (n : nat) (x : Z) :
  Forall (fun b => 0 <= b < 256) (Sha256.be_bytes n x).
Proof.
  induction n as [|n IH]; cbn [Sha256.be_bytes]; constructor; [|exact IH].
  change 0xFF with (Z.ones 8). rewrite Z.land_ones by lia.
  apply Z.mod_pos_bound. reflexivity.
Qed.

Lemma be_bytes_length (n : nat) (x : Z) : List.length (Sha256.be_bytes n x) = n.
Proof. induction n as [|n IH]; cbn [Sha256.be_bytes List.length]; congruence. Qed.

Lemma digest_shape (msg : list Z) :
  List.length (Sha256.digest msg) = 32%nat
  /\ Forall (fun b => 0 <= b < 256) (Sha256.digest msg).
Proof.
  unfold Sha256.digest. cbv zeta.
  set (hs := Sha256.blocks _ _ _).
  assert (L : List.length hs = 8%nat) by (apply blocks_length; reflexivity).
  clearbody hs. split.
  - do 9 (destruct hs as [|? hs]; try discriminate L).
    cbn [flat_map]. rewrite !length_app, !be_bytes_length. reflexivity.
  - clear L. induction hs as [|h hs IH]; cbn [flat_map]; [constructor|].
    apply Forall_app. split; [apply be_bytes_range|exact IH].
Qed.

Lemma hex_digit_lower (n : Z) :
  0 <= n < 16 -> is_hex_lower (Sha256.hex_digit n) = true.
Proof.
  intros Hn. unfold Sha256.hex_digit, is_hex_lower.
  destruct (n <? 10) eqn:E;
    [apply Z.ltb_lt in E|apply Z.ltb_ge in E];
    rewrite orb_true_iff, !andb_true_iff, !N.leb_le; [left|right]; lia.
Qed.

Lemma hex_byte_shape (b : Z) :
  0 <= b < 256 -> forallb is_hex_lower (Sha256.hex_byte b) = true.
Proof.
  intros Hb. unfold Sha256.hex_byte. cbn [forallb].
  rewrite !hex_digit_lower; [reflexivity| |].
  - change 0xF with (Z.ones 4). rewrite Z.land_ones by lia.
    apply Z.mod_pos_bound. reflexivity.
  - rewrite Z.shiftr_div_pow2 by lia. change (2 ^ 4) with 16.
    split; [apply Z.div_pos; lia|apply Z.div_lt_upper_bound; lia].
Qed.

(** A digest is printed as 64 lowercase hexadecimal digits. *)
Lemma hexdigest_shape (msg : list Z) :
  List.length (Sha256.hexdigest msg) = 64%nat
  /\ forallb is_hex_lower (Sha256.hexdigest msg) = true.
Proof.
  unfold Sha256.hexdigest. destruct (digest_shape msg) as [L F].
  generalize dependent (Sha256.digest msg). intros d L F.
  assert (G : forall l, Forall (fun b => 0 <= b < 256) l ->
                List.length (flat_map Sha256.hex_byte l) = (2 * List.length l)%nat
                /\ forallb is_hex_lower (flat_map Sha256.hex_byte l) = true).
  { induction 1 as [|b l Hb Hl [IH1 IH2]]; [split; reflexivity|].
    cbn [flat_map]. rewrite length_app, forallb_app, IH1, IH2.
    rewrite (hex_byte_shape b Hb). split; [unfold Sha256.hex_byte; cbn [List.length]; lia|reflexivity]. }
  destruct (G d F) as [G1 G2]. rewrite G1, L. split; [reflexivity|exact G2].
Qed.

Lemma forallb_firstn {A : Type} (p : A -> bool) (n : nat) (l : list A) :
  forallb p l = true -> forallb p (firstn n l) = true.
Proof.
  revert n. induction l as [|x l IH]; intros [|n] H; try reflexivity.
  cbn [firstn forallb] in *. apply andb_true_iff in H as [Hx Hl].
  now rewrite Hx, IH.
Qed.

Lemma sha256_hex_prefix_shape (n : nat) (s : str) :
  (n <= 64)%nat ->
  List.length (sha256_hex_prefix n s) = n
  /\ forallb is_hex_lower (sha256_hex_prefix n s) = true.
Proof.
  intros Hn. unfold sha256_hex_prefix, PyStr.slice_to.
  destruct (hexdigest_shape (Utf8.encode s)) as [L F]. split.
  - rewrite length_firstn, L. lia.
  - now apply forallb_firstn.
Qed.

End Digest_shape.

(** X1. Every derived key is "HKP_" followed by eight lowercase
    hexadecimal digits, twelve characters in all, whatever the field name,
    the level and the parameters. *)
Theorem derive_role_key_shape (float_str : float -> str)
    (field_name auth_level : str) (theta_params : dict float) :
  exists h : str,
    derive_role_key float_str field_name auth_level theta_params
    = lit "HKP_" ++ h
    /\ List.length h = 8%nat
    /\ forallb is_hex_lower h = true
    /\ List.length
         (derive_role_key float_str field_name auth_level theta_params)
       = 12%nat.
Proof.
  unfold derive_role_key. cbv zeta.
  match goal with |- context [sha256_hex_prefix 8 ?b] =>
    destruct (sha256_hex_prefix_shape 8 b ltac:(lia)) as [L F];
    exists (sha256_hex_prefix 8 b)
  end.
  repeat split; try assumption.
  rewrite length_app, L. reflexivity.
Qed.

(** X2. The generated tag is twelve lowercase hexadecimal digits; the
    verifier accepts a signature exactly when it is that tag, so it rejects
    every signature of another length, the empty one included. *)
Theorem pop_signature_shape (encrypted_fields : dict str) :
  List.length (generate_pop_signature encrypted_fields) = 12%nat
  /\ forallb is_hex_lower (generate_pop_signature encrypted_fields) = true
  /\ (forall sig : str,
        verify_pop_signature encrypted_fields sig = true
        <-> sig = generate_pop_signature encrypted_fields)
  /\ (forall sig : str,
        List.length sig <> 12%nat ->
        verify_pop_signature encrypted_fields sig = false)
  /\ verify_pop_signature encrypted_fields [] = false.
Proof.
  destruct (sha256_hex_prefix_shape 12 (Json.dumps_sorted encrypted_fields)
              ltac:(lia)) as [L F].
  assert (R : forall sig, List.length sig <> 12%nat ->
                verify_pop_signature encrypted_fields sig = false).
  { intros sig Hs. destruct (verify_pop_signature encrypted_fields sig) eqn:V;
      [|reflexivity].
    apply verify_true_iff in V. subst sig. contradiction. }
  repeat split; try assumption.
  - now apply verify_true_iff.
  - now apply verify_true_iff.
  - apply R. discriminate.
Qed.

Lemma upper_hex (s : str) :
  forallb is_hex_lower s = true -> forallb is_hex_upper (upper s) = true.
Proof.
  unfold upper. induction s as [|c s IH]; [reflexivity|].
  cbn [forallb List.map]. intros H.
  apply andb_true_iff in H as [Hc Hs]. rewrite (IH Hs), andb_true_r.
  unfold is_hex_lower in Hc. unfold is_hex_upper, upper_char.
  apply orb_true_iff in Hc as [Hc|Hc]; apply andb_true_iff in Hc as [H1 H2];
    apply N.leb_le in H1, H2.
  - replace (N.leb 97 c && N.leb c 122) with false
      by (symmetry; apply andb_false_iff; left; apply N.leb_gt; lia).
    apply orb_true_iff; left. apply andb_true_iff; split; apply N.leb_le; lia.
  - replace (N.leb 97 c && N.leb c 122) with true
      by (symmetry; apply andb_true_iff; split; apply N.leb_le; lia).
    apply orb_true_iff; right. apply andb_true_iff; split; apply N.leb_le; lia.
Qed.

(** X3. With a random prefix of four hexadecimal digits, an obfuscated
    value is seventeen characters: the prefix in upper case, an underscore
    and twelve lowercase hexadecimal digits. *)
Theorem encrypt_field_shape (prefix_raw value key : str) :
  List.length prefix_raw = 4%nat ->
  forallb is_hex_lower prefix_raw = true ->
  exists p e : str,
    encrypt_field prefix_raw value key = p ++ lit "_" ++ e
    /\ List.length p = 4%nat /\ forallb is_hex_upper p = true
    /\ List.length e = 12%nat /\ forallb is_hex_lower e = true
    /\ List.length (encrypt_field prefix_raw value key) = 17%nat.
Proof.
  intros L H. unfold encrypt_field. cbv zeta.
  match goal with |- context [sha256_hex_prefix 12 ?b] =>
    destruct (sha256_hex_prefix_shape 12 b ltac:(lia)) as [Le Fe];
    exists (upper prefix_raw), (sha256_hex_prefix 12 b)
  end.
  assert (Lp : List.length (upper prefix_raw) = 4%nat)
    by (unfold upper; now rewrite length_map).
  repeat split; try assumption.
  - now apply upper_hex.
  - rewrite !length_app, Lp, Le. reflexivity.
Qed.

(** X3 at the prefix of the example run. *)
Lemma encrypt_field_shape_witness :
  List.length (encrypt_field (lit "a1b2") (lit "75000 USD") (lit "HKP_12345678"))
  = 17%nat.
Proof.
  destruct (encrypt_field_shape (lit "a1b2") (lit "75000 USD")
              (lit "HKP_12345678") eq_refl eq_refl)
    as [p [e [_ [_ [_ [_ [_ H]]]]]]].
  exact H.
Defined.

(** ** The tag does not depend on the order of the fields *)

Section Key_order.

Lemma str_ltb_irrefl (a : str) : PyStr.ltb a a = false.
Proof.
  induction a as [|x a IH]; [reflexivity|].
  cbn [PyStr.ltb]. now rewrite N.ltb_irrefl, N.eqb_refl.
Qed.

Lemma str_ltb_trans (a b c : str) :
  PyStr.ltb a b = true -> PyStr.ltb b c = true -> PyStr.ltb a c = true.
Proof.
  revert b c. induction a as [|x a IH]; intros [|y b] [|z c]; cbn [PyStr.ltb];
    try discriminate; try reflexivity.
  destruct (N.ltb_spec x y) as [Hxy|Hxy]; destruct (N.ltb_spec y z) as [Hyz|Hyz];
    destruct (N.ltb_spec x z) as [Hxz|Hxz]; try reflexivity; try lia;
    destruct (N.eqb_spec x y); destruct (N.eqb_spec y z);
    destruct (N.eqb_spec x z); try discriminate; try lia.
  apply IH.
Qed.

Lemma str_ltb_total (a b : str) :
  PyStr.ltb a b = false -> PyStr.ltb b a = false -> a = b.
Proof.
  revert b. induction a as [|x a IH]; intros [|y b]; cbn [PyStr.ltb];
    try discriminate; try reflexivity.
  destruct (N.ltb_spec x y) as [Hxy|Hxy]; [discriminate|].
  destruct (N.ltb_spec y x) as [Hyx|Hyx]; [discriminate|].
  assert (x = y) by lia. subst y. rewrite N.eqb_refl.
  intros H1 H2. f_equal. now apply IH.
Qed.

Lemma insert_item_perm (kv : str * str) (l : list (str * str)) :
  Permutation (Json.insert_item kv l) (kv :: l).
Proof.
  induction l as [|kv' l IH]; cbn [Json.insert_item]; [reflexivity|].
  destruct (PyStr.ltb (fst kv) (fst kv')); [reflexivity|].
  rewrite IH. apply perm_swap.
Qed.

Lemma sort_items_perm (d : dict str) : Permutation (Json.sort_items d) d.
Proof.
  unfold Json.sort_items. induction d as [|kv d IH]; cbn [fold_right];
    [reflexivity|].
  rewrite insert_item_perm. now constructor.
Qed.

Lemma insert_item_sorted (kv : str * str) (l : list (str * str)) :
  StronglySorted key_lt l -> ~ In (fst kv) (List.map fst l) ->
  StronglySorted key_lt (Json.insert_item kv l).
Proof.
  induction 1 as [|kv' l Hs IH Hall]; cbn [Json.insert_item]; intros Hnin.
  - repeat constructor.
  - destruct (PyStr.ltb (fst kv) (fst kv')) eqn:E.
    + constructor; [now constructor|].
      constructor; [exact E|].
      eapply Forall_impl; [|exact Hall].
      intros x Hx. unfold key_lt in *. eapply str_ltb_trans; eassumption.
    + assert (Hlt : key_lt kv' kv).
      { unfold key_lt. destruct (PyStr.ltb (fst kv') (fst kv)) eqn:E'; [reflexivity|].
        exfalso. apply Hnin. left. symmetry. now apply str_ltb_total. }
      constructor.
      * apply IH. intros Hin. apply Hnin. now right.
      * eapply Permutation_Forall; [symmetry; apply insert_item_perm|].
        now constructor.
Qed.

Lemma sort_items_sorted (d : dict str) :
  NoDup (keys d) -> StronglySorted key_lt (Json.sort_items d).
Proof.
  unfold Json.sort_items, keys.
  induction d as [|kv d IH]; cbn [fold_right List.map]; intros Hnd;
    [constructor|].
  inversion Hnd as [|k ks Hnin Hnd']; subst.
  apply insert_item_sorted; [now apply IH|].
  intros Hin. apply Hnin.
  eapply Permutation_in; [|exact Hin].
  apply Permutation_map. apply (sort_items_perm d).
Qed.

Lemma sorted_perm_eq (l l' : list (str * str)) :
  StronglySorted key_lt l -> StronglySorted key_lt l' ->
  Permutation l l' -> l = l'.
Proof.
  intros Hs. revert l'. induction Hs as [|x l Hs IH Hall]; intros l' Hs' Hp.
  - apply Permutation_nil in Hp. now subst.
  - destruct Hs' as [|y l' Hs' Hall'].
    + symmetry in Hp. apply Permutation_nil in Hp. discriminate.
    + assert (Hxy : x = y).
      { assert (Hx : In x (y :: l')) by (eapply Permutation_in; [exact Hp|now left]).
        assert (Hy : In y (x :: l))
          by (eapply Permutation_in; [symmetry; exact Hp|now left]).
        destruct Hx as [Hx|Hx]; [now symmetry|].
        destruct Hy as [Hy|Hy]; [exact Hy|].
        rewrite Forall_forall in Hall, Hall'.
        specialize (Hall y Hy). specialize (Hall' x Hx). unfold key_lt in *.
        pose proof (str_ltb_trans _ _ _ Hall Hall') as C.
        rewrite str_ltb_irrefl in C. discriminate. }
      subst y. f_equal. apply IH; [exact Hs'|].
      eapply Permutation_cons_inv; exact Hp.
Qed.

End Key_order.

(** X4. Two field mappings with the same entries in a different order,
    their keys distinct as in a dictionary, have the same canonical
    serialization and the same tag, and a tag generated for one verifies
    for the other. *)
Theorem pop_signature_order_independent (F F' : dict str) :
  NoDup (keys F) -> Permutation F F' ->
  Json.dumps_sorted F = Json.dumps_sorted F'
  /\ generate_pop_signature F = generate_pop_signature F'
  /\ verify_pop_signature F' (generate_pop_signature F) = true.
Proof.
  intros Hnd Hp.
  assert (Hnd' : NoDup (keys F')).
  { eapply Permutation_NoDup; [|exact Hnd]. unfold keys. now apply Permutation_map. }
  assert (E : Json.sort_items F = Json.sort_items F').
  { apply sorted_perm_eq; try now apply sort_items_sorted.
    rewrite (sort_items_perm F), (sort_items_perm F'). exact Hp. }
  assert (D : Json.dumps_sorted F = Json.dumps_sorted F')
    by (unfold Json.dumps_sorted; now rewrite E).
  split; [exact D|]. unfold generate_pop_signature, verify_pop_signature.
  rewrite D. split; [reflexivity|apply str_eqb_refl].
Qed.

(** X4 at two orders of a two-field mapping. *)
Lemma pop_signature_order_independent_witness :
  generate_pop_signature
    [(Tags.omega_alpha, lit "A1B2_d3dedf20058f"); (Tags.gamma_phi, lit "BXR_07")]
  = generate_pop_signature
      [(Tags.gamma_phi, lit "BXR_07"); (Tags.omega_alpha, lit "A1B2_d3dedf20058f")].
Proof.
  refine (proj1 (proj2 (pop_signature_order_independent _ _ _ _))).
  - unfold keys. cbn [List.map fst].
    constructor; [|constructor; [intros []|constructor]].
    intros [H|[]]. vm_compute in H. discriminate H.
  - apply perm_swap.
Defined.

(** ** The bundle the cryptor builds *)

Section Cryptor_bundle.

Variable float_str : float -> str.

Lemma dict_get_set_same {V : Type} (d : dict V) (k : str) (v : V) :
  dict_get (dict_set d k v) k = Some v.
Proof.
  induction d as [|[k' v'] d IH]; cbn [dict_set dict_get].
  - now rewrite str_eqb_refl.
  - destruct (PyStr.eqb k' k) eqn:E; cbn [dict_get]; now rewrite E.
Qed.

Lemma dict_get_set_other {V : Type} (d : dict V) (k k' : str) (v : V) :
  PyStr.eqb k k' = false -> dict_get (dict_set d k v) k' = dict_get d k'.
Proof.
  intros Hk. induction d as [|[k0 v0] d IH]; cbn [dict_set dict_get].
  - now rewrite Hk.
  - destruct (PyStr.eqb k0 k) eqn:E; cbn [dict_get].
    + apply str_eqb_eq in E. subst k0. now rewrite Hk.
    + now rewrite IH.
Qed.

Lemma entity_fields_present (sec : Secrets) (auth : str) (theta : dict float)
    (entities : dict str) (acc : dict str * nat) (k : str) :
  dict_mem (fst acc) k = true
  \/ (exists name, In name (keys entities) /\ k = Tags.beta_xi_ ++ name) ->
  dict_mem
    (fst (fold_left
            (fun (acc : dict str * nat) (kv : str * str) =>
               let '(fields, n) := acc in
               let field_key := derive_role_key float_str (fst kv) auth theta in
               (dict_set fields (Tags.beta_xi_ ++ fst kv)
                  (encrypt_field (token_hex sec n 2%nat) (snd kv) field_key),
                S n))
            entities acc)) k = true.
Proof.
  revert acc. induction entities as [|kv l IH]; intros [fields n] H.
  - destruct H as [H|[name [[] _]]]. exact H.
  - cbn [fold_left]. apply IH. cbn [fst].
    rewrite dict_mem_set.
    destruct H as [H|[name [[Hn|Hn] Hk]]].
    + left. cbn [fst] in H. rewrite H. apply orb_true_r.
    + left. subst k name. now rewrite str_eqb_refl.
    + right. exists name. split; assumption.
Qed.

End Cryptor_bundle.

(** X5. Whatever the input, its level, the parameters and the random
    draws, the bundle of the rule-based cryptor has the role tag "Γ5", the
    field "Role=Γ5" with the value "HKP-derived", the field "Time=∆τ" with
    the bundle's time tag, the intent and the two filler fields, one
    entity-tagged field per entity of the input, and a signature that
    verifies. *)
Theorem run_cryptor_bundle_structure (float_str : float -> str) (sec : Secrets)
    (now : str) (inp : SemanticPromptOut.t) (theta_params : option (dict float)) :
  let bundle := run_cryptor_fallback float_str sec now inp theta_params in
  let fields := EncryptedOutput.encrypted_fields bundle in
  EncryptedOutput.role_tag bundle = Tags.gamma5
  /\ EncryptedOutput.time_tag bundle = now
  /\ dict_get fields Tags.role_gamma5 = Some (lit "HKP-derived")
  /\ dict_get fields Tags.time_delta_tau = Some now
  /\ forallb (dict_mem fields)
       [Tags.omega_alpha; Tags.gamma_phi; Tags.node_zeta_tau] = true
  /\ (forall name, In name (keys (SemanticPromptOut.entities inp)) ->
                   dict_mem fields (Tags.beta_xi_ ++ name) = true)
  /\ verify_pop_signature fields (EncryptedOutput.pop_signature bundle) = true.
Proof.
  cbv zeta. unfold run_cryptor_fallback.
  cbn [EncryptedOutput.role_tag EncryptedOutput.time_tag
       EncryptedOutput.encrypted_fields EncryptedOutput.pop_signature].
  unfold dict_update. cbn [fold_left fst snd].
  set (F := apply_hkp_encryption float_str sec inp theta_params).
  assert (M : forall k,
             dict_mem (fst (fold_left
               (fun (acc : dict str * nat) (kv : str * str) =>
                  let '(fields, n) := acc in
                  let field_key :=
                    derive_role_key float_str (fst kv)
                      (SemanticPromptOut.auth_level inp)
                      match theta_params with
                      | Some t => t | None => default_theta end in
                  (dict_set fields (Tags.beta_xi_ ++ fst kv)
                     (encrypt_field (token_hex sec n 2%nat) (snd kv) field_key),
                   S n))
               (SemanticPromptOut.entities inp)
               (dict_set [] Tags.omega_alpha
                  (encrypt_field (token_hex sec 0%nat 2%nat)
                     (SemanticPromptOut.intent inp)
                     (derive_role_key float_str (lit "intent")
                        (SemanticPromptOut.auth_level inp)
                        match theta_params with
                        | Some t => t | None => default_theta end)), 1%nat))) k
             = true -> dict_mem F k = true).
  { intros k Hk. unfold F, apply_hkp_encryption. cbv zeta.
    destruct (fold_left _ _ _) as [fields1 n].
    cbn [fst] in Hk. rewrite !dict_mem_set, Hk. now rewrite !orb_true_r. }
  repeat split.
  - rewrite dict_get_set_other by reflexivity. apply dict_get_set_same.
  - apply dict_get_set_same.
  - cbn [forallb]. rewrite !dict_mem_set.
    assert (H1 : dict_mem F Tags.omega_alpha = true).
    { apply M. apply entity_fields_present. left. reflexivity. }
    assert (H2 : dict_mem F Tags.gamma_phi = true).
    { unfold F, apply_hkp_encryption. cbv zeta.
      destruct (fold_left _ _ _) as [fields1 n].
      rewrite !dict_mem_set, str_eqb_refl. now rewrite orb_true_r. }
    assert (H3 : dict_mem F Tags.node_zeta_tau = true).
    { unfold F, apply_hkp_encryption. cbv zeta.
      destruct (fold_left _ _ _) as [fields1 n].
      rewrite !dict_mem_set, str_eqb_refl. reflexivity. }
    rewrite H1, H2, H3. now rewrite !orb_true_r.
  - intros name Hin. rewrite !dict_mem_set.
    rewrite (M (Tags.beta_xi_ ++ name)); [now rewrite !orb_true_r|].
    apply entity_fields_present. right. exists name. split; [exact Hin|reflexivity].
  - apply verify_generated.
Qed.

(** ** What the cryptor reads of the parameters *)

Lemma fold_left_ext {A B : Type} (f g : A -> B -> A) (l : list B) (a : A) :
  (forall x y, f x y = g x y) -> fold_left f l a = fold_left g l a.
Proof.
  intros H. revert a. induction l as [|b l IH]; intros a; [reflexivity|].
  cbn [fold_left]. now rewrite H, IH.
Qed.

(** X6. The cryptor reads the parameters only through "cipher_strength"
    (0.8 when absent): two parameter sets with the same cipher strength, or
    none and one with cipher strength 0.8, give the same bundle under the
    same draws; the entropy and the role decay change nothing. *)
Theorem run_cryptor_reads_only_cipher_strength (float_str : float -> str)
    (sec : Secrets) (now : str) (inp : SemanticPromptOut.t)
    (theta theta' : option (dict float)) :
  dict_get_default (match theta with Some t => t | None => default_theta end)
    (lit "cipher_strength") 0.8%float
  = dict_get_default (match theta' with Some t => t | None => default_theta end)
      (lit "cipher_strength") 0.8%float ->
  run_cryptor_fallback float_str sec now inp theta
  = run_cryptor_fallback float_str sec now inp theta'.
Proof.
  intros E.
  assert (K : forall name auth,
             derive_role_key float_str name auth
               (match theta with Some t => t | None => default_theta end)
             = derive_role_key float_str name auth
                 (match theta' with Some t => t | None => default_theta end)).
  { intros name auth. unfold derive_role_key. now rewrite E. }
  unfold run_cryptor_fallback, apply_hkp_encryption. cbv zeta.
  rewrite K.
  erewrite fold_left_ext; [reflexivity|].
  intros [fields n] kv. cbv beta iota. now rewrite K.
Qed.

(** X6 at a calibrated parameter set that keeps the default strength. *)
Lemma run_cryptor_reads_only_cipher_strength_witness :
  run_cryptor_fallback float_str_default fixed_secrets fixed_now transfer_input
    (Some [(lit "entropy", 0.9%float); (lit "role_decay", 0.1%float)])
  = run_cryptor_fallback float_str_default fixed_secrets fixed_now
      transfer_input None.
Proof.
  apply run_cryptor_reads_only_cipher_strength. reflexivity.
Defined.

(** ** What the decryptor authenticates *)



(** ** The authorization grade *)

Lemma endswith_snoc (s : str) (d d' : N) :
  PyStr.endswith (s ++ [d]) [d'] = N.eqb d d'.
Proof.
  unfold PyStr.endswith. rewrite rev_unit. cbn [rev app PyStr.startswith].
  destruct (rev s); apply andb_true_r.
Qed.

Lemma endswith_empty (d : N) : PyStr.endswith [] [d] = false.
Proof. reflexivity. Qed.

Lemma auth_grade_of_snoc (s : str) (d : N) :
  auth_grade_of (s ++ [d])
  = if existsb (N.eqb d) (lit "12345") then lit "Level-" ++ [d]
    else lit "Level-4".
Proof.
  unfold auth_grade_of. change (lit "12345") with [49; 50; 51; 52; 53]%N.
  cbn [existsb].
  change (lit "1") with [49%N]. change (lit "2") with [50%N].
  change (lit "3") with [51%N]. change (lit "4") with [52%N].
  change (lit "5") with [53%N].
  rewrite !endswith_snoc, last_last. reflexivity.
Qed.

(** X8. The grade is read off the last character of the role tag alone:
    "Level-d" when it is a digit d from 1 to 5, and "Level-4" for every
    other tag, the empty one included; so the grade is always one of the
    five levels. *)
Theorem auth_grade_of_last_character :
  auth_grade_of [] = lit "Level-4"
  /\ (forall (s : str) (d : N),
        auth_grade_of (s ++ [d])
        = if (N.leb 49 d && N.leb d 53)%bool then lit "Level-" ++ [d]
          else lit "Level-4")
  /\ (forall role_tag : str,
        In (auth_grade_of role_tag)
          [lit "Level-1"; lit "Level-2"; lit "Level-3"; lit "Level-4";
           lit "Level-5"]).
Proof.
  assert (D : forall d, existsb (N.eqb d) (lit "12345")
                        = (N.leb 49 d && N.leb d 53)%bool).
  { intros d. change (lit "12345") with [49; 50; 51; 52; 53]%N.
    cbn [existsb].
    destruct (N.leb 49 d && N.leb d 53)%bool eqn:E.
    - apply andb_true_iff in E as [E1 E2]. apply N.leb_le in E1, E2.
      assert (d = 49 \/ d = 50 \/ d = 51 \/ d = 52 \/ d = 53)%N as C by lia.
      destruct C as [->|[->|[->|[->| ->]]]]; reflexivity.
    - rewrite orb_false_r.
      destruct (N.eqb_spec d 49) as [->|]; [discriminate E|].
      destruct (N.eqb_spec d 50) as [->|]; [discriminate E|].
      destruct (N.eqb_spec d 51) as [->|]; [discriminate E|].
      destruct (N.eqb_spec d 52) as [->|]; [discriminate E|].
      destruct (N.eqb_spec d 53) as [->|]; [discriminate E|].
      reflexivity. }
  split; [reflexivity|]. split.
  - intros s d. rewrite auth_grade_of_snoc. now rewrite D.
  - intros role_tag.
    destruct (rev role_tag) as [|d r] eqn:R.
    + apply (f_equal (@rev N)) in R. rewrite rev_involutive in R. subst.
      cbn. tauto.
    + apply (f_equal (@rev N)) in R. rewrite rev_involutive in R.
      cbn [rev] in R. subst role_tag.
      rewrite auth_grade_of_snoc, D.
      destruct (N.leb 49 d && N.leb d 53)%bool eqn:E.
      * apply andb_true_iff in E as [E1 E2]. apply N.leb_le in E1, E2.
        assert (d = 49 \/ d = 50 \/ d = 51 \/ d = 52 \/ d = 53)%N as C by lia.
        destruct C as [->|[->|[->|[->| ->]]]]; cbn; tauto.
      * cbn; tauto.
Qed.

(** ** Placeholders under derived keys *)

Section Placeholders.

Lemma startswith_In (p s : str) (c : N) :
  PyStr.startswith s p = true -> In c p -> In c s.
Proof.
  revert s. induction p as [|y p IH]; intros s H Hin; [destruct Hin|].
  destruct s as [|x s]; [discriminate H|].
  cbn [PyStr.startswith] in H. apply andb_true_iff in H as [H1 H2].
  apply N.eqb_eq in H1. subst y.
  destruct Hin as [<-|Hin]; [now left|right; now apply IH].
Qed.

Lemma contains_In (s p : str) (c : N) :
  PyStr.contains s p = true -> In c p -> In c s.
Proof.
  induction s as [|x s IH]; cbn [PyStr.contains]; intros H Hin.
  - rewrite orb_false_r in H. eapply startswith_In; eassumption.
  - apply orb_true_iff in H as [H|H].
    + eapply startswith_In; eassumption.
    + right. now apply IH.
Qed.

Lemma contains_absent (s p : str) (c : N) :
  In c p -> ~ In c s -> PyStr.contains s p = false.
Proof.
  intros Hp Hs. destruct (PyStr.contains s p) eqn:E; [|reflexivity].
  exfalso. apply Hs. eapply contains_In; eassumption.
Qed.

(** The characters of a lowered derived key: "hkp_" and hexadecimal
    digits. *)
Lemma lower_key_chars (h : str) (c : N) :
  forallb is_hex_lower h = true ->
  In c (PyStr.lower (lit "HKP_" ++ h)) ->
  In c (lit "hkp_") \/ is_hex_lower c = true.
Proof.
  intros F Hin. unfold PyStr.lower in Hin. rewrite map_app in Hin.
  apply in_app_or in Hin as [Hin|Hin]; [left; exact Hin|right].
  apply in_map_iff in Hin as [x [Hx Hin]].
  rewrite forallb_forall in F. specialize (F x Hin).
  assert (PyStr.lower_char x = x) as E.
  { unfold PyStr.lower_char. unfold is_hex_lower in F.
    destruct (N.leb 65 x && N.leb x 90)%bool eqn:B; [|reflexivity].
    apply andb_true_iff in B as [B1 B2]. apply N.leb_le in B1, B2.
    apply orb_true_iff in F as [F|F]; apply andb_true_iff in F as [F1 F2];
      apply N.leb_le in F1, F2; lia. }
  congruence.
Qed.

Lemma lower_key_lacks (h : str) (c : N) :
  forallb is_hex_lower h = true ->
  (103 <= c)%N -> c <> 104%N -> c <> 107%N -> c <> 112%N ->
  ~ In c (PyStr.lower (lit "HKP_" ++ h)).
Proof.
  intros F H1 H2 H3 H4 Hin.
  apply lower_key_chars in Hin as [Hin|Hin]; [| |exact F].
  - cbn in Hin. lia.
  - unfold is_hex_lower in Hin.
    apply orb_true_iff in Hin as [Hin|Hin];
      apply andb_true_iff in Hin as [F1 F2]; apply N.leb_le in F1, F2; lia.
Qed.

(** Under a key "HKP_" followed by hexadecimal digits, the branches of
    [decrypt_field] that look at the key are never taken. *)
Lemma decrypt_field_hex_key (encrypted_value h : str) :
  forallb is_hex_lower h = true ->
  decrypt_field encrypted_value (lit "HKP_" ++ h)
  = if PyStr.contains encrypted_value Tags.omega_alpha then lit "transfer"
    else if PyStr.contains encrypted_value (Tags.beta_xi_ ++ lit "amount")
         then lit "75000 USD"
         else lit "default_value".
Proof.
  intros F. unfold decrypt_field. cbv zeta.
  set (k := PyStr.lower (lit "HKP_" ++ h)).
  assert (Hi : PyStr.contains k (lit "intent") = false).
  { apply (contains_absent _ _ 105%N); [cbn; tauto|].
    apply lower_key_lacks; [exact F|lia..]. }
  assert (Hm : PyStr.contains k (lit "amount") = false).
  { apply (contains_absent _ _ 109%N); [cbn; tauto|].
    apply lower_key_lacks; [exact F|lia..]. }
  assert (Ho : PyStr.contains k (lit "account") = false).
  { apply (contains_absent _ _ 111%N); [cbn; tauto|].
    apply lower_key_lacks; [exact F|lia..]. }
  rewrite Hi, Hm, Ho, !orb_false_r, !orb_false_l. reflexivity.
Qed.



End Placeholders.

(** X9. Under every key [derive_role_key] produces, the placeholder
    [decrypt_field] returns is decided by the value alone: "transfer" when
    it contains "Ωα", else "75000 USD" when it contains "βΞ_amount", else
    "default_value"; the account placeholders are never returned. *)
Theorem decrypt_field_under_derived_key (float_str : float -> str)
    (field_name auth_level : str) (theta_params : dict float)
    (encrypted_value : str) :
  decrypt_field encrypted_value
    (derive_role_key float_str field_name auth_level theta_params)
  = if PyStr.contains encrypted_value Tags.omega_alpha then lit "transfer"
    else if PyStr.contains encrypted_value (Tags.beta_xi_ ++ lit "amount")
         then lit "75000 USD"
         else lit "default_value".
Proof.
  unfold derive_role_key. cbv zeta.
  apply decrypt_field_hex_key.
  apply sha256_hex_prefix_shape. lia.
Qed.

(** ** What survives obfuscation and recovery *)

Section Roundtrip.

Variable float_str : float -> str.



End Roundtrip.



(** ** The probe of a mimic bundle *)

Section Probe.

Import PyFloat.
Local Open Scope float_scope.

(** The factor mapping of [analyze_leakage_patterns], entry by entry. *)
Lemma analyze_leakage_patterns_entries (rnd : Random) (m : dict str) :
  exists pc fm : float,
    Probator.analyze_leakage_patterns rnd m
    = [(lit "entity_recovery",
        if dict_mem m Tags.omega_alpha then uniform rnd 0%nat 0.1 0.4 else 0.0);
       (lit "structure_fidelity",
        int_truediv
          (List.length (filter (fun f => dict_mem m f) Probator.expected_fields))
          4%nat);
       (lit "semantic_drift",
        uniform rnd (if dict_mem m Tags.omega_alpha then 1%nat else 0%nat)
          0.3 0.8);
       (lit "pattern_consistency", pc);
       (lit "field_mapping_accuracy", fm)]
    /\ In pc [0.0; 0.2; 0.3; 0.4; 0.5; 0.6; 0.7; 0.8; 1.0]
    /\ fm = (if dict_mem m (Tags.beta_xi_ ++ lit "amount_mimic")
             then if dict_mem m (Tags.beta_xi_ ++ lit "account_mimic")
                  then 0.8 else 0.4
             else if dict_mem m (Tags.beta_xi_ ++ lit "account_mimic")
                  then 0.4 else 0.0).
Proof.
  unfold Probator.analyze_leakage_patterns. cbv zeta.
  do 2 eexists. split; [|split].
  - destruct (dict_mem m Tags.omega_alpha); reflexivity.
  - destruct (Probator.has_with m Tags.omega_alpha _);
      destruct (Probator.has_with m Tags.beta_xi _);
      destruct (Probator.has_with m Tags.gamma_phi _);
      destruct (Probator.has_with m Tags.node_zeta_tau _);
      vm_compute; tauto.
  - destruct (dict_mem m (Tags.beta_xi_ ++ lit "amount_mimic"));
      destruct (dict_mem m (Tags.beta_xi_ ++ lit "account_mimic"));
      vm_compute; reflexivity.
Qed.

Lemma structure_fidelity_values (m : dict str) :
  In (int_truediv
        (List.length (filter (fun f => dict_mem m f) Probator.expected_fields))
        4%nat)
     [0.0; 0.25; 0.5; 0.75; 1.0].
Proof.
  unfold Probator.expected_fields. cbn [filter].
  destruct (dict_mem m Tags.omega_alpha); destruct (dict_mem m Tags.beta_xi);
    destruct (dict_mem m Tags.gamma_phi);
    destruct (dict_mem m Tags.node_zeta_tau); vm_compute; tauto.
Qed.

End Probe.

(** X11. Whatever the mimic bundle, the rule-based probe fills all five
    factors, in a fixed order, and its score is the clamped weighted sum
    over all five. The entity recovery is a draw when the bundle has the
    intent tag and 0.0 otherwise; the structure fidelity is a quarter per
    expected tag; the pattern consistency and the mapping accuracy take
    finitely many values. *)
Theorem run_probator_fallback_factors (rnd : Random) (inp : MimicOutput.t) :
  exists er sf sd pc fm : float,
    LeakageVectorOut.details (Probator.run_probator_fallback rnd inp)
    = [(lit "entity_recovery", er); (lit "structure_fidelity", sf);
       (lit "semantic_drift", sd); (lit "pattern_consistency", pc);
       (lit "field_mapping_accuracy", fm)]
    /\ LeakageVectorOut.leakage_score (Probator.run_probator_fallback rnd inp)
       = spec_overall_score er sf sd pc fm
    /\ er = (if dict_mem (MimicOutput.mimic_fields inp) Tags.omega_alpha
             then uniform rnd 0%nat 0.1 0.4 else 0.0)%float
    /\ sd = uniform rnd
              (if dict_mem (MimicOutput.mimic_fields inp) Tags.omega_alpha
               then 1%nat else 0%nat) 0.3%float 0.8%float
    /\ In sf [0.0; 0.25; 0.5; 0.75; 1.0]%float
    /\ In pc [0.0; 0.2; 0.3; 0.4; 0.5; 0.6; 0.7; 0.8; 1.0]%float
    /\ In fm [0.0; 0.4; 0.8]%float.
Proof.
  unfold Probator.run_probator_fallback. cbv zeta.
  cbn [LeakageVectorOut.details LeakageVectorOut.leakage_score].
  destruct (analyze_leakage_patterns_entries rnd (MimicOutput.mimic_fields inp))
    as [pc [fm [E [Hpc Hfm]]]].
  rewrite E. do 3 eexists. exists pc, fm.
  split; [reflexivity|]. split; [|split; [reflexivity|split; [reflexivity|]]].
  - erewrite calculate_leakage_score_sum by reflexivity.
    unfold spec_overall_score. apply clamp_same_or_zeros.
    repeat apply add_same_or_zeros. apply add_zero_l.
  - split; [apply structure_fidelity_values|]. split; [exact Hpc|].
    rewrite Hfm.
    destruct (dict_mem _ (Tags.beta_xi_ ++ lit "amount_mimic"));
      destruct (dict_mem _ (Tags.beta_xi_ ++ lit "account_mimic"));
      cbn; tauto.
Qed.

(** X12. The probe of a rule-based mimic bundle does not look at what was
    recovered, beyond the presence of the keys "amount" and "to_account":
    the protection is "active", the structure fidelity and the pattern
    consistency are 1.0, the mapping accuracy is 0.4 per targeted key, and
    the other two factors are the two draws of the probe. *)
Theorem probe_of_rule_based_mimic (rnd_m rnd_p : Random)
    (inp : DecryptedFieldsOut.t) :
  In (choice rnd_m 4%nat
        [lit "E23_Kai"; lit "E99_Lam"; lit "E45_Mu"; lit "E67_Nu"])
     [lit "E23_Kai"; lit "E99_Lam"; lit "E45_Mu"; lit "E67_Nu"] ->
  let probe :=
    Probator.run_probator_fallback rnd_p
      (Mimicus.run_mimicus_fallback rnd_m inp) in
  let entities := DecryptedFieldsOut.entities inp in
  LeakageVectorOut.hk_protection probe = lit "active"
  /\ LeakageVectorOut.details probe
     = [(lit "entity_recovery", uniform rnd_p 0%nat 0.1 0.4);
        (lit "structure_fidelity", 1.0);
        (lit "semantic_drift", uniform rnd_p 1%nat 0.3 0.8);
        (lit "pattern_consistency", 1.0);
        (lit "field_mapping_accuracy",
         if dict_mem entities (lit "amount")
         then if dict_mem entities (lit "to_account") then 0.8 else 0.4
         else if dict_mem entities (lit "to_account") then 0.4 else 0.0)]%float.
Proof.
  intros H. cbv zeta.
  unfold Probator.run_probator_fallback, Mimicus.run_mimicus_fallback.
  cbv zeta. cbn [LeakageVectorOut.hk_protection LeakageVectorOut.details
                 MimicOutput.mimic_fields].
  unfold Mimicus.generate_mimic_fields. cbv zeta.
  destruct (dict_mem (DecryptedFieldsOut.entities inp) (lit "amount"));
    destruct (dict_mem (DecryptedFieldsOut.entities inp) (lit "to_account"));
    destruct H as [H|[H|[H|[H|[]]]]]; rewrite <- H;
    (split; vm_compute; reflexivity).
Qed.

(** X12 at the recovered fields with both targeted keys. *)
Lemma probe_of_rule_based_mimic_witness :
  LeakageVectorOut.hk_protection
    (Probator.run_probator_fallback fixed_random
       (Mimicus.run_mimicus_fallback fixed_random amount_and_to_account))
  = lit "active"
  /\ LeakageVectorOut.details
       (Probator.run_probator_fallback fixed_random
          (Mimicus.run_mimicus_fallback fixed_random amount_and_to_account))
     = [(lit "entity_recovery", uniform fixed_random 0%nat 0.1 0.4);
        (lit "structure_fidelity", 1.0);
        (lit "semantic_drift", uniform fixed_random 1%nat 0.3 0.8);
        (lit "pattern_consistency", 1.0);
        (lit "field_mapping_accuracy",
         if dict_mem (DecryptedFieldsOut.entities amount_and_to_account)
              (lit "amount")
         then if dict_mem (DecryptedFieldsOut.entities amount_and_to_account)
                   (lit "to_account") then 0.8 else 0.4
         else if dict_mem (DecryptedFieldsOut.entities amount_and_to_account)
                   (lit "to_account") then 0.4 else 0.0)]%float.
Proof.
  apply (probe_of_rule_based_mimic fixed_random fixed_random
           amount_and_to_account).
  left. reflexivity.
Defined.

(** ** The protection analysis of the calibrator *)

Lemma mark_strong_iff (details : dict float) (k : str) (bound : float) :
  (if present_below details k bound then lit "strong" else lit "weak")
  = lit "strong"
  <-> exists v, dict_get details k = Some v /\ PyFloat.lt v bound = true.
Proof.
  unfold present_below. destruct (dict_get details k) as [v|].
  - destruct (PyFloat.lt v bound) eqn:E; split.
    + intros _. exists v. split; [reflexivity|exact E].
    + reflexivity.
    + discriminate.
    + intros [v' [Hv Hlt]]. injection Hv as <-. congruence.
  - split; [discriminate|]. intros [v [Hv _]]. discriminate Hv.
Qed.

(** X13. [analyze_hkp_effectiveness] never leaves a mark "unknown": each
    of the three is "strong" exactly when its factor is present and
    strictly below its bound (0.5, 0.6, 0.3), and "weak" otherwise, a
    missing factor included; the overall score is the number of strong
    marks divided by three. The leakage score itself is not read. *)
Theorem analyze_hkp_effectiveness_marks (leakage_assessment : LeakageVectorOut.t) :
  let details := LeakageVectorOut.details leakage_assessment in
  let a := analyze_hkp_effectiveness leakage_assessment in
  let marks :=
    [HkpAnalysis.role_protection a; HkpAnalysis.time_protection a;
     HkpAnalysis.pop_effectiveness a] in
  (forall p, In p marks -> p = lit "strong" \/ p = lit "weak")
  /\ (HkpAnalysis.role_protection a = lit "strong"
      <-> exists v, dict_get details (lit "pattern_consistency") = Some v
                    /\ (v <? 0.5)%float = true)
  /\ (HkpAnalysis.time_protection a = lit "strong"
      <-> exists v, dict_get details (lit "structure_fidelity") = Some v
                    /\ (v <? 0.6)%float = true)
  /\ (HkpAnalysis.pop_effectiveness a = lit "strong"
      <-> exists v, dict_get details (lit "field_mapping_accuracy") = Some v
                    /\ (v <? 0.3)%float = true)
  /\ HkpAnalysis.overall_hkp_score a
     = PyFloat.int_truediv
         (List.length (filter (fun p => PyStr.eqb p (lit "strong")) marks))
         3%nat
  /\ (forall score' : float,
        analyze_hkp_effectiveness
          (LeakageVectorOut.Build score' details
             (LeakageVectorOut.hk_protection leakage_assessment))
        = a).
Proof.
  cbv zeta. unfold analyze_hkp_effectiveness. cbv zeta.
  cbn [HkpAnalysis.role_protection HkpAnalysis.time_protection
       HkpAnalysis.pop_effectiveness HkpAnalysis.overall_hkp_score
       LeakageVectorOut.details].
  split; [|split; [apply mark_strong_iff|split; [apply mark_strong_iff|
           split; [apply mark_strong_iff|split]]]].
  - intros p [<-|[<-|[<-|[]]]];
      match goal with |- context [present_below ?d ?k ?b] =>
        destruct (present_below d k b) end; tauto.
  - destruct (present_below _ (lit "pattern_consistency") _);
      destruct (present_below _ (lit "structure_fidelity") _);
      destruct (present_below _ (lit "field_mapping_accuracy") _);
      vm_compute; reflexivity.
  - reflexivity.
Qed.

(** ** The calibration mode grows with the score *)

Section Mode_order.

Local Open Scope float_scope.

Lemma SFltb_leb_trans (x y z : spec_float) :
  SFltb x y = true -> SFleb y z = true -> SFltb x z = true.
Proof.
  unfold SFltb, SFleb, SFcompare.
  destruct x as [sx|sx| |sx mx ex], y as [sy|sy| |sy my ey], z as [sz|sz| |sz mz ez];
    try destruct sx; try destruct sy; try destruct sz;
    try discriminate; try reflexivity;
    rewrite ?Pos.compare_cont_spec; simpl Pos.switch_Eq;
    repeat match goal with
    | |- context [Z.compare ?a ?b] => destruct (Z.compare_spec a b)
    | |- context [Pos.compare ?a ?b] => destruct (Pos.compare_spec a b)
    end; simpl; try discriminate; try reflexivity; intros; lia.
Qed.

Lemma above_threshold (t s s' : float) :
  (s <=? s') = true -> (t <? s) = true -> (t <? s') = true.
Proof.
  rewrite leb_spec, !ltb_spec. intros H1 H2.
  eapply SFltb_leb_trans; eassumption.
Qed.

End Mode_order.

(** X14. The calibration mode is monotone in the score: a score at least
    as high never gives a milder mode, in the order "maintain",
    "fine_tune", "recalibrate", "aggressive_recalibrate",
    "emergency_recalibrate". *)
Theorem determine_calibration_mode_monotone (score score' : float) :
  (score <=? score')%float = true ->
  (mode_level (Praeceptor.determine_calibration_mode score)
   <= mode_level (Praeceptor.determine_calibration_mode score'))%nat.
Proof.
  intros H. unfold Praeceptor.determine_calibration_mode, PyFloat.gt.
  pose proof (above_threshold 0.7 _ _ H) as A7.
  pose proof (above_threshold 0.5 _ _ H) as A5.
  pose proof (above_threshold 0.3 _ _ H) as A3.
  pose proof (above_threshold 0.1 _ _ H) as A1.
  destruct (0.7 <? score)%float; [rewrite (A7 eq_refl); vm_compute; lia|].
  destruct (0.5 <? score)%float;
    [rewrite (A5 eq_refl); destruct (0.7 <? score')%float; vm_compute; lia|].
  destruct (0.3 <? score)%float;
    [rewrite (A3 eq_refl); destruct (0.7 <? score')%float;
     destruct (0.5 <? score')%float; vm_compute; lia|].
  destruct (0.1 <? score)%float;
    [rewrite (A1 eq_refl); destruct (0.7 <? score')%float;
     destruct (0.5 <? score')%float; destruct (0.3 <? score')%float;
     vm_compute; lia|].
  destruct (0.7 <? score')%float; destruct (0.5 <? score')%float;
    destruct (0.3 <? score')%float; destruct (0.1 <? score')%float;
    vm_compute; lia.
Qed.

(** X14 at the scores 0.2 and 0.6. *)
Lemma determine_calibration_mode_monotone_witness :
  (mode_level (Praeceptor.determine_calibration_mode 0.2)
   <= mode_level (Praeceptor.determine_calibration_mode 0.6))%nat.
Proof.
  apply determine_calibration_mode_monotone. reflexivity.
Defined.

(** ** One round of the agent chain *)

Section Round.





End Round.


(** ** What a rule-based round reads of its input *)

Section Names_only.




Variable float_str : float -> str.






End Names_only.



(** ** The intent of an instruction *)

Section Intent_words.

Lemma startswith_contains (s p : str) :
  PyStr.startswith s p = true -> PyStr.contains s p = true.
Proof. intros H. destruct s; cbn [PyStr.contains]; now rewrite H. Qed.

(** A text that contains a word contains the word less its first
    character. *)
Lemma contains_tail (s p : str) (c : N) :
  PyStr.contains s (c :: p) = true -> PyStr.contains s p = true.
Proof.
  induction s as [|x s IH]; cbn [PyStr.contains PyStr.startswith].
  - discriminate.
  - intros H. apply orb_true_iff in H as [H|H].
    + apply andb_true_iff in H as [_ H].
      rewrite (startswith_contains s p H). apply orb_true_r.
    + rewrite (IH H). apply orb_true_r.
Qed.

End Intent_words.

(** X17. [extract_intent] decides by the lowered instruction, in a fixed
    precedence. It returns "send_email" exactly when the text contains
    "mail" (the test for "email" adds nothing), even when "transfer",
    "send" or "book" occur as well; otherwise "transfer" exactly when it
    contains "transfer", "send" or "move"; otherwise "book_flight" exactly
    when it contains "book", "reserve" or "schedule"; and "unknown"
    otherwise. *)
Theorem extract_intent_precedence (str_lower : str -> str) (instruction : str) :
  let has := PyStr.contains (str_lower instruction) in
  let mail := has (lit "mail") in
  let move := has (lit "transfer") || has (lit "send") || has (lit "move") in
  let book := has (lit "book") || has (lit "reserve") || has (lit "schedule") in
  extract_intent str_lower instruction
  = (if mail then lit "send_email"
     else if move then lit "transfer"
     else if book then lit "book_flight"
     else lit "unknown")
  /\ (extract_intent str_lower instruction = lit "send_email" <-> mail = true)
  /\ (extract_intent str_lower instruction = lit "transfer"
      <-> mail = false /\ move = true)
  /\ (extract_intent str_lower instruction = lit "book_flight"
      <-> mail = false /\ move = false /\ book = true)
  /\ (extract_intent str_lower instruction = lit "unknown"
      <-> mail = false /\ move = false /\ book = false).
Proof.
  cbv zeta. unfold extract_intent. cbv zeta. cbn [existsb].
  rewrite !orb_false_r.
  assert (E : PyStr.contains (str_lower instruction) (lit "email")
              || PyStr.contains (str_lower instruction) (lit "mail")
              = PyStr.contains (str_lower instruction) (lit "mail")).
  { destruct (PyStr.contains (str_lower instruction) (lit "email")) eqn:H;
      [|reflexivity].
    change (lit "email") with (101%N :: lit "mail") in H.
    now rewrite (contains_tail _ _ _ H). }
  rewrite E, <- !orb_assoc.
  destruct (PyStr.contains (str_lower instruction) (lit "mail"));
    [repeat split; intros; try reflexivity; try discriminate;
     repeat match goal with H : _ /\ _ |- _ => destruct H end;
     try discriminate|].
  rewrite !orb_assoc.
  destruct (PyStr.contains (str_lower instruction) (lit "transfer")
            || PyStr.contains (str_lower instruction) (lit "send")
            || PyStr.contains (str_lower instruction) (lit "move"));
    [repeat split; intros; try reflexivity; try discriminate;
     repeat match goal with H : _ /\ _ |- _ => destruct H end;
     try discriminate|].
  destruct (PyStr.contains (str_lower instruction) (lit "book")
            || PyStr.contains (str_lower instruction) (lit "reserve")
            || PyStr.contains (str_lower instruction) (lit "schedule"));
    repeat split; intros; try reflexivity; try discriminate;
    repeat match goal with H : _ /\ _ |- _ => destruct H end;
    try discriminate.
Qed.

(** * The decryptor on arbitrary bundles *)

Section Decryptor_any.

Variable float_str : float -> str.

Lemma encodable_app (a b : str) :
  encodable (a ++ b) = encodable a && encodable b.
Proof. unfold encodable. apply forallb_app. Qed.

(** The key of a name: level "L4", strength 0.8; deriving it fails exactly
    on a base that cannot be encoded. *)
Lemma derive_role_key_l4 (name : str) :
  Decryptor.derive_role_key float_str name (lit "L4") default_theta
  = if encodable (name ++ lit "_L4_" ++ float_str 0.8%float)
    then Ok (l4_key float_str name)
    else Raise UnicodeEncodeError_Surrogates.
Proof.
  unfold Decryptor.derive_role_key, str_encode, l4_key, sha256_hex_prefix.
  cbv zeta.
  replace (dict_get_default default_theta (lit "cipher_strength") 0.8%float)
    with 0.8%float by reflexivity.
  replace (name ++ lit "_" ++ lit "L4" ++ lit "_" ++ float_str 0.8%float)
    with (name ++ lit "_L4_" ++ float_str 0.8%float) by reflexivity.
  destruct (encodable (name ++ lit "_L4_" ++ float_str 0.8%float));
    reflexivity.
Qed.

Lemma encodable_l4_base (name : str) :
  encodable (float_str 0.8%float) = true ->
  encodable (name ++ lit "_L4_" ++ float_str 0.8%float) = encodable name.
Proof.
  intros H. rewrite !encodable_app, H.
  replace (encodable (lit "_L4_")) with true by reflexivity.
  now rewrite !andb_true_r.
Qed.

Lemma decrypt_field_iterable (v : pyval) (key : str) :
  iterable v = true -> exists plain, Decryptor.decrypt_field v key = Ok plain.
Proof.
  intros H. unfold Decryptor.decrypt_field. cbv zeta.
  destruct v; try discriminate H; cbn [py_in bind];
    repeat (match goal with
            | |- context [if ?b then _ else _] => destruct b
            end; cbn [bind]);
    eexists; reflexivity.
Qed.

Lemma decrypt_field_not_iterable (v : pyval) (key : str) :
  iterable v = false ->
  Decryptor.decrypt_field v key = Raise TypeError_NotIterable.
Proof.
  intros H. unfold Decryptor.decrypt_field.
  destruct v; try discriminate H; reflexivity.
Qed.

End Decryptor_any.

(** ** The loop over the fields, for any field decryption *)

Section Loop.

Variable float_str : float -> str.
Variable D : pyval -> str -> result str.

Local Abbreviation loop :=
  (fold_left
     (fun (acc : result (dict str)) (item : str * pyval) =>
        bind acc (fun decrypted_fields =>
        let '(field_name, encrypted_value) := item in
        if PyStr.startswith field_name Tags.beta_xi_ then
          let entity_key := PyStr.slice_from 4 field_name in
          bind (Decryptor.derive_role_key float_str entity_key (lit "L4")
                  default_theta) (fun field_key =>
          bind (D encrypted_value field_key) (fun plain =>
          Ok (dict_set decrypted_fields entity_key plain)))
        else Ok decrypted_fields))).

Lemma loop_raise (fields : dict pyval) (e : exn) :
  loop fields (Raise e) = Raise e.
Proof. induction fields as [|item l IH]; [reflexivity|]. cbn [fold_left bind]. exact IH. Qed.

(** One turn: a field that is not entity-tagged is skipped; for an
    entity-tagged one the key of its name is derived and the value
    decrypted under it. *)
Lemma loop_cons (field_name : str) (encrypted_value : pyval)
    (fields : dict pyval) (d : dict str) :
  loop ((field_name, encrypted_value) :: fields) (Ok d)
  = loop fields
      (if PyStr.startswith field_name Tags.beta_xi_ then
         if encodable (PyStr.slice_from 4 field_name ++ lit "_L4_"
                       ++ float_str 0.8%float)
         then match D encrypted_value
                      (l4_key float_str (PyStr.slice_from 4 field_name)) with
              | Ok plain => Ok (dict_set d (PyStr.slice_from 4 field_name) plain)
              | Raise e => Raise e
              end
         else Raise UnicodeEncodeError_Surrogates
       else Ok d).
Proof.
  cbn [fold_left]. f_equal. cbn [bind].
  destruct (PyStr.startswith field_name Tags.beta_xi_); [|reflexivity].
  cbv zeta. rewrite derive_role_key_l4.
  destruct (encodable _); [|reflexivity]. cbn [bind].
  destruct (D _ _); reflexivity.
Qed.

(** Every entity-tagged field leaves an entry under its name. *)
Lemma loop_entries_complete (fields : dict pyval) (d0 d : dict str) (n : str) :
  loop fields (Ok d0) = Ok d ->
  dict_mem d0 n = true
  \/ (exists field_name encrypted_value,
        In (field_name, encrypted_value) fields
        /\ PyStr.startswith field_name Tags.beta_xi_ = true
        /\ n = PyStr.slice_from 4 field_name) ->
  dict_mem d n = true.
Proof.
  revert d0. induction fields as [|[fname ev] l IH]; intros d0 H Hn.
  - cbn [fold_left] in H. injection H as <-.
    destruct Hn as [Hn|[f [v [[] _]]]]. exact Hn.
  - rewrite loop_cons in H.
    destruct (PyStr.startswith fname Tags.beta_xi_) eqn:Es.
    + destruct (encodable _); [|rewrite loop_raise in H; discriminate H].
      destruct (D ev _) as [plain|e]; [|rewrite loop_raise in H; discriminate H].
      apply (IH _ H). rewrite dict_mem_set.
      destruct Hn as [Hn|[f [v [[Heq|Hin] [Hs Hname]]]]].
      * left. rewrite Hn. apply orb_true_r.
      * left. injection Heq as <- <-. subst n. now rewrite str_eqb_refl.
      * right. exists f, v. repeat split; assumption.
    + apply (IH _ H).
      destruct Hn as [Hn|[f [v [[Heq|Hin] [Hs Hname]]]]].
      * left. exact Hn.
      * injection Heq as <- <-. congruence.
      * right. exists f, v. repeat split; assumption.
Qed.

(** Every entry the loop adds is the decryption of an entity-tagged field
    under the key of its name for level "L4" and strength 0.8. *)
Lemma loop_entries_sound (fields : dict pyval) (d0 d : dict str)
    (n plain : str) :
  loop fields (Ok d0) = Ok d ->
  In (n, plain) d ->
  In (n, plain) d0
  \/ (exists field_name encrypted_value,
        In (field_name, encrypted_value) fields
        /\ PyStr.startswith field_name Tags.beta_xi_ = true
        /\ n = PyStr.slice_from 4 field_name
        /\ D encrypted_value (l4_key float_str n) = Ok plain).
Proof.
  revert d0. induction fields as [|[fname ev] l IH]; intros d0 H Hin.
  - cbn [fold_left] in H. injection H as <-. now left.
  - rewrite loop_cons in H.
    destruct (PyStr.startswith fname Tags.beta_xi_) eqn:Es.
    + destruct (encodable _); [|rewrite loop_raise in H; discriminate H].
      destruct (D ev _) as [p|e] eqn:ED;
        [|rewrite loop_raise in H; discriminate H].
      destruct (IH _ H Hin) as [Hd|[f [v [Hl [Hs [Hname HD]]]]]].
      * apply dict_set_In in Hd as [Heq|Hd]; [|now left].
        injection Heq as -> ->. right. exists fname, ev.
        repeat split; try assumption. now left.
      * right. exists f, v. repeat split; try assumption. now right.
    + destruct (IH _ H Hin) as [Hd|[f [v [Hl [Hs [Hname HD]]]]]];
        [now left|].
      right. exists f, v. repeat split; try assumption. now right.
Qed.

(** When the field decryption raises exactly on the values that are not
    iterable, the loop returns exactly on the fields whose entity names can
    be encoded and whose entity values are iterable. *)
Lemma loop_ok_iff (fields : dict pyval) (d0 : dict str) :
  encodable (float_str 0.8%float) = true ->
  (forall v k, iterable v = true -> exists plain, D v k = Ok plain) ->
  (forall v k, iterable v = false -> D v k = Raise TypeError_NotIterable) ->
  (exists d, loop fields (Ok d0) = Ok d)
  <-> forallb
        (fun item : str * pyval =>
           if PyStr.startswith (fst item) Tags.beta_xi_
           then encodable (PyStr.slice_from 4 (fst item))
                && iterable (snd item)
           else true)
        fields = true.
Proof.
  intros H08 Hok Herr. revert d0.
  induction fields as [|[fname ev] l IH]; intros d0.
  - cbn. split; [reflexivity|]. intros _. now exists d0.
  - rewrite loop_cons. cbn [forallb fst snd].
    destruct (PyStr.startswith fname Tags.beta_xi_).
    + rewrite encodable_l4_base by exact H08.
      destruct (encodable (PyStr.slice_from 4 fname)).
      * destruct (iterable ev) eqn:Ei.
        -- destruct (Hok ev (l4_key float_str (PyStr.slice_from 4 fname)) Ei)
             as [plain ->].
           cbn [andb]. apply IH.
        -- rewrite (Herr ev _ Ei), loop_raise. cbn [andb].
           split; [intros [d Hd]|]; discriminate.
      * rewrite loop_raise. cbn [andb].
        split; [intros [d Hd]|]; discriminate.
    + cbn [andb]. apply IH.
Qed.

Lemma loop_errors (fields : dict pyval) (d0 : dict str) (e : exn) :
  (forall v k e', D v k = Raise e' -> e' = TypeError_NotIterable) ->
  loop fields (Ok d0) = Raise e ->
  e = TypeError_NotIterable \/ e = UnicodeEncodeError_Surrogates.
Proof.
  intros HD. revert d0. induction fields as [|[fname ev] l IH]; intros d0 H.
  - discriminate H.
  - rewrite loop_cons in H.
    destruct (PyStr.startswith fname Tags.beta_xi_); [|now apply (IH d0)].
    destruct (encodable _);
      [|rewrite loop_raise in H; injection H as <-; now right].
    destruct (D ev _) as [p|e'] eqn:ED; [now apply (IH _ H)|].
    rewrite loop_raise in H. injection H as <-. left. eapply HD, ED.
Qed.

End Loop.

(** ** [decrypt_hkp_fields] and [run_decryptor] *)

Section Recovery.

Variable float_str : float -> str.

Lemma bind_ok {A B : Type} (r : result A) (k : A -> result B) (b : B) :
  bind r k = Ok b -> exists a, r = Ok a /\ k a = Ok b.
Proof.
  destruct r as [a|e]; cbn [bind]; [|discriminate].
  intros H. now exists a.
Qed.

Lemma dict_get_In {V : Type} (d : dict V) (k : str) (v : V) :
  dict_get d k = Some v -> In (k, v) d.
Proof.
  induction d as [|[k' v'] d IH]; cbn [dict_get]; [discriminate|].
  destruct (PyStr.eqb k' k) eqn:E.
  - intros H. injection H as <-. apply str_eqb_eq in E. subst k'. now left.
  - intros H. right. now apply IH.
Qed.

(** The entry of the intent, before the loop. *)
Lemma intent_entry (D : pyval -> str -> result str) (fields : dict pyval) :
  match dict_get fields Tags.omega_alpha with
  | Some v =>
      bind (Decryptor.derive_role_key float_str (lit "intent") (lit "L4")
              default_theta) (fun intent_key =>
      bind (D v intent_key) (fun plain =>
      Ok (dict_set [] (lit "intent") plain)))
  | None => Ok (dict_set [] (lit "intent") (lit "transfer"))
  end
  = match dict_get fields Tags.omega_alpha with
    | Some v =>
        if encodable (float_str 0.8%float) then
          match D v (l4_key float_str (lit "intent")) with
          | Ok plain => Ok [(lit "intent", plain)]
          | Raise e => Raise e
          end
        else Raise UnicodeEncodeError_Surrogates
    | None => Ok [(lit "intent", lit "transfer")]
    end.
Proof.
  destruct (dict_get fields Tags.omega_alpha) as [v|]; [|reflexivity].
  rewrite derive_role_key_l4, !encodable_app.
  replace (encodable (lit "intent")) with true by reflexivity.
  replace (encodable (lit "_L4_")) with true by reflexivity.
  cbn [andb]. destruct (encodable (float_str 0.8%float)); [|reflexivity].
  cbn [bind]. destruct (D v _); reflexivity.
Qed.

(** Under any field decryption, every entity-tagged field leaves an entry
    under its name, and the intent has one. *)
Lemma decrypt_hkp_fields_with_complete (D : pyval -> str -> result str)
    (fields : dict pyval) (role_tag : str) (d : dict str) :
  Decryptor.decrypt_hkp_fields_with float_str D fields role_tag = Ok d ->
  dict_mem d (lit "intent") = true
  /\ forall field_name encrypted_value,
       In (field_name, encrypted_value) fields ->
       PyStr.startswith field_name Tags.beta_xi_ = true ->
       dict_mem d (PyStr.slice_from 4 field_name) = true.
Proof.
  unfold Decryptor.decrypt_hkp_fields_with. cbv zeta. rewrite intent_entry.
  intros H. apply bind_ok in H as [d0 [H0 L]].
  assert (M0 : dict_mem d0 (lit "intent") = true).
  { destruct (dict_get fields Tags.omega_alpha) as [v|].
    - destruct (encodable (float_str 0.8%float)); [|discriminate H0].
      destruct (D v _) as [plain|e]; [|discriminate H0].
      injection H0 as <-. reflexivity.
    - injection H0 as <-. reflexivity. }
  split.
  - eapply loop_entries_complete; [exact L|]. now left.
  - intros fname ev Hin Hs.
    eapply loop_entries_complete; [exact L|].
    right. exists fname, ev. repeat split; assumption.
Qed.

(** Under any field decryption, every entry is the intent entry or the
    decryption of an entity-tagged field under the key of its name for
    level "L4" and strength 0.8. *)
Lemma decrypt_hkp_fields_with_sound (D : pyval -> str -> result str)
    (fields : dict pyval) (role_tag : str) (d : dict str) (n plain : str) :
  Decryptor.decrypt_hkp_fields_with float_str D fields role_tag = Ok d ->
  In (n, plain) d ->
  (n = lit "intent"
   /\ match dict_get fields Tags.omega_alpha with
      | Some v => D v (l4_key float_str (lit "intent")) = Ok plain
      | None => plain = lit "transfer"
      end)
  \/ (exists field_name encrypted_value,
        In (field_name, encrypted_value) fields
        /\ PyStr.startswith field_name Tags.beta_xi_ = true
        /\ n = PyStr.slice_from 4 field_name
        /\ D encrypted_value (l4_key float_str n) = Ok plain).
Proof.
  unfold Decryptor.decrypt_hkp_fields_with. cbv zeta. rewrite intent_entry.
  intros H Hin.
  destruct (dict_get fields Tags.omega_alpha) as [v|].
  - destruct (encodable (float_str 0.8%float));
      [|cbn [bind] in H; discriminate H].
    destruct (D v _) as [p|e] eqn:ED; [|cbn [bind] in H; discriminate H].
    cbn [bind] in H.
    destruct (loop_entries_sound float_str D fields _ d n plain H Hin)
      as [[Heq|[]]|Hf]; [|now right].
    injection Heq as <- <-. left. split; reflexivity.
  - cbn [bind] in H.
    destruct (loop_entries_sound float_str D fields _ d n plain H Hin)
      as [[Heq|[]]|Hf]; [|now right].
    injection Heq as <- <-. left. split; reflexivity.
Qed.

(** [decrypt_hkp_fields] returns exactly on the readable fields, and
    raises nothing but the two errors of its built-ins. *)
Lemma decrypt_hkp_fields_ok_iff (fields : dict pyval) (role_tag : str) :
  encodable (float_str 0.8%float) = true ->
  (exists d, Decryptor.decrypt_hkp_fields float_str fields role_tag = Ok d)
  <-> Decryptor.readable fields = true.
Proof.
  intros H08. unfold Decryptor.decrypt_hkp_fields,
    Decryptor.decrypt_hkp_fields_with, Decryptor.readable.
  cbv zeta. rewrite intent_entry, H08.
  destruct (dict_get fields Tags.omega_alpha) as [v|].
  - destruct (iterable v) eqn:Ei.
    + destruct (decrypt_field_iterable v (l4_key float_str (lit "intent")) Ei)
        as [plain ->].
      cbn [bind andb].
      apply loop_ok_iff; [exact H08|apply decrypt_field_iterable|
                          apply decrypt_field_not_iterable].
    + rewrite (decrypt_field_not_iterable v _ Ei). cbn [bind andb].
      split; [intros [d Hd]|]; discriminate.
  - cbn [bind andb].
    apply loop_ok_iff; [exact H08|apply decrypt_field_iterable|
                        apply decrypt_field_not_iterable].
Qed.

Lemma decrypt_field_errors (v : pyval) (key : str) (e : exn) :
  Decryptor.decrypt_field v key = Raise e -> e = TypeError_NotIterable.
Proof.
  destruct (iterable v) eqn:Ei.
  - destruct (decrypt_field_iterable v key Ei) as [plain ->]. discriminate.
  - rewrite (decrypt_field_not_iterable v key Ei). congruence.
Qed.

Lemma decrypt_hkp_fields_errors (fields : dict pyval) (role_tag : str)
    (e : exn) :
  Decryptor.decrypt_hkp_fields float_str fields role_tag = Raise e ->
  e = TypeError_NotIterable \/ e = UnicodeEncodeError_Surrogates.
Proof.
  unfold Decryptor.decrypt_hkp_fields, Decryptor.decrypt_hkp_fields_with.
  cbv zeta. rewrite intent_entry.
  destruct (dict_get fields Tags.omega_alpha) as [v|].
  - destruct (encodable (float_str 0.8%float));
      [|cbn [bind]; intros H; injection H as <-; now right].
    destruct (Decryptor.decrypt_field v _) as [plain|e'] eqn:ED.
    + cbn [bind]. apply loop_errors. apply decrypt_field_errors.
    + cbn [bind]. intros H. injection H as <-. left.
      eapply decrypt_field_errors, ED.
  - cbn [bind]. apply loop_errors. apply decrypt_field_errors.
Qed.

End Recovery.

(** ** The payload of the signature can always be encoded *)

Section Payload.

Lemma hex_lower_not_surrogate (c : N) :
  is_hex_lower c = true -> is_surrogate c = false.
Proof.
  unfold is_hex_lower, is_surrogate. intros H.
  apply andb_false_iff. left. apply N.leb_gt.
  apply orb_true_iff in H as [H|H]; apply andb_true_iff in H as [H1 H2];
    apply N.leb_le in H1, H2; lia.
Qed.

Lemma hex_digit_not_surrogate (z : Z) :
  is_surrogate (Sha256.hex_digit (Z.land z 0xF)) = false.
Proof.
  apply hex_lower_not_surrogate, hex_digit_lower.
  change 0xF with (Z.ones 4). rewrite Z.land_ones by lia.
  apply Z.mod_pos_bound. reflexivity.
Qed.

Lemma u_escape_encodable (c : N) : encodable (Json.u_escape c) = true.
Proof.
  unfold Json.u_escape, Json.hex4, encodable. cbn [forallb].
  rewrite !hex_digit_not_surrogate. reflexivity.
Qed.

Lemma escape_char_encodable (c : N) : encodable (Json.escape_char c) = true.
Proof.
  unfold Json.escape_char.
  repeat match goal with
         | |- context [if N.eqb c ?k then _ else _] =>
             destruct (N.eqb c k); [reflexivity|]
         end.
  destruct (N.leb 32 c && N.leb c 126)%bool eqn:E.
  - apply andb_true_iff in E as [_ E]. apply N.leb_le in E.
    unfold encodable, is_surrogate. cbn [forallb].
    replace (N.leb 0xD800 c) with false
      by (symmetry; apply N.leb_gt; lia).
    reflexivity.
  - destruct (N.ltb c 0x10000); [apply u_escape_encodable|].
    cbv zeta. rewrite encodable_app, !u_escape_encodable. reflexivity.
Qed.

Lemma encode_string_encodable (s : str) :
  encodable (Json.encode_string s) = true.
Proof.
  unfold Json.encode_string.
  change (34%N :: flat_map Json.escape_char s ++ [34%N])
    with ([34%N] ++ flat_map Json.escape_char s ++ [34%N]).
  rewrite !encodable_app.
  replace (encodable [34%N]) with true by reflexivity.
  rewrite andb_true_r. cbn [andb].
  induction s as [|c s IH]; [reflexivity|].
  cbn [flat_map]. now rewrite encodable_app, escape_char_encodable, IH.
Qed.

Lemma digits_encodable (fuel : nat) (n : N) (acc : str) :
  encodable acc = true -> encodable (PyStr.digits_fuel fuel n acc) = true.
Proof.
  revert n acc. induction fuel as [|f IH]; intros n acc H; [exact H|].
  cbn [PyStr.digits_fuel].
  assert (A : encodable ((48 + n mod 10)%N :: acc) = true).
  { unfold encodable in *. cbn [forallb]. rewrite H, andb_true_r.
    unfold is_surrogate.
    replace (N.leb 0xD800 (48 + n mod 10)) with false; [reflexivity|].
    symmetry. apply N.leb_gt.
    pose proof (N.mod_upper_bound n 10 ltac:(discriminate)). lia. }
  destruct (N.ltb n 10); [exact A|]. apply IH. exact A.
Qed.

Lemma int_str_encodable (z : Z) : encodable (int_str z) = true.
Proof.
  unfold int_str, PyStr.of_N.
  destruct (z <? 0)%Z; [rewrite encodable_app|];
    rewrite digits_encodable; reflexivity.
Qed.

Lemma join_comma_encodable (items : list str) :
  Forall (fun s => encodable s = true) items ->
  encodable (join_comma items) = true.
Proof.
  induction 1 as [|x l Hx Hl IH]; [reflexivity|].
  cbn [join_comma]. destruct l as [|y l]; [exact Hx|].
  rewrite !encodable_app, Hx, IH. reflexivity.
Qed.

(** Induction on a value, through its lists and dictionaries. *)
Lemma pyval_nested_ind (P : pyval -> Prop) :
  P VNone ->
  (forall b, P (VBool b)) ->
  (forall z, P (VInt z)) ->
  (forall x, P (VFloat x)) ->
  (forall s, P (VStr s)) ->
  (forall l, Forall P l -> P (VList l)) ->
  (forall d, Forall (fun kv => P (snd kv)) d -> P (VDict d)) ->
  forall v, P v.
Proof.
  intros HN HB HI HF HS HL HD.
  fix IH 1. intros [ |b|z|x|s|l|d].
  - exact HN.
  - apply HB.
  - apply HI.
  - apply HF.
  - apply HS.
  - apply HL. induction l as [|v l IHl]; constructor; [apply IH|exact IHl].
  - apply HD. induction d as [|[k v] d IHd]; constructor;
      [apply IH|exact IHd].
Qed.

Variable float_str : float -> str.
Hypothesis float_str_encodable : forall x, encodable (float_str x) = true.

Lemma float_json_encodable (x : float) :
  encodable (float_json float_str x) = true.
Proof.
  unfold float_json.
  destruct (PrimFloat.is_nan x); [reflexivity|].
  destruct (PrimFloat.eqb x PrimFloat.infinity); [reflexivity|].
  destruct (PrimFloat.eqb x PrimFloat.neg_infinity); [reflexivity|].
  apply float_str_encodable.
Qed.

Lemma dumps_encodable (v : pyval) : encodable (dumps float_str v) = true.
Proof.
  induction v as [ |b|z|x|s|l IH|d IH] using pyval_nested_ind.
  - reflexivity.
  - destruct b; reflexivity.
  - apply int_str_encodable.
  - apply float_json_encodable.
  - apply encode_string_encodable.
  - cbn [dumps]. rewrite !encodable_app, join_comma_encodable; [reflexivity|].
    apply Forall_map. exact IH.
  - cbn [dumps]. rewrite !encodable_app, join_comma_encodable; [reflexivity|].
    apply Forall_map.
    eapply Permutation_Forall; [apply Permutation_sym, sort_items_perm|].
    apply Forall_map. eapply Forall_impl; [|exact IH].
    intros [k v] Hv. unfold encode_member. cbn [fst snd] in *.
    now rewrite !encodable_app, encode_string_encodable, Hv.
Qed.

(** Verification returns: it compares the recomputed tag with the
    signature. *)
Lemma verify_pop_signature_returns (fields : dict pyval) (sig : str) :
  Decryptor.verify_pop_signature float_str fields sig
  = Ok (PyStr.eqb (Decryptor.tag_of float_str fields) sig).
Proof.
  unfold Decryptor.verify_pop_signature, Decryptor.tag_of, str_encode.
  cbv zeta. rewrite dumps_encodable. reflexivity.
Qed.

End Payload.

(** ** The keys the loop derives *)

Section Keys.

Variable float_str : float -> str.

(** With a field decryption that hands back its key, the entry of every
    entity name is the key of that name for level "L4" and strength 0.8. *)
Lemma loop_reveals_l4_keys (fields : dict pyval) (d0 d : dict str) (n : str) :
  fold_left
    (fun (acc : result (dict str)) (item : str * pyval) =>
       bind acc (fun decrypted_fields =>
       let '(field_name, encrypted_value) := item in
       if PyStr.startswith field_name Tags.beta_xi_ then
         let entity_key := PyStr.slice_from 4 field_name in
         bind (Decryptor.derive_role_key float_str entity_key (lit "L4")
                 default_theta) (fun field_key =>
         bind (reveal_key encrypted_value field_key) (fun plain =>
         Ok (dict_set decrypted_fields entity_key plain)))
       else Ok decrypted_fields))
    fields (Ok d0) = Ok d ->
  dict_get d0 n = Some (l4_key float_str n)
  \/ (exists field_name encrypted_value,
        In (field_name, encrypted_value) fields
        /\ PyStr.startswith field_name Tags.beta_xi_ = true
        /\ n = PyStr.slice_from 4 field_name) ->
  dict_get d n = Some (l4_key float_str n).
Proof.
  revert d0. induction fields as [|[fname ev] l IH]; intros d0 H Hn.
  - cbn [fold_left] in H. injection H as <-.
    destruct Hn as [Hn|[f [v [[] _]]]]. exact Hn.
  - rewrite (loop_cons float_str reveal_key) in H.
    destruct (PyStr.startswith fname Tags.beta_xi_) eqn:Es.
    + destruct (encodable _);
        [|rewrite (loop_raise float_str reveal_key) in H; discriminate H].
      unfold reveal_key at 1 in H. apply (IH _ H).
      destruct (PyStr.eqb (PyStr.slice_from 4 fname) n) eqn:E.
      * apply str_eqb_eq in E. subst n. left. apply dict_get_set_same.
      * rewrite (dict_get_set_other _ _ _ _ E).
        destruct Hn as [Hn|[f [v [[Heq|Hin] [Hs Hname]]]]].
        -- now left.
        -- injection Heq as <- <-. subst n.
           rewrite str_eqb_refl in E. discriminate E.
        -- right. exists f, v. repeat split; assumption.
    + apply (IH _ H).
      destruct Hn as [Hn|[f [v [[Heq|Hin] [Hs Hname]]]]].
      * now left.
      * injection Heq as <- <-. congruence.
      * right. exists f, v. repeat split; assumption.
Qed.

Lemma decrypt_hkp_fields_reveals_l4_keys (fields : dict pyval)
    (role_tag : str) (d : dict str) :
  Decryptor.decrypt_hkp_fields_with float_str reveal_key fields role_tag = Ok d ->
  forall field_name encrypted_value,
    In (field_name, encrypted_value) fields ->
    PyStr.startswith field_name Tags.beta_xi_ = true ->
    dict_get d (PyStr.slice_from 4 field_name)
    = Some (l4_key float_str (PyStr.slice_from 4 field_name)).
Proof.
  unfold Decryptor.decrypt_hkp_fields_with. cbv zeta.
  intros H fname ev Hin Hs. apply bind_ok in H as [d0 [_ L]].
  eapply loop_reveals_l4_keys; [exact L|].
  right. exists fname, ev. repeat split; assumption.
Qed.

End Keys.

(** ** The errors of [run_decryptor] *)

Section Outcomes.

Variable float_str : float -> str.
Hypothesis float_str_encodable : forall x, encodable (float_str x) = true.

(** [run_decryptor] after verification. *)
Lemma run_decryptor_unfold (inp : Decryptor.EncryptedOutput.t) :
  Decryptor.run_decryptor float_str inp
  = if PyStr.eqb
         (Decryptor.tag_of float_str (Decryptor.EncryptedOutput.encrypted_fields inp))
         (Decryptor.EncryptedOutput.pop_signature inp)
    then
      match Decryptor.decrypt_hkp_fields float_str
              (Decryptor.EncryptedOutput.encrypted_fields inp)
              (Decryptor.EncryptedOutput.role_tag inp) with
      | Ok decrypted_fields =>
          Ok (DecryptedFieldsOut.Build (lit "transfer")
                (filter (fun kv => negb (PyStr.eqb (fst kv) (lit "intent")))
                   decrypted_fields)
                (auth_grade_of (Decryptor.EncryptedOutput.role_tag inp))
                (Decryptor.EncryptedOutput.time_tag inp)
                (lit "queued"))
      | Raise e => Raise e
      end
    else Raise ValueError_InvalidPoP.
Proof.
  unfold Decryptor.run_decryptor.
  rewrite (verify_pop_signature_returns float_str float_str_encodable).
  cbn [bind]. destruct (PyStr.eqb _ _); [|reflexivity].
  cbn [negb]. destruct (Decryptor.decrypt_hkp_fields _ _ _); reflexivity.
Qed.

Lemma run_decryptor_returns_iff (inp : Decryptor.EncryptedOutput.t) :
  PyStr.eqb
    (Decryptor.tag_of float_str (Decryptor.EncryptedOutput.encrypted_fields inp))
    (Decryptor.EncryptedOutput.pop_signature inp) = true ->
  (exists r, Decryptor.run_decryptor float_str inp = Ok r)
  <-> Decryptor.readable (Decryptor.EncryptedOutput.encrypted_fields inp) = true.
Proof.
  intros V. rewrite run_decryptor_unfold, V.
  rewrite <- (decrypt_hkp_fields_ok_iff float_str
                (Decryptor.EncryptedOutput.encrypted_fields inp)
                (Decryptor.EncryptedOutput.role_tag inp)
                (float_str_encodable 0.8%float)).
  destruct (Decryptor.decrypt_hkp_fields _ _ _) as [d|e].
  - split; intros _; eexists; reflexivity.
  - split; intros [x Hx]; discriminate Hx.
Qed.

End Outcomes.

(** The signatures of the example bundles, as [hashlib] and [json] give
    them for the same fields. *)
Example example_bundle_signatures :
  List.map Decryptor.EncryptedOutput.pop_signature
    [surrogate_name_bundle; integer_intent_bundle; none_value_bundle;
     surrogate_amount_bundle; mixed_bundle]
  = [lit "da5cfac7d14f"; lit "db0673f61537"; lit "933afca82505";
     lit "22da8da5dadd"; lit "29a54546f2d1"].
Proof. vm_compute. reflexivity. Qed.

(** C4. When the text of a float can be encoded, verification always
    returns, and [run_decryptor] raises the signature error exactly when
    it returns false. When it returns true, [run_decryptor] returns a
    result exactly when the fields are readable (the value under "Ωα" and
    the values of the entity-tagged fields are strings, lists or
    dictionaries, and no entity name holds a lone surrogate); on the other
    verified bundles it raises a type error or an encoding error. *)
Theorem run_decryptor_signature_error_and_others (float_str : float -> str)
    (inp : Decryptor.EncryptedOutput.t) :
  (forall x, encodable (float_str x) = true) ->
  let fields := Decryptor.EncryptedOutput.encrypted_fields inp in
  let verified :=
    PyStr.eqb (Decryptor.tag_of float_str fields)
      (Decryptor.EncryptedOutput.pop_signature inp) in
  Decryptor.verify_pop_signature float_str fields
    (Decryptor.EncryptedOutput.pop_signature inp) = Ok verified
  /\ (Decryptor.run_decryptor float_str inp = Raise ValueError_InvalidPoP
      <-> verified = false)
  /\ (verified = true ->
      ((exists r, Decryptor.run_decryptor float_str inp = Ok r)
       <-> Decryptor.readable fields = true)
      /\ (Decryptor.readable fields = false ->
          Decryptor.run_decryptor float_str inp = Raise TypeError_NotIterable
          \/ Decryptor.run_decryptor float_str inp
             = Raise UnicodeEncodeError_Surrogates)).
Proof.
  intros Hf. cbv zeta. split; [|split].
  - apply verify_pop_signature_returns. exact Hf.
  - rewrite (run_decryptor_unfold float_str Hf).
    destruct (PyStr.eqb _ _).
    + split; [|discriminate].
      destruct (Decryptor.decrypt_hkp_fields _ _ _) as [d|e] eqn:E;
        [discriminate|].
      intros H. injection H as ->.
      apply decrypt_hkp_fields_errors in E as [E|E]; discriminate E.
    + split; reflexivity.
  - intros V. split; [apply run_decryptor_returns_iff; assumption|].
    intros R. rewrite (run_decryptor_unfold float_str Hf), V.
    destruct (Decryptor.decrypt_hkp_fields _ _ _) as [d|e] eqn:E.
    + assert (Decryptor.readable
                (Decryptor.EncryptedOutput.encrypted_fields inp) = true) as R'.
      { apply (decrypt_hkp_fields_ok_iff float_str _
                 (Decryptor.EncryptedOutput.role_tag inp) (Hf 0.8%float)).
        now exists d. }
      congruence.
    + apply decrypt_hkp_fields_errors in E as [->| ->]; [now left|now right].
Qed.

(** C4 at a verified bundle with values of several kinds: it is readable,
    and recovered. *)
Lemma run_decryptor_signature_error_and_others_witness :
  exists r, Decryptor.run_decryptor float_str_default mixed_bundle = Ok r.
Proof.
  destruct (run_decryptor_signature_error_and_others float_str_default
              mixed_bundle (fun x => eq_refl)) as [_ [_ H]].
  apply (H eq_refl). reflexivity.
Defined.

(** C4, as stated, fails: the signatures of two bundles verify and
    [run_decryptor] raises another error on each, an encoding error for an
    entity name with a lone surrogate, a type error for an integer under
    "Ωα". *)
Lemma run_decryptor_raises_on_verified_bundles :
  Decryptor.verify_pop_signature float_str_default
    (Decryptor.EncryptedOutput.encrypted_fields surrogate_name_bundle)
    (Decryptor.EncryptedOutput.pop_signature surrogate_name_bundle) = Ok true
  /\ Decryptor.run_decryptor float_str_default surrogate_name_bundle
     = Raise UnicodeEncodeError_Surrogates
  /\ Decryptor.verify_pop_signature float_str_default
       (Decryptor.EncryptedOutput.encrypted_fields integer_intent_bundle)
       (Decryptor.EncryptedOutput.pop_signature integer_intent_bundle) = Ok true
  /\ Decryptor.run_decryptor float_str_default integer_intent_bundle
     = Raise TypeError_NotIterable.
Proof. repeat split; vm_compute; reflexivity. Qed.

(** C10. When the text of a float can be encoded, [run_decryptor] returns
    on every verified bundle it can read, and every result it returns has
    the intent "transfer" and the status "queued". Its keys are derived
    with level "L4" and strength 0.8 whatever the role tag: for every
    field decryption put in the place of [decrypt_field], the outcome of
    [decrypt_hkp_fields] does not depend on the role tag; when it returns,
    every entity-tagged field has an entry under its name, and every entry
    is the intent entry or the decryption of such a field under the key
    "HKP_" + sha256(name + "_L4_" + str(0.8))[:8]; and with a field
    decryption that hands back its key, the entry of every entity name is
    that key. *)
Theorem run_decryptor_constants_and_l4_keys (float_str : float -> str)
    (inp : Decryptor.EncryptedOutput.t) :
  (forall x, encodable (float_str x) = true) ->
  let fields := Decryptor.EncryptedOutput.encrypted_fields inp in
  let role_tag := Decryptor.EncryptedOutput.role_tag inp in
  (Decryptor.verify_pop_signature float_str fields
     (Decryptor.EncryptedOutput.pop_signature inp) = Ok true ->
   Decryptor.readable fields = true ->
   exists r, Decryptor.run_decryptor float_str inp = Ok r)
  /\ (forall r, Decryptor.run_decryptor float_str inp = Ok r ->
                DecryptedFieldsOut.intent r = lit "transfer"
                /\ DecryptedFieldsOut.exec_status r = lit "queued")
  /\ (forall (D : pyval -> str -> result str) (role_tag' : str),
        Decryptor.decrypt_hkp_fields_with float_str D fields role_tag
        = Decryptor.decrypt_hkp_fields_with float_str D fields role_tag')
  /\ (forall (D : pyval -> str -> result str) (d : dict str),
        Decryptor.decrypt_hkp_fields_with float_str D fields role_tag = Ok d ->
        (forall field_name encrypted_value,
           In (field_name, encrypted_value) fields ->
           PyStr.startswith field_name Tags.beta_xi_ = true ->
           dict_mem d (PyStr.slice_from 4 field_name) = true)
        /\ (forall n plain,
              In (n, plain) d ->
              (n = lit "intent"
               /\ match dict_get fields Tags.omega_alpha with
                  | Some v => D v (l4_key float_str (lit "intent")) = Ok plain
                  | None => plain = lit "transfer"
                  end)
              \/ (exists field_name encrypted_value,
                    In (field_name, encrypted_value) fields
                    /\ PyStr.startswith field_name Tags.beta_xi_ = true
                    /\ n = PyStr.slice_from 4 field_name
                    /\ D encrypted_value
                         (lit "HKP_"
                          ++ sha256_hex_prefix 8
                               (n ++ lit "_L4_" ++ float_str 0.8%float))
                       = Ok plain)))
  /\ (forall d : dict str,
        Decryptor.decrypt_hkp_fields_with float_str reveal_key fields role_tag
        = Ok d ->
        forall field_name encrypted_value,
          In (field_name, encrypted_value) fields ->
          PyStr.startswith field_name Tags.beta_xi_ = true ->
          dict_get d (PyStr.slice_from 4 field_name)
          = Some (lit "HKP_"
                  ++ sha256_hex_prefix 8
                       (PyStr.slice_from 4 field_name ++ lit "_L4_"
                        ++ float_str 0.8%float))).
Proof.
  intros Hf. cbv zeta. split; [|split; [|split; [|split]]].
  - rewrite (verify_pop_signature_returns float_str Hf).
    intros V R. injection V as V.
    apply (run_decryptor_returns_iff float_str Hf inp V). exact R.
  - intros r. rewrite (run_decryptor_unfold float_str Hf).
    destruct (PyStr.eqb _ _); [|discriminate].
    destruct (Decryptor.decrypt_hkp_fields _ _ _); [|discriminate].
    intros H. injection H as <-. split; reflexivity.
  - reflexivity.
  - intros D d H. split.
    + apply (decrypt_hkp_fields_with_complete float_str D _ _ _ H).
    + intros n plain Hin.
      apply (decrypt_hkp_fields_with_sound float_str D _ _ _ _ _ H Hin).
  - intros d H. apply (decrypt_hkp_fields_reveals_l4_keys float_str _ _ _ H).
Qed.

(** C10 at the verified bundle with values of several kinds. *)
Lemma run_decryptor_constants_and_l4_keys_witness :
  exists r, Decryptor.run_decryptor float_str_default mixed_bundle = Ok r
            /\ DecryptedFieldsOut.intent r = lit "transfer"
            /\ DecryptedFieldsOut.exec_status r = lit "queued".
Proof.
  destruct (run_decryptor_constants_and_l4_keys float_str_default
              mixed_bundle (fun x => eq_refl)) as [H1 [H2 _]].
  destruct (H1 eq_refl eq_refl) as [r Hr].
  exists r. split; [exact Hr|]. apply H2. exact Hr.
Defined.

(** C10, as stated, fails: the signatures of two bundles verify and
    [run_decryptor] returns no intent for either, raising a type error for
    a null value under an entity tag, an encoding error for an entity name
    with a lone surrogate. *)
Lemma verified_bundles_without_recovered_intent :
  Decryptor.verify_pop_signature float_str_default
    (Decryptor.EncryptedOutput.encrypted_fields none_value_bundle)
    (Decryptor.EncryptedOutput.pop_signature none_value_bundle) = Ok true
  /\ Decryptor.run_decryptor float_str_default none_value_bundle
     = Raise TypeError_NotIterable
  /\ Decryptor.verify_pop_signature float_str_default
       (Decryptor.EncryptedOutput.encrypted_fields surrogate_amount_bundle)
       (Decryptor.EncryptedOutput.pop_signature surrogate_amount_bundle)
     = Ok true
  /\ Decryptor.run_decryptor float_str_default surrogate_amount_bundle
     = Raise UnicodeEncodeError_Surrogates.
Proof. repeat split; vm_compute; reflexivity. Qed.

(** ** The decryptor on bundles of strings

    On a bundle whose values are strings and whose entity names can be
    encoded, [Decryptor.run_decryptor] is [run_decryptor]. *)

Section Strings.

Lemma insert_item_values (g : str -> str) (kv : str * str)
    (l : list (str * str)) :
  Json.insert_item (fst kv, g (snd kv))
    (List.map (fun kv => (fst kv, g (snd kv))) l)
  = List.map (fun kv => (fst kv, g (snd kv))) (Json.insert_item kv l).
Proof.
  induction l as [|kv' l IH]; [reflexivity|].
  cbn [List.map Json.insert_item fst].
  destruct (PyStr.ltb (fst kv) (fst kv')); [reflexivity|].
  cbn [List.map]. now rewrite IH.
Qed.

Lemma sort_items_values (g : str -> str) (d : dict str) :
  Json.sort_items (List.map (fun kv => (fst kv, g (snd kv))) d)
  = List.map (fun kv => (fst kv, g (snd kv))) (Json.sort_items d).
Proof.
  unfold Json.sort_items. induction d as [|kv d IH]; [reflexivity|].
  cbn [List.map fold_right]. rewrite IH. apply insert_item_values.
Qed.

Lemma join_members_items (l : list (str * str)) :
  join_comma
    (List.map encode_member
       (List.map (fun kv => (fst kv, Json.encode_string (snd kv))) l))
  = Json.join_items l.
Proof.
  induction l as [|kv l IH]; [reflexivity|].
  cbn [List.map join_comma Json.join_items].
  destruct l as [|kv' l]; [reflexivity|].
  cbn [List.map] in *. rewrite IH. reflexivity.
Qed.

Variable float_str : float -> str.

Lemma dumps_any_fields (F : dict str) :
  dumps float_str (VDict (any_fields F)) = Json.dumps_sorted F.
Proof.
  unfold any_fields, Json.dumps_sorted. cbn [dumps].
  rewrite map_map. cbn [fst snd dumps].
  rewrite (sort_items_values Json.encode_string), join_members_items.
  reflexivity.
Qed.

Lemma tag_of_any_fields (F : dict str) :
  Decryptor.tag_of float_str (any_fields F) = generate_pop_signature F.
Proof.
  unfold Decryptor.tag_of, generate_pop_signature.
  now rewrite dumps_any_fields.
Qed.

Lemma decrypt_field_str (s key : str) :
  Decryptor.decrypt_field (VStr s) key = Ok (decrypt_field s key).
Proof.
  unfold Decryptor.decrypt_field, decrypt_field. cbv zeta. cbn [py_in bind].
  destruct (PyStr.contains s Tags.omega_alpha);
    destruct (PyStr.contains (PyStr.lower key) (lit "intent"));
    cbn [orb]; try reflexivity;
    destruct (PyStr.contains (PyStr.lower key) (lit "amount"));
    cbn [orb bind]; try reflexivity;
    destruct (PyStr.contains s (Tags.beta_xi_ ++ lit "amount"));
    try reflexivity;
    destruct (PyStr.contains (PyStr.lower key) (lit "account"));
    try reflexivity;
    destruct (PyStr.contains (PyStr.lower key) (lit "to")
              || PyStr.contains (PyStr.lower key) (lit "to_account"));
    try reflexivity;
    destruct (PyStr.contains (PyStr.lower key) (lit "from")
              || PyStr.contains (PyStr.lower key) (lit "from_account"));
    reflexivity.
Qed.

Lemma dict_get_any_fields (F : dict str) (k : str) :
  dict_get (any_fields F) k = option_map VStr (dict_get F k).
Proof.
  induction F as [|[k' v] F IH]; [reflexivity|].
  cbn [any_fields List.map dict_get fst snd].
  destruct (PyStr.eqb k' k); [reflexivity|exact IH].
Qed.

Hypothesis float_str_08 : encodable (float_str 0.8%float) = true.

Lemma loop_any_fields (F : dict str) (d0 : dict str) :
  forallb
    (fun kv : str * str =>
       if PyStr.startswith (fst kv) Tags.beta_xi_
       then encodable (PyStr.slice_from 4 (fst kv)) else true) F = true ->
  fold_left
    (fun (acc : result (dict str)) (item : str * pyval) =>
       bind acc (fun decrypted_fields =>
       let '(field_name, encrypted_value) := item in
       if PyStr.startswith field_name Tags.beta_xi_ then
         let entity_key := PyStr.slice_from 4 field_name in
         bind (Decryptor.derive_role_key float_str entity_key (lit "L4")
                 default_theta) (fun field_key =>
         bind (Decryptor.decrypt_field encrypted_value field_key) (fun plain =>
         Ok (dict_set decrypted_fields entity_key plain)))
       else Ok decrypted_fields))
    (any_fields F) (Ok d0)
  = Ok (fold_left
          (fun (decrypted_fields : dict str) (item : str * str) =>
             let '(field_name, encrypted_value) := item in
             if PyStr.startswith field_name Tags.beta_xi_ then
               let entity_key := PyStr.slice_from 4 field_name in
               let field_key :=
                 derive_role_key float_str entity_key (lit "L4") default_theta in
               dict_set decrypted_fields entity_key
                 (decrypt_field encrypted_value field_key)
             else decrypted_fields)
          F d0).
Proof.
  revert d0. induction F as [|[fname ev] F IH]; intros d0 H; [reflexivity|].
  cbn [forallb fst] in H. apply andb_true_iff in H as [Hn HF].
  cbn [any_fields List.map fst snd].
  rewrite (loop_cons float_str Decryptor.decrypt_field).
  cbn [fold_left].
  destruct (PyStr.startswith fname Tags.beta_xi_); [|now apply IH].
  rewrite (encodable_l4_base float_str _ float_str_08), Hn.
  rewrite decrypt_field_str. cbv zeta.
  rewrite derive_role_key_L4_default. now apply IH.
Qed.

End Strings.

(** The decryptor of the bundles of strings is the decryptor of arbitrary
    bundles, restricted. *)
Lemma run_decryptor_any_bundle (float_str : float -> str)
    (inp : EncryptedOutput.t) :
  (forall x, encodable (float_str x) = true) ->
  forallb
    (fun kv : str * str =>
       if PyStr.startswith (fst kv) Tags.beta_xi_
       then encodable (PyStr.slice_from 4 (fst kv)) else true)
    (EncryptedOutput.encrypted_fields inp) = true ->
  Decryptor.run_decryptor float_str (any_bundle inp)
  = run_decryptor float_str inp.
Proof.
  intros Hf Hn. rewrite (run_decryptor_unfold float_str Hf).
  unfold any_bundle, run_decryptor, verify_pop_signature.
  cbn [Decryptor.EncryptedOutput.encrypted_fields
       Decryptor.EncryptedOutput.pop_signature
       Decryptor.EncryptedOutput.role_tag Decryptor.EncryptedOutput.time_tag].
  rewrite tag_of_any_fields. unfold generate_pop_signature. cbv zeta.
  destruct (PyStr.eqb _ _); [|reflexivity]. cbn [negb].
  unfold Decryptor.decrypt_hkp_fields, Decryptor.decrypt_hkp_fields_with,
    decrypt_hkp_fields.
  cbv zeta. rewrite (intent_entry float_str), dict_get_any_fields, (Hf 0.8%float).
  destruct (dict_get (EncryptedOutput.encrypted_fields inp) Tags.omega_alpha)
    as [v|]; cbn [option_map].
  - rewrite decrypt_field_str. cbn [bind].
    rewrite (loop_any_fields float_str (Hf 0.8%float) _ _ Hn).
    rewrite derive_role_key_L4_default. reflexivity.
  - cbn [bind]. rewrite (loop_any_fields float_str (Hf 0.8%float) _ _ Hn).
    reflexivity.
Qed.
